(** * Wallaby: a tagged result log kept in one SQLite table

    A shallow embedding of [wallaby/__init__.py].  The class [Wallaby]
    talks to SQLite through [_execute]; the embedding keeps that shape:
    every operation builds the SQL text the source builds and hands it,
    with its bound parameters, to a small model of the engine that lexes
    and compiles the text before running it.

    Conventions.
    - Python [str] is [string]; a character is a code point below 256.
    - [time.time()] and the [since] argument are binary64 floats
      ([PrimFloat.float]).
    - A call returns an [outcome]: a value, a Python exception, or
      [Unmodelled] when the SQL text or a JSON text leaves the fragment
      this development gives a meaning to.
    - Configurable resource limits of the interpreter and of the engine
      (recursion depth, statement length, expression depth) are not
      modelled; the 64-bit range of row ids is.
    - Python floats inside a payload are not part of [pyval]. *)

From Stdlib Require Import ZArith List String Ascii Bool Lia Floats.
From Stdlib Require Import DecimalString DecimalZ DecimalFacts.
From Stdlib Require Import Sorted.
Import ListNotations.
Local Open Scope list_scope.
Local Open Scope string_scope.

(** ** Outcomes of a call *)

Inductive exn : Type :=
| ValueError (msg : string)   (* raised by [get_by_tag] itself *)
| TypeError                   (* [json.dumps] / [json.loads] on a value they do not take *)
| JSONDecodeError             (* [json.loads] on a malformed text *)
| SqliteError.                (* any exception coming out of [sqlite3]'s execute *)

Inductive outcome (A : Type) : Type :=
| Return (a : A)
| Raise (e : exn)
| Unmodelled.
Arguments Return {A} a.
Arguments Raise {A} e.
Arguments Unmodelled {A}.

Definition bind {A B} (o : outcome A) (k : A -> outcome B) : outcome B :=
  match o with
  | Return a => k a
  | Raise e => Raise e
  | Unmodelled => Unmodelled
  end.

Definition omap {A B} (f : A -> B) (o : outcome A) : outcome B :=
  bind o (fun a => Return (f a)).

Definition ocons {A} (a : A) (o : outcome (list A)) : outcome (list A) :=
  omap (cons a) o.

(** ** Characters and strings *)

Definition chr (c : ascii) : string := String c EmptyString.
Definition nl : string := chr "010".
Definition dquote : ascii := "034".
Definition squote : ascii := "039".

Definition between (lo hi c : ascii) : bool := Ascii.leb lo c && Ascii.leb c hi.
Definition is_digit (c : ascii) : bool := between "0" "9" c.
Definition is_upper (c : ascii) : bool := between "A" "Z" c.
Definition is_lower (c : ascii) : bool := between "a" "z" c.

(** ASCII case folding, as SQLite does it for keywords and for LIKE. *)
Definition tolower (c : ascii) : ascii :=
  if is_upper c then ascii_of_N (N_of_ascii c + 32) else c.

Fixpoint lower (s : string) : string :=
  match s with
  | EmptyString => EmptyString
  | String c r => String (tolower c) (lower r)
  end.

Definition is_empty (s : string) : bool :=
  match s with EmptyString => true | _ => false end.

Fixpoint string_forallb (p : ascii -> bool) (s : string) : bool :=
  match s with
  | EmptyString => true
  | String c r => p c && string_forallb p r
  end.

Definition has_char (c : ascii) (s : string) : bool :=
  negb (string_forallb (fun d => negb (Ascii.eqb d c)) s).

(** [contains needle hay]: Python's [needle in hay]. *)
Fixpoint contains (needle hay : string) : bool :=
  String.prefix needle hay ||
  match hay with
  | EmptyString => false
  | String _ r => contains needle r
  end.

(** Substring test up to ASCII letter case. *)
Definition contains_nocase (needle hay : string) : bool :=
  contains (lower needle) (lower hay).

Definition starts_with (c : ascii) (s : string) : bool :=
  match s with String d _ => Ascii.eqb d c | EmptyString => false end.

Fixpoint last_char (s : string) : option ascii :=
  match s with
  | EmptyString => None
  | String c EmptyString => Some c
  | String _ r => last_char r
  end.

(** Python's [sep.join(ls)]. *)
Definition join (sep : string) (ls : list string) : string := String.concat sep ls.

(** ** Python values that reach [json.dumps] *)

#[local] Unset Elimination Schemes.

Inductive pykey : Type :=
| KStr (s : string)
| KInt (n : Z).

Inductive pyval : Type :=
| PyNone
| PyBool (b : bool)
| PyInt (n : Z)
| PyStr (s : string)
| PyList (l : list pyval)
| PyDict (d : list (pykey * pyval))   (* insertion order, keys pairwise distinct *)
| PyObject.                           (* a value [json] has no encoding for *)

#[local] Set Elimination Schemes.

(** Induction on a Python value, with the property at hand for every
    element of a list and every value of a dict. *)
Section PyvalInduction.
Variable P : pyval -> Prop.
Hypothesis HNone : P PyNone.
Hypothesis HBool : forall b, P (PyBool b).
Hypothesis HInt : forall n, P (PyInt n).
Hypothesis HStr : forall s, P (PyStr s).
Hypothesis HList : forall l, Forall P l -> P (PyList l).
Hypothesis HDict : forall d, Forall (fun kv => P (snd kv)) d -> P (PyDict d).
Hypothesis HObject : P PyObject.

Fixpoint pyval_induction (v : pyval) : P v :=
  match v with
  | PyNone => HNone
  | PyBool b => HBool b
  | PyInt n => HInt n
  | PyStr s => HStr s
  | PyList l =>
      HList l ((fix elements (l : list pyval) : Forall P l :=
                  match l with
                  | [] => Forall_nil P
                  | x :: r => Forall_cons x (pyval_induction x) (elements r)
                  end) l)
  | PyDict d =>
      HDict d ((fix members (d : list (pykey * pyval)) : Forall (fun kv => P (snd kv)) d :=
                  match d with
                  | [] => Forall_nil _
                  | kv :: r => Forall_cons kv (pyval_induction (snd kv)) (members r)
                  end) d)
  | PyObject => HObject
  end.
End PyvalInduction.

(** ** [json.dumps] with its default arguments
    ([ensure_ascii=True], separators [", "] and [": "], no indentation) *)

Definition hex_digit (n : N) : ascii :=
  if (n <? 10)%N then ascii_of_N (48 + n) else ascii_of_N (87 + n).

(** One character of a JSON string, as [py_encode_basestring_ascii] writes it. *)
Definition escape_char (c : ascii) : string :=
  if Ascii.eqb c dquote then String "\" (chr dquote)
  else if Ascii.eqb c "\" then "\\"
  else if Ascii.eqb c "010" then "\n"
  else if Ascii.eqb c "013" then "\r"
  else if Ascii.eqb c "009" then "\t"
  else if Ascii.eqb c "008" then "\b"
  else if Ascii.eqb c "012" then "\f"
  else if between " " "~" c then chr c
  else "\u00" ++ chr (hex_digit (N_of_ascii c / 16)) ++ chr (hex_digit (N_of_ascii c mod 16)).

Fixpoint escape (s : string) : string :=
  match s with
  | EmptyString => EmptyString
  | String c r => escape_char c ++ escape r
  end.

Definition encode_string (s : string) : string :=
  chr dquote ++ escape s ++ chr dquote.

(** [int.__repr__]: decimal digits, a leading [-] for negatives. *)
Definition repr_int (n : Z) : string := NilZero.string_of_int (Z.to_int n).

(** A dict key that is not a [str] is converted to one. *)
Definition key_text (k : pykey) : string :=
  match k with
  | KStr s => s
  | KInt n => repr_int n
  end.

Fixpoint encode (v : pyval) : string :=
  match v with
  | PyNone => "null"
  | PyBool true => "true"
  | PyBool false => "false"
  | PyInt n => repr_int n
  | PyStr s => encode_string s
  | PyList l => "[" ++ join ", " (map encode l) ++ "]"
  | PyDict d =>
      "{" ++ join ", " (map (fun '(k, x) => encode_string (key_text k) ++ ": " ++ encode x) d) ++ "}"
  | PyObject => EmptyString
  end.

Fixpoint serializable (v : pyval) : bool :=
  match v with
  | PyObject => false
  | PyList l => forallb serializable l
  | PyDict d => forallb (fun '(_, x) => serializable x) d
  | _ => true
  end.

(** [json.dumps(v)]: the text, or [TypeError] when [v] holds a value
    without an encoding. *)
Definition json_dumps (v : pyval) : outcome string :=
  if serializable v then Return (encode v) else Raise TypeError.

(** ** The SQLite engine, as far as Wallaby drives it *)

(** *** Column affinity and stored values *)

Inductive affinity : Type := INTEGER | TEXT | BLOB | REAL | NUMERIC.

(** The affinity of a declared column type (SQLite's five rules, in order). *)
Definition affinity_of (decl : string) : affinity :=
  if contains_nocase "INT" decl then INTEGER
  else if contains_nocase "CHAR" decl || contains_nocase "CLOB" decl
          || contains_nocase "TEXT" decl then TEXT
  else if contains_nocase "BLOB" decl || is_empty decl then BLOB
  else if contains_nocase "REAL" decl || contains_nocase "FLOA" decl
          || contains_nocase "DOUB" decl then REAL
  else NUMERIC.

(** Recogniser of the texts SQLite takes for a number: blanks, a sign,
    digits with an optional fraction and exponent, blanks. *)
Inductive num_state : Type :=
| NStart | NSign | NInt | NDot | NFrac | NExp | NExpSign | NExpDigits | NTrail.

Definition is_space (c : ascii) : bool :=
  Ascii.eqb c " " || Ascii.eqb c "009" || Ascii.eqb c "010"
  || Ascii.eqb c "012" || Ascii.eqb c "013".

Definition is_sign (c : ascii) : bool := Ascii.eqb c "+" || Ascii.eqb c "-".
Definition is_e (c : ascii) : bool := Ascii.eqb c "e" || Ascii.eqb c "E".

Definition num_step (st : num_state) (c : ascii) : option num_state :=
  match st with
  | NStart =>
      if is_space c then Some NStart else if is_sign c then Some NSign
      else if is_digit c then Some NInt else if Ascii.eqb c "." then Some NDot else None
  | NSign =>
      if is_digit c then Some NInt else if Ascii.eqb c "." then Some NDot else None
  | NInt =>
      if is_digit c then Some NInt else if Ascii.eqb c "." then Some NFrac
      else if is_e c then Some NExp else if is_space c then Some NTrail else None
  | NDot => if is_digit c then Some NFrac else None
  | NFrac =>
      if is_digit c then Some NFrac else if is_e c then Some NExp
      else if is_space c then Some NTrail else None
  | NExp =>
      if is_sign c then Some NExpSign else if is_digit c then Some NExpDigits else None
  | NExpSign => if is_digit c then Some NExpDigits else None
  | NExpDigits =>
      if is_digit c then Some NExpDigits else if is_space c then Some NTrail else None
  | NTrail => if is_space c then Some NTrail else None
  end.

Definition num_accepting (st : num_state) : bool :=
  match st with
  | NInt | NFrac | NExpDigits | NTrail => true
  | _ => false
  end.

Fixpoint num_run (st : num_state) (s : string) : bool :=
  match s with
  | EmptyString => num_accepting st
  | String c r =>
      match num_step st c with
      | Some st' => num_run st' r
      | None => false
      end
  end.

Definition is_numeric_literal (s : string) : bool := num_run NStart s.

(** What a column holds after a Python [str] was bound to it: the text, or
    the number the text spells when the column's affinity converts it. *)
Inductive stored : Type :=
| Text (s : string)
| Number (literal : string).

Definition apply_affinity (a : affinity) (s : string) : stored :=
  match a with
  | TEXT | BLOB => Text s
  | INTEGER | REAL | NUMERIC => if is_numeric_literal s then Number s else Text s
  end.

(** *** Tables *)

Record Row : Type := mkRow {
  row_id : Z;
  row_jobtext : string;
  row_tagscsv : string;
  row_date : float;
  row_results : stored
}.

Record Table : Type := mkTable {
  columns : list (list string);   (* per column: name, declared type, constraints *)
  rows : list Row                 (* in rowid order, the order of a table scan *)
}.

Record Database : Type := mkDatabase {
  results_table : option Table;   (* the table named [results], if it exists *)
  statements : list string        (* every SQL text handed to the engine so far *)
}.

(** Values Wallaby binds to [?] placeholders. *)
Inductive pyarg : Type :=
| ArgStr (s : string)
| ArgFloat (f : float).

(** What the process and the engine contribute from outside. *)
Record Env : Type := mkEnv {
  argv : list string;             (* [sys.argv] *)
  now : float;                    (* [time.time()] *)
  rowid_candidates : list Z       (* the engine's random picks once ids are exhausted *)
}.

(** *** Lexing a statement

    Words (keywords and bare identifiers), single-quoted string literals
    with the doubled-quote escape, and a few one-character symbols are the
    tokens of the statements given a meaning here.  Every other token (a
    number, a quoted or bracketed identifier, any other character) is read
    as [TOther], so that a text holding one is outside the statements
    compiled below, but an error further on in the text is still found: a
    literal or a quoted identifier that is not closed is an unrecognized
    token, and text after the [;] that ends the statement is refused by
    [execute].  Comments and blob literals are left to [Unmodelled]. *)

Inductive token : Type :=
| TWord (w : string)
| TString (s : string)
| TSym (c : ascii)
| TOther.

Definition is_alpha (c : ascii) : bool :=
  is_lower c || is_upper c || Ascii.eqb c "_" || Ascii.leb "128" c.

Definition is_symbol (c : ascii) : bool :=
  Ascii.eqb c "," || Ascii.eqb c "%" || Ascii.eqb c "(" || Ascii.eqb c ")"
  || Ascii.eqb c "=" || Ascii.eqb c "*" || Ascii.eqb c "+" || Ascii.eqb c "?"
  || Ascii.eqb c ">" || Ascii.eqb c "<".

(** [x'..'] is a blob literal, not a word followed by a string. *)
Definition is_blob_prefix (w : string) : bool := String.eqb (lower w) "x".

(** The text opens a comment where it stands or further on. *)
Definition has_comment (s : string) : bool := contains "--" s || contains "/*" s.

(** Close the word read so far, if any, in front of what follows. *)
Definition emit (w : string) (k : outcome (list token)) : outcome (list token) :=
  if is_empty w then k else ocons (TWord w) k.

Fixpoint lex (w : string) (s : string) {struct s} : outcome (list token) :=
  match s with
  | EmptyString => emit w (Return [])
  | String c r =>
      if is_alpha c then lex (w ++ chr c) r
      else if is_digit c then
        (if is_empty w then ocons TOther (lex EmptyString r) else lex (w ++ chr c) r)
      else if is_space c then emit w (lex EmptyString r)
      else if Ascii.eqb c squote then
        (if is_blob_prefix w then Unmodelled else emit w (lex_str EmptyString r))
      else if Ascii.eqb c dquote || Ascii.eqb c "`" then emit w (lex_quoted c true r)
      else if Ascii.eqb c "[" then emit w (lex_quoted "]" false r)
      else if Ascii.eqb c ";" then
        (if string_forallb is_space r then emit w (Return [])
         else if has_comment r then Unmodelled
         else Raise SqliteError)             (* more than one statement *)
      else if Ascii.eqb c "-" then
        (if starts_with "-" r then Unmodelled else emit w (ocons TOther (lex EmptyString r)))
      else if Ascii.eqb c "/" then
        (if starts_with "*" r then Unmodelled else emit w (ocons TOther (lex EmptyString r)))
      else if is_symbol c then emit w (ocons (TSym c) (lex EmptyString r))
      else emit w (ocons TOther (lex EmptyString r))
  end
with lex_str (lit : string) (s : string) {struct s} : outcome (list token) :=
  match s with
  | EmptyString => Raise SqliteError         (* unterminated literal: unrecognized token *)
  | String c r =>
      if Ascii.eqb c squote then
        match r with
        | String c' r' =>
            if Ascii.eqb c' squote then lex_str (lit ++ chr squote) r'
            else ocons (TString lit) (lex EmptyString r)
        | EmptyString => ocons (TString lit) (Return [])
        end
      else lex_str (lit ++ chr c) r
  end
with lex_quoted (close : ascii) (doubling : bool) (s : string) {struct s}
  : outcome (list token) :=
  (* inside ["..."], [`...`] (the closing character doubled stands for
     itself) or [[...]] *)
  match s with
  | EmptyString => Raise SqliteError         (* not closed: unrecognized token *)
  | String c r =>
      if Ascii.eqb c close then
        match r with
        | String c' r' =>
            if doubling && Ascii.eqb c' close then lex_quoted close doubling r'
            else ocons TOther (lex EmptyString r)
        | EmptyString => ocons TOther (Return [])
        end
      else lex_quoted close doubling r
  end.

(** *** Compiling a statement *)

Inductive stmt : Type :=
| CreateTableIfNotExists (cols : list (list string))
| InsertInto (names : list string) (marks : nat)
| SelectWhereTags (dnf : list (list string))   (* OR of ANDs of LIKE patterns on [tagscsv] *)
| SelectWhereDateGt.                           (* [date > (?)] *)

Definition kw (k w : string) : bool := String.eqb (lower w) k.
Definition sym (k c : ascii) : bool := Ascii.eqb c k.

Definition extend (p : string) (op : string) (tail : option (list (list string)))
  : option (list (list string)) :=
  match tail with
  | Some (cj :: dj) =>
      if kw "and" op then Some ((p :: cj) :: dj)
      else if kw "or" op then Some ([p] :: cj :: dj)
      else None
  | _ => None
  end.

(** [tagscsv LIKE 'p'] atoms joined by AND and OR; AND binds tighter. *)
Fixpoint parse_where (toks : list token) : option (list (list string)) :=
  match toks with
  | TWord a :: TWord b :: TString p :: rest =>
      if kw "tagscsv" a && kw "like" b then
        match rest with
        | [] => Some [[p]]
        | TWord op :: rest' => extend p op (parse_where rest')
        | _ => None
        end
      else None
  | _ => None
  end.

Definition parse_select (toks : list token) : option stmt :=
  match toks with
  | TWord k1 :: TSym s :: TWord k2 :: TWord t :: TWord k3 :: rest =>
      if kw "select" k1 && sym "*" s && kw "from" k2 && kw "results" t && kw "where" k3 then
        match rest with
        | [TWord a; TSym g; TSym l; TSym q; TSym r] =>
            if kw "date" a && sym ">" g && sym "(" l && sym "?" q && sym ")" r
            then Some SelectWhereDateGt else None
        | _ => option_map SelectWhereTags (parse_where rest)
        end
      else None
  | _ => None
  end.

(** Column definitions up to the closing parenthesis: each is a list of words. *)
Fixpoint parse_coldefs (cur : list string) (toks : list token) : option (list (list string)) :=
  match toks with
  | TWord w :: r => parse_coldefs (cur ++ [w])%list r
  | TSym c :: r =>
      match cur with
      | [] => None
      | _ :: _ =>
          if sym "," c then option_map (cons cur) (parse_coldefs [] r)
          else if sym ")" c then match r with [] => Some [cur] | _ => None end
          else None
      end
  | _ => None
  end.

Definition parse_create (toks : list token) : option stmt :=
  match toks with
  | TWord k1 :: TWord k2 :: TWord k3 :: TWord k4 :: TWord k5 :: TWord t :: TSym l :: rest =>
      if kw "create" k1 && kw "table" k2 && kw "if" k3 && kw "not" k4 && kw "exists" k5
         && kw "results" t && sym "(" l
      then option_map CreateTableIfNotExists (parse_coldefs [] rest) else None
  | _ => None
  end.

Fixpoint parse_names (toks : list token) : option (list string * list token) :=
  match toks with
  | TWord n :: TSym c :: r =>
      if sym ")" c then Some ([n], r)
      else if sym "," c then
        match parse_names r with
        | Some (ns, r') => Some (n :: ns, r')
        | None => None
        end
      else None
  | _ => None
  end.

Fixpoint parse_marks (toks : list token) : option nat :=
  match toks with
  | TSym q :: TSym c :: r =>
      if sym "?" q then
        if sym ")" c then match r with [] => Some 1%nat | _ => None end
        else if sym "," c then option_map S (parse_marks r)
        else None
      else None
  | _ => None
  end.

Definition parse_insert (toks : list token) : option stmt :=
  match toks with
  | TWord k1 :: TWord k2 :: TWord t :: TSym l :: rest =>
      if kw "insert" k1 && kw "into" k2 && kw "results" t && sym "(" l then
        match parse_names rest with
        | Some (names, TWord k3 :: TSym l' :: rest') =>
            if kw "values" k3 && sym "(" l'
            then option_map (InsertInto names) (parse_marks rest') else None
        | _ => None
        end
      else None
  | _ => None
  end.

Definition parse_stmt (toks : list token) : option stmt :=
  match parse_select toks with
  | Some s => Some s
  | None =>
      match parse_create toks with
      | Some s => Some s
      | None => parse_insert toks
      end
  end.

(** *** Running a statement *)

(** SQLite's string functions read a text value as a C string: up to
    its first NUL character.  (The text is stored whole.) *)
Fixpoint c_string (s : string) : string :=
  match s with
  | EmptyString => EmptyString
  | String c r => if Ascii.eqb c "000" then EmptyString else String c (c_string r)
  end.

(** [patternCompare] with the settings of LIKE: [%] is any run of
    characters, [_] any one character, ASCII letters compare without
    case, and there is no escape character. *)
Fixpoint pattern_compare (pat : string) : string -> bool :=
  match pat with
  | EmptyString => is_empty
  | String c p =>
      if Ascii.eqb c "%" then
        fix any (s : string) : bool :=
          pattern_compare p s ||
          match s with
          | EmptyString => false
          | String _ r => any r
          end
      else
        fun s =>
          match s with
          | EmptyString => false
          | String d r =>
              (Ascii.eqb c "_" || Ascii.eqb (tolower c) (tolower d)) && pattern_compare p r
          end
  end.

(** [x LIKE pat] on two texts. *)
Definition like_match (pat x : string) : bool :=
  pattern_compare (c_string pat) (c_string x).

(** The columns Wallaby gives its table. *)
Definition _columns : list (string * string) :=
  [("jobtext", "TEXT"); ("tagscsv", "TEXT"); ("date", "FLOAT"); ("results", "JSON")].

(** The table layout whose rows [Row] describes. *)
Definition row_shape : list (list string) :=
  ["id"; "INTEGER"; "PRIMARY"; "KEY"] :: map (fun '(k, v) => [k; v]) _columns.

Definition shape_ok (cols : list (list string)) : bool :=
  if list_eq_dec (list_eq_dec string_dec) cols row_shape then true else false.

Definition names_ok (names : list string) : bool :=
  if list_eq_dec string_dec (map lower names) (map fst _columns) then true else false.

Definition declared_type (cols : list (list string)) (name : string) : string :=
  match find (fun def => String.eqb (hd EmptyString def) name) cols with
  | Some (_ :: ty :: _) => ty
  | _ => EmptyString
  end.

(** Row ids are signed 64-bit integers. *)
Definition max_rowid : Z := 9223372036854775807.

Fixpoint max_id (rs : list Row) : option Z :=
  match rs with
  | [] => None
  | r :: rs' =>
      match max_id rs' with
      | None => Some (row_id r)
      | Some m => Some (Z.max (row_id r) m)
      end
  end.

Definition id_used (i : Z) (rs : list Row) : bool :=
  existsb (fun r => Z.eqb (row_id r) i) rs.

(** The id of a new row of an [INTEGER PRIMARY KEY] table: 1 in an empty
    table, else one more than the largest id; once the largest possible id
    is taken the engine tries random positive ids and gives up
    ([SQLITE_FULL]) when none of its picks is free. *)
Definition new_rowid (candidates : list Z) (rs : list Row) : option Z :=
  match max_id rs with
  | None => Some 1%Z
  | Some m =>
      if (m <? max_rowid)%Z then Some (m + 1)%Z
      else find (fun c => (1 <=? c)%Z && (c <=? max_rowid)%Z && negb (id_used c rs)) candidates
  end.

(** A table scan walks the rows by ascending id. *)
Fixpoint insert_row (r : Row) (rs : list Row) : list Row :=
  match rs with
  | [] => [r]
  | x :: rs' => if (row_id r <? row_id x)%Z then r :: x :: rs' else x :: insert_row r rs'
  end.

(** [date > ?]; a NaN is bound as NULL and compares as unknown. *)
Definition date_gt (date since : float) : bool :=
  if PrimFloat.is_nan since then false else PrimFloat.ltb since date.

Definition marks_of (s : stmt) : nat :=
  match s with
  | InsertInto _ n => n
  | SelectWhereDateGt => 1
  | _ => 0
  end.

Definition run_stmt (candidates : list Z) (s : stmt) (params : list pyarg) (t : option Table)
  : option Table * outcome (list Row) :=
  if negb (Nat.eqb (List.length params) (marks_of s)) then (t, Raise SqliteError)
  else
    match s, t with
    | CreateTableIfNotExists cols, Some _ => (t, Return [])
    | CreateTableIfNotExists cols, None =>
        if shape_ok cols then (Some (mkTable cols []), Return []) else (t, Unmodelled)
    | _, None => (t, Raise SqliteError)          (* no such table *)
    | InsertInto names _, Some tb =>
        if shape_ok (columns tb) && names_ok names then
          match params with
          | [ArgStr j; ArgStr g; ArgFloat d; ArgStr r] =>
              if PrimFloat.is_nan d then (t, Unmodelled)
              else
                match new_rowid candidates (rows tb) with
                | Some i =>
                    let a := affinity_of (declared_type (columns tb) "results") in
                    (Some (mkTable (columns tb)
                             (insert_row (mkRow i j g d (apply_affinity a r)) (rows tb))),
                     Return [])
                | None => (t, Raise SqliteError)  (* database or disk is full *)
                end
          | _ => (t, Unmodelled)
          end
        else (t, Unmodelled)
    | SelectWhereTags dnf, Some tb =>
        if shape_ok (columns tb) then
          (t, Return (filter (fun r => existsb (forallb (fun p => like_match p (row_tagscsv r))) dnf)
                        (rows tb)))
        else (t, Unmodelled)
    | SelectWhereDateGt, Some tb =>
        if shape_ok (columns tb) then
          match params with
          | [ArgFloat since] => (t, Return (filter (fun r => date_gt (row_date r) since) (rows tb)))
          | _ => (t, Unmodelled)
          end
        else (t, Unmodelled)
    end.

(** Preparing a statement.  The binding refuses a text with a NUL
    character before the engine sees it. *)
Definition compile (sql : string) : outcome stmt :=
  if has_char "000" sql then Raise SqliteError
  else
    bind (lex EmptyString sql) (fun toks =>
      match parse_stmt toks with
      | Some s => Return s
      | None => Unmodelled
      end).

(** [cursor.execute(sql, params)] followed by [fetchall()]. *)
Definition sqlite_execute (candidates : list Z) (sql : string) (params : list pyarg)
  (t : option Table) : option Table * outcome (list Row) :=
  match compile sql with
  | Return s => run_stmt candidates s params t
  | Raise e => (t, Raise e)
  | Unmodelled => (t, Unmodelled)
  end.

(** ** The class [Wallaby]

    The connection is opened by the constructor (through [_initialize]) and
    kept; the state an operation works on is the database behind it. *)

(** [_execute]: run the statement, commit, hand back the cursor's rows. *)
Definition _execute (env : Env) (query : string) (args : list pyarg) (db : Database)
  : Database * outcome (list Row) :=
  let (t, results) := sqlite_execute (rowid_candidates env) query args (results_table db) in
  (mkDatabase t (statements db ++ [query])%list, results).

Definition new_table_cmd : string :=
  let kv := join ("," ++ nl) (map (fun '(k, v) => k ++ " " ++ v) _columns) in
  nl ++ "        CREATE TABLE IF NOT EXISTS results (" ++
  nl ++ "            id INTEGER PRIMARY KEY," ++
  nl ++ "            " ++ kv ++
  nl ++ "        );" ++
  nl ++ "        ".

Definition _initialize (env : Env) (db : Database) : Database * outcome bool :=
  let (db', r) := _execute env new_table_cmd [] db in
  (db', bind r (fun _ => Return true)).

(** [Wallaby(path)]: the constructor, run against the database found at the path. *)
Definition Wallaby (env : Env) (db : Database) : Database * outcome bool :=
  _initialize env db.

Definition insert_cmd : string :=
  nl ++ "            INSERT INTO" ++
  nl ++ "                results(jobtext, tagscsv, date, results)" ++
  nl ++ "            VALUES(?, ?, ?, ?)" ++
  nl ++ "        ".

(** The delimiter-framed tag string of [log]. *)
Definition tagscsv_of (tags : option (list string)) : string :=
  "," ++ (match tags with
          | Some ((_ :: _) as l) => join "," l
          | _ => EmptyString
          end) ++ ",".

(** [jobtext or " ".join(sys.argv[:])] *)
Definition default_jobtext (env : Env) (jobtext : option string) : string :=
  match jobtext with
  | Some ((String _ _) as j) => j
  | _ => join " " (argv env)
  end.

(** A plain string is logged as the one-key document [{"output": s}]. *)
Definition as_document (results : pyval) : pyval :=
  match results with
  | PyStr s => PyDict [(KStr "output", PyStr s)]
  | _ => results
  end.

Definition log (env : Env) (results : pyval) (tags : option (list string))
  (jobtext : option string) (db : Database) : Database * outcome bool :=
  let jobtext := default_jobtext env jobtext in
  let tagscsv := tagscsv_of tags in
  let date := now env in
  let results := as_document results in
  match json_dumps results with
  | Return results =>
      let (db', r) :=
        _execute env insert_cmd [ArgStr jobtext; ArgStr tagscsv; ArgFloat date; ArgStr results] db in
      (db', bind r (fun _ => Return true))
  | Raise e => (db, Raise e)
  | Unmodelled => (db, Unmodelled)
  end.

(** [Union[List[str], str]] *)
Inductive tagarg : Type :=
| OneTag (t : string)
| TagList (l : list string).

(** Python truthiness of an optional tag argument. *)
Definition truthy (a : option tagarg) : bool :=
  match a with
  | None => false
  | Some (OneTag t) => negb (is_empty t)
  | Some (TagList l) => match l with [] => false | _ => true end
  end.

(** Rows as a list of tuples, or as a [pandas.DataFrame] over named columns. *)
Inductive result_set : Type :=
| RowList (rs : list Row)
| DataFrame (cols : list string) (rs : list Row).

Definition records (r : result_set) : list Row :=
  match r with
  | RowList rs => rs
  | DataFrame _ rs => rs
  end.

Definition render (as_dataframe : bool) (rs : list Row) : result_set :=
  if as_dataframe then DataFrame ("id" :: map fst _columns) rs else RowList rs.

Definition tag_clause_of (set_operation : string) (taglist : list string) : string :=
  join set_operation (map (fun t => "tagscsv LIKE '%," ++ t ++ ",%'") taglist).

Definition select_by_tag_cmd (tag_clause : string) : string :=
  nl ++ "            SELECT * FROM results WHERE " ++ tag_clause ++
  nl ++ "        ".

Definition get_by_tag (env : Env) (all_of any_of : option tagarg) (as_dataframe : bool)
  (db : Database) : Database * outcome result_set :=
  let set_operation :=
    if truthy all_of then Some " AND "
    else if truthy any_of then Some " OR "
    else None in
  match set_operation with
  | None => (db, Raise (ValueError "You must specify exactly one of `any_of` or `all_of`."))
  | Some set_operation =>
      let taglist := if truthy all_of then all_of else any_of in
      let taglist :=
        match taglist with
        | Some (OneTag t) => [t]
        | Some (TagList l) => l
        | None => []
        end in
      let tag_clause := tag_clause_of set_operation taglist in
      let (db', r) := _execute env (select_by_tag_cmd tag_clause) [] db in
      (db', omap (render as_dataframe) r)
  end.

Definition select_since_cmd : string :=
  nl ++ "            SELECT * FROM results WHERE date > (?)" ++
  nl ++ "        ".

Definition get_results_since (env : Env) (since : float) (as_dataframe : bool)
  (db : Database) : Database * outcome result_set :=
  let (db', r) := _execute env select_since_cmd [ArgFloat since] db in
  (db', omap (render as_dataframe) r).

(** What [raw_query] hands back: with [as_dataframe] the frame pandas
    builds by reading the cursor at once, otherwise the [sqlite3.Cursor]
    itself, not yet read.  [pending] are the rows the cursor has to give:
    what reading it yields as long as the table is not changed first. *)
Inductive raw_result : Type :=
| Cursor (pending : list Row)
| Frame (cols : list string) (rs : list Row).

Definition raw_query (env : Env) (query : string) (as_dataframe : bool)
  (db : Database) : Database * outcome raw_result :=
  let (db', results) := _execute env query [] db in
  (db', omap (fun rs => if as_dataframe then Frame ("id" :: map fst _columns) rs
                        else Cursor rs) results).

(** ** [json.loads] with its default arguments (the strict decoder) *)

Definition is_json_ws (c : ascii) : bool :=
  Ascii.eqb c " " || Ascii.eqb c "009" || Ascii.eqb c "010" || Ascii.eqb c "013".

Fixpoint skip_ws (s : string) : string :=
  match s with
  | String c r => if is_json_ws c then skip_ws r else s
  | EmptyString => s
  end.

Definition hex_value (c : ascii) : option N :=
  if is_digit c then Some (N_of_ascii c - 48)%N
  else if between "a" "f" c then Some (N_of_ascii c - 87)%N
  else if between "A" "F" c then Some (N_of_ascii c - 55)%N
  else None.

Definition hex4 (a b c d : ascii) : option N :=
  match hex_value a, hex_value b, hex_value c, hex_value d with
  | Some x, Some y, Some z, Some w => Some (((x * 16 + y) * 16 + z) * 16 + w)%N
  | _, _, _, _ => None
  end.

(** The character a backslash escape other than [\u] stands for. *)
Definition unescape (e : ascii) : option ascii :=
  if Ascii.eqb e dquote then Some dquote
  else if Ascii.eqb e "\" then Some "\"%char
  else if Ascii.eqb e "/" then Some "/"%char
  else if Ascii.eqb e "b" then Some "008"%char
  else if Ascii.eqb e "f" then Some "012"%char
  else if Ascii.eqb e "n" then Some "010"%char
  else if Ascii.eqb e "r" then Some "013"%char
  else if Ascii.eqb e "t" then Some "009"%char
  else None.

Definition push (c : ascii) (o : outcome (string * string)) : outcome (string * string) :=
  omap (fun '(lit, rest) => (String c lit, rest)) o.

(** [scanstring], entered after the opening quote: the decoded text and
    what follows the closing quote.  A [\u] escape of a code point from
    256 on is outside the strings modelled here. *)
Fixpoint scanstring (s : string) : outcome (string * string) :=
  match s with
  | EmptyString => Raise JSONDecodeError
  | String c r =>
      if Ascii.eqb c dquote then Return (EmptyString, r)
      else if Ascii.eqb c "\" then
        match r with
        | EmptyString => Raise JSONDecodeError
        | String e r1 =>
            if Ascii.eqb e "u" then
              match r1 with
              | String h1 (String h2 (String h3 (String h4 r2))) =>
                  match hex4 h1 h2 h3 h4 with
                  | Some n =>
                      if (n <? 256)%N then push (ascii_of_N n) (scanstring r2) else Unmodelled
                  | None => Raise JSONDecodeError
                  end
              | _ => Raise JSONDecodeError
              end
            else
              match unescape e with
              | Some d => push d (scanstring r1)
              | None => Raise JSONDecodeError
              end
        end
      else if Ascii.ltb c " " then Raise JSONDecodeError
      else push c (scanstring r)
  end.

Fixpoint take_digits (s : string) : string * string :=
  match s with
  | String c r =>
      if is_digit c then let (ds, rest) := take_digits r in (String c ds, rest)
      else (EmptyString, s)
  | EmptyString => (EmptyString, s)
  end.

(** The integer the digits spell; a fraction or an exponent after them
    makes the number a float. *)
Definition finish_number (negative : bool) (ds rest : string) : outcome (pyval * string) :=
  if starts_with "." rest || starts_with "e" rest || starts_with "E" rest then Unmodelled
  else
    match NilEmpty.uint_of_string ds with
    | Some u => Return (PyInt (if negative then - Z.of_uint u else Z.of_uint u)%Z, rest)
    | None => Raise JSONDecodeError
    end.

Definition scan_digits (negative : bool) (s : string) : outcome (pyval * string) :=
  match s with
  | String c r =>
      if Ascii.eqb c "0" then finish_number negative "0" r
      else if is_digit c then
        let (ds, rest) := take_digits r in finish_number negative (String c ds) rest
      else if Ascii.eqb c "I" || Ascii.eqb c "N" then Unmodelled   (* Infinity, NaN *)
      else Raise JSONDecodeError
  | EmptyString => Raise JSONDecodeError
  end.

Definition scan_number (s : string) : outcome (pyval * string) :=
  match s with
  | String c r => if Ascii.eqb c "-" then scan_digits true r else scan_digits false s
  | EmptyString => Raise JSONDecodeError
  end.

(** [s] without its prefix [p], when it has that prefix. *)
Fixpoint drop_prefix (p s : string) : option string :=
  match p with
  | EmptyString => Some s
  | String a p' =>
      match s with
      | String b s' => if Ascii.eqb a b then drop_prefix p' s' else None
      | EmptyString => None
      end
  end.

Definition scan_word (word : string) (v : pyval) (s : string) : outcome (pyval * string) :=
  match drop_prefix word s with
  | Some rest => Return (v, rest)
  | None => Raise JSONDecodeError
  end.

Definition key_eqb (a b : pykey) : bool :=
  match a, b with
  | KStr x, KStr y => String.eqb x y
  | KInt x, KInt y => Z.eqb x y
  | _, _ => false
  end.

(** [d[k] = v] on an insertion-ordered dict. *)
Fixpoint dict_set (d : list (pykey * pyval)) (k : pykey) (v : pyval) : list (pykey * pyval) :=
  match d with
  | [] => [(k, v)]
  | (k', v') :: d' => if key_eqb k' k then (k', v) :: d' else (k', v') :: dict_set d' k v
  end.

(** [dict(pairs)] *)
Definition dict_of_pairs (pairs : list (string * pyval)) : list (pykey * pyval) :=
  fold_left (fun d '(k, v) => dict_set d (KStr k) v) pairs [].

(** [scan_once] with [JSONArray] and [JSONObject]; the fuel bounds the
    number of values and separators still to be read. *)
Fixpoint scan_once (fuel : nat) (s : string) {struct fuel} : outcome (pyval * string) :=
  match fuel with
  | O => Unmodelled
  | S fuel =>
      match s with
      | EmptyString => Raise JSONDecodeError
      | String c r =>
          if Ascii.eqb c dquote then omap (fun '(lit, rest) => (PyStr lit, rest)) (scanstring r)
          else if Ascii.eqb c "{" then
            match skip_ws r with
            | String c1 r1 =>
                if Ascii.eqb c1 "}" then Return (PyDict [], r1)
                else if Ascii.eqb c1 dquote then
                  omap (fun '(pairs, rest) => (PyDict (dict_of_pairs pairs), rest))
                       (object_items fuel r1)
                else Raise JSONDecodeError
            | EmptyString => Raise JSONDecodeError
            end
          else if Ascii.eqb c "[" then
            match skip_ws r with
            | String c1 r1 =>
                if Ascii.eqb c1 "]" then Return (PyList [], r1)
                else omap (fun '(vs, rest) => (PyList vs, rest)) (array_items fuel (String c1 r1))
            | EmptyString => Raise JSONDecodeError
            end
          else if Ascii.eqb c "n" then scan_word "null" PyNone s
          else if Ascii.eqb c "t" then scan_word "true" (PyBool true) s
          else if Ascii.eqb c "f" then scan_word "false" (PyBool false) s
          else scan_number s
      end
  end
with array_items (fuel : nat) (s : string) {struct fuel} : outcome (list pyval * string) :=
  match fuel with
  | O => Unmodelled
  | S fuel =>
      bind (scan_once fuel s) (fun '(v, s1) =>
        match skip_ws s1 with
        | String c r =>
            if Ascii.eqb c "]" then Return ([v], r)
            else if Ascii.eqb c "," then
              omap (fun '(vs, rest) => (v :: vs, rest)) (array_items fuel (skip_ws r))
            else Raise JSONDecodeError
        | EmptyString => Raise JSONDecodeError
        end)
  end
with object_items (fuel : nat) (s : string) {struct fuel}
  : outcome (list (string * pyval) * string) :=
  (* entered after the opening quote of a key *)
  match fuel with
  | O => Unmodelled
  | S fuel =>
      bind (scanstring s) (fun '(key, s1) =>
        match skip_ws s1 with
        | String c r =>
            if Ascii.eqb c ":" then
              bind (scan_once fuel (skip_ws r)) (fun '(v, s2) =>
                match skip_ws s2 with
                | String c2 r2 =>
                    if Ascii.eqb c2 "}" then Return ([(key, v)], r2)
                    else if Ascii.eqb c2 "," then
                      match skip_ws r2 with
                      | String c3 r3 =>
                          if Ascii.eqb c3 dquote then
                            omap (fun '(ps, rest) => ((key, v) :: ps, rest)) (object_items fuel r3)
                          else Raise JSONDecodeError
                      | EmptyString => Raise JSONDecodeError
                      end
                    else Raise JSONDecodeError
                | EmptyString => Raise JSONDecodeError
                end)
            else Raise JSONDecodeError
        | EmptyString => Raise JSONDecodeError
        end)
  end.

(** [json.loads(s)] for a [str]. *)
Definition json_loads (s : string) : outcome pyval :=
  bind (scan_once (S (String.length s)) (skip_ws s)) (fun '(v, rest) =>
    if is_empty (skip_ws rest) then Return v else Raise JSONDecodeError).

(** [json.loads] on what a row hands back: a number is not a text. *)
Definition json_loads_stored (x : stored) : outcome pyval :=
  match x with
  | Text s => json_loads s
  | Number _ => Raise TypeError
  end.

(** ** Sequences of calls *)

Inductive call : Type :=
| CallWallaby (env : Env)
| CallLog (env : Env) (results : pyval) (tags : option (list string)) (jobtext : option string)
| CallGetByTag (env : Env) (all_of any_of : option tagarg) (as_dataframe : bool)
| CallGetResultsSince (env : Env) (since : float) (as_dataframe : bool).

Definition after (c : call) (db : Database) : Database :=
  match c with
  | CallWallaby env => fst (Wallaby env db)
  | CallLog env results tags jobtext => fst (log env results tags jobtext db)
  | CallGetByTag env all_of any_of df => fst (get_by_tag env all_of any_of df db)
  | CallGetResultsSince env since df => fst (get_results_since env since df db)
  end.

Definition run (calls : list call) (db : Database) : Database :=
  fold_left (fun d c => after c d) calls db.

(** A location nothing was ever written to. *)
Definition empty_database : Database := mkDatabase None [].

(** The databases Wallaby itself can produce. *)
Definition reachable (db : Database) : Prop :=
  exists env calls, db = run calls (fst (Wallaby env empty_database)).

Definition rows_of (db : Database) : list Row :=
  match results_table db with
  | Some t => rows t
  | None => []
  end.

(** ** The specification's vocabulary *)

(** The row [log] writes under id [i] for a payload serialised as [text]. *)
Definition new_row (i : Z) (env : Env) (tags : option (list string))
  (jobtext : option string) (text : string) : Row :=
  mkRow i (default_jobtext env jobtext) (tagscsv_of tags) (now env)
        (apply_affinity (affinity_of "JSON") text).

(** A database holding Wallaby's table. *)
Definition provisioned (db : Database) (tb : Table) : Prop :=
  results_table db = Some tb /\ columns tb = row_shape.

Definition DELIM : string := ",".

(** [tag1 + DELIM + tag2 + DELIM + ... + tagN + DELIM] *)
Fixpoint delimited (tags : list string) : string :=
  match tags with
  | [] => EmptyString
  | t :: rest => t ++ DELIM ++ delimited rest
  end.

(** The delimited tag string the specification describes. *)
Definition spec_tagscsv (tags : list string) : string :=
  match tags with
  | [] => DELIM ++ DELIM
  | _ :: _ => DELIM ++ delimited tags
  end.

(** A string that begins and ends with the delimiter. *)
Definition framed (s : string) : bool :=
  starts_with "," s && match s with
                       | String _ r => match last_char r with
                                       | Some c => Ascii.eqb c ","
                                       | None => false
                                       end
                       | EmptyString => false
                       end.

(** Python's [s.split(d)] for a one-character separator. *)
Fixpoint split_on (d : ascii) (s : string) : list string :=
  match s with
  | EmptyString => [EmptyString]
  | String c r =>
      if Ascii.eqb c d then EmptyString :: split_on d r
      else match split_on d r with
           | [] => [chr c]
           | x :: xs => String c x :: xs
           end
  end.

(** Ids [k], [k+1], [k+2], ... in row order. *)
Fixpoint dense_from (k : Z) (rs : list Row) : Prop :=
  match rs with
  | [] => True
  | r :: rs' => row_id r = k /\ dense_from (k + 1) rs'
  end.

(** What holds of every database Wallaby produces: its table has
    Wallaby's layout, the ids count up from 1 and every tag string is
    framed by the delimiter. *)
Definition store_inv (db : Database) : Prop :=
  exists tb,
    provisioned db tb /\
    dense_from 1 (rows tb) /\
    Forall (fun r => framed (row_tagscsv r) = true) (rows tb).

(** Statements that only read. *)
Definition is_select (s : stmt) : Prop :=
  match s with
  | SelectWhereTags _ | SelectWhereDateGt => True
  | _ => False
  end.

(** What a call hands back to its caller. *)
Inductive answer : Type :=
| Flag (b : outcome bool)
| Records (r : outcome result_set).

Definition answer_of (c : call) (db : Database) : answer :=
  match c with
  | CallWallaby env => Flag (snd (Wallaby env db))
  | CallLog env results tags jobtext => Flag (snd (log env results tags jobtext db))
  | CallGetByTag env all_of any_of df => Records (snd (get_by_tag env all_of any_of df db))
  | CallGetResultsSince env since df => Records (snd (get_results_since env since df db))
  end.

(** The answers of a sequence of calls, in order. *)
Fixpoint answers (calls : list call) (db : Database) : list answer :=
  match calls with
  | [] => []
  | c :: rest => answer_of c db :: answers rest (after c db)
  end.

(** The LIKE pattern [get_by_tag] writes for a tag. *)
Definition like_pattern (t : string) : string := "%," ++ t ++ ",%".

(** The tokens of a tag clause whose literals end where they were meant to. *)
Fixpoint clause_tokens (op : string) (tags : list string) : list token :=
  match tags with
  | [] => []
  | [t] => [TWord "tagscsv"; TWord "LIKE"; TString (like_pattern t)]
  | t :: rest =>
      TWord "tagscsv" :: TWord "LIKE" :: TString (like_pattern t) :: TWord op
        :: clause_tokens op rest
  end.

(** A tag that cannot end the SQL literal it is written into: no single
    quote and no NUL. *)
Definition sql_safe (t : string) : bool :=
  negb (has_char squote t) && negb (has_char "000" t).

(** A tag that, in addition, holds no LIKE wildcard. *)
Definition plain_tag (t : string) : bool :=
  sql_safe t && negb (has_char "%" t) && negb (has_char "_" t).

(** The tag test of the specification: the delimited tag string contains
    [DELIM + t + DELIM]. *)
Definition carries (t : string) (r : Row) : bool :=
  contains (DELIM ++ t ++ DELIM) (row_tagscsv r).

(** The same test up to the case of ASCII letters. *)
Definition carries_nocase (t : string) (r : Row) : bool :=
  contains_nocase (DELIM ++ t ++ DELIM) (row_tagscsv r).

(** The test LIKE makes for a plain tag: [DELIM + t + DELIM], up to the
    case of ASCII letters, in the tag string read up to its first NUL. *)
Definition matches_tag (t : string) (r : Row) : bool :=
  contains_nocase (DELIM ++ t ++ DELIM) (c_string (row_tagscsv r)).

(** A string without NUL. *)
Definition nul_free (s : string) : bool := negb (has_char "000" s).

(** [r] is among the records a query handed back. *)
Definition returned (o : outcome result_set) (r : Row) : Prop :=
  exists rs, o = Return rs /\ In r (records rs).

(** Characters that continue a bare word, and blanks. *)
Definition word_or_blank (c : ascii) : bool := is_alpha c || Ascii.eqb c " ".

(** ** JSON documents *)

Definition is_str_key (k : pykey) : bool :=
  match k with
  | KStr _ => true
  | KInt _ => false
  end.

Fixpoint distinct (ks : list pykey) : bool :=
  match ks with
  | [] => true
  | k :: rest => negb (existsb (key_eqb k) rest) && distinct rest
  end.

(** A value that is a JSON document as it stands: every value has an
    encoding, every dict key is a string, and (as in any Python dict) the
    keys of a dict are pairwise distinct. *)
Fixpoint json_document (v : pyval) : bool :=
  match v with
  | PyObject => false
  | PyList l => forallb json_document l
  | PyDict d => forallb (fun '(k, x) => is_str_key k && json_document x) d && distinct (map fst d)
  | _ => true
  end.

(** What may follow a value inside a JSON text. *)
Definition terminated (rest : string) : bool :=
  match rest with
  | EmptyString => true
  | String c _ => Ascii.eqb c "," || Ascii.eqb c "]" || Ascii.eqb c "}"
  end.

(** The characters a JSON text written by [encode] can start with. *)
Definition value_start (c : ascii) : bool :=
  is_digit c || Ascii.eqb c "-" || Ascii.eqb c dquote || Ascii.eqb c "[" || Ascii.eqb c "{"
  || Ascii.eqb c "n" || Ascii.eqb c "t" || Ascii.eqb c "f".

(** [v] is read back from its encoding, in front of anything that may
    follow a value, as soon as the fuel covers the length of the text. *)
Definition decodes (v : pyval) : Prop :=
  forall fuel rest,
    (String.length (encode v) <= fuel)%nat ->
    terminated rest = true ->
    scan_once fuel (encode v ++ rest) = Return (v, rest).

(** The text of one dict member, and of the members of a dict. *)
Definition member_text (kv : pykey * pyval) : string :=
  let '(k, x) := kv in encode_string (key_text k) ++ ": " ++ encode x.

Definition members_text (d : list (pykey * pyval)) : string :=
  join ", " (map member_text d).

Definition items_text (l : list pyval) : string := join ", " (map encode l).

(** What follows a member inside the text of a dict. *)
Definition members_rest (d : list (pykey * pyval)) (rest : string) : string :=
  match d with
  | [] => "}" ++ rest
  | _ :: _ => ", " ++ members_text d ++ "}" ++ rest
  end.

(** The pairs [JSONObject] collects for the members of a dict. *)
Definition pairs_of (d : list (pykey * pyval)) : list (string * pyval) :=
  map (fun kv => (key_text (fst kv), snd kv)) d.

(** ** The repository's test scenario *)

(** [test_can_get_by_tag]: a new store, one record logged with the tags
    foo and bar. *)
Definition test_env : Env := mkEnv ["pytest"] 1700000000%float [].

Definition test_store : Database :=
  fst (log test_env (PyDict [(KStr "favorite_number", PyInt 42)]) (Some ["foo"; "bar"]) None
         (fst (Wallaby test_env empty_database))).

(** [len(w.get_by_tag(...))] *)
Definition count (o : outcome result_set) : outcome nat :=
  omap (fun r => List.length (records r)) o.

(** ** The command-line entry points *)

(** The parsed arguments of [cli]: [--command] and [--tags]; the
    [--database-file] argument picks the database the call works on. *)
Record Args : Type := mkArgs {
  args_command : string;
  args_tags : string;
  (* arguments reach a process as C strings: they hold no NUL *)
  args_are_c_strings : nul_free args_command && nul_free args_tags = true
}.

(** How a command run by the shell ends: with exit status 0 and an output
    that decodes, with another exit status, or with an output that is not
    UTF-8. *)
Inductive completed : Type :=
| Output (text : string)
| ExitStatus (returncode : Z)
| Undecodable.

(** What the process around [cli] supplies: [os.environ], the standard
    input, and the shell;  [shell command environment] is the command run
    on an empty standard input. *)
Record Process : Type := mkProcess {
  environ : list (string * string);
  stdin_isatty : bool;
  stdin_read : string;
  shell : string -> list (string * string) -> completed
}.

(** The exceptions of [cli]: those of the subprocess, and those of the
    store. *)
Inductive cli_exn : Type :=
| CalledProcessError (returncode : Z)
| UnicodeDecodeError
| Raised (e : exn).

Inductive cli_outcome (A : Type) : Type :=
| Done (a : A)
| Failed (e : cli_exn)
| NotModelled.

Arguments Done {A} a.
Arguments Failed {A} e.
Arguments NotModelled {A}.

Definition lift {A : Type} (o : outcome A) : cli_outcome A :=
  match o with
  | Return a => Done a
  | Raise e => Failed (Raised e)
  | Unmodelled => NotModelled
  end.

(** [subprocess.check_output(command, shell=True, env=environment,
    input=input).decode()] for an [input] that is a [str]: the pipes are
    binary, so a non-empty [str] cannot be written and [communicate]
    raises [TypeError]; an empty one is never written and the command
    runs on an empty standard input. *)
Definition check_output (proc : Process) (command : string)
  (environment : list (string * string)) (input : string) : cli_outcome string :=
  if is_empty input then
    match shell proc command environment with
    | Output text => Done text
    | ExitStatus returncode => Failed (CalledProcessError returncode)
    | Undecodable => Failed UnicodeDecodeError
    end
  else Failed (Raised TypeError).

(** [dict(os.environ)] as a Python value. *)
Definition environment_document (environment : list (string * string)) : pyval :=
  PyDict (map (fun '(k, v) => (KStr k, PyStr v)) environment).

(** [s or None] *)
Definition or_none (s : string) : option string :=
  if is_empty s then None else Some s.

(** The results dict [cli] builds for an execution. *)
Definition cli_result (environment : list (string * string)) (output command : string) : pyval :=
  PyDict [(KStr "environment", environment_document environment);
          (KStr "output", PyStr output);
          (KStr "command", match or_none command with
                           | Some c => PyStr c
                           | None => PyNone
                           end)].

(** The output of the execution: that of the command run on the standard
    input, or, without a command, the standard input itself (empty on a
    terminal). *)
Definition cli_output (proc : Process) (args : Args) : cli_outcome string :=
  let environment := environ proc in
  let stdin := if stdin_isatty proc then EmptyString else stdin_read proc in
  if is_empty (args_command args) then Done stdin
  else check_output proc (args_command args) environment stdin.

(** [cli]: run the command (or take the standard input), log the result
    under the tag [cli] and the given tags, print the output.  The value
    returned is the text printed. *)
Definition cli (env : Env) (proc : Process) (args : Args) (db : Database)
  : Database * cli_outcome string :=
  match cli_output proc args with
  | Done output =>
      let result := cli_result (environ proc) output (args_command args) in
      let other_tags :=
        if is_empty (args_tags args) then [] else split_on "," (args_tags args) in
      let (db1, w) := Wallaby env db in
      match w with
      | Return _ =>
          let (db2, r) :=
            log env result (Some ("cli" :: other_tags)) (or_none (args_command args)) db1 in
          (db2, lift (omap (fun _ => output) r))
      | Raise e => (db1, Failed (Raised e))
      | Unmodelled => (db1, NotModelled)
      end
  | Failed e => (db, Failed e)
  | NotModelled => (db, NotModelled)
  end.

(** [Series.map(json.loads)] over the results column: every row with its
    decoded document, or the first exception. *)
Fixpoint map_loads (rs : list Row) : outcome (list (Row * pyval)) :=
  match rs with
  | [] => Return []
  | r :: rest =>
      bind (json_loads_stored (row_results r)) (fun v =>
        omap (cons (r, v)) (map_loads rest))
  end.

(** [wallaby2json] up to and including the decoding of the results
    column: the store is opened, the records carrying all of the
    comma-separated tags are fetched as a frame, and each stored document
    is decoded.  The flattening and printing of the frame that follow are
    pandas' and are not modelled. *)
Definition wallaby2json_documents (env : Env) (all_tags : string) (db : Database)
  : Database * outcome (list (Row * pyval)) :=
  let (db1, w) := Wallaby env db in
  match w with
  | Return _ =>
      let all_tags := split_on "," all_tags in
      let (db2, res) := get_by_tag env (Some (TagList all_tags)) None true db1 in
      (db2, bind res (fun res => map_loads (records res)))
  | Raise e => (db1, Raise e)
  | Unmodelled => (db1, Unmodelled)
  end.

(** ** Vocabulary of the further properties *)

(** The tags a record is stored with: the tags given to [log], or one
    empty tag when none was given (both are written [,,]). *)
Definition stored_tags (tags : option (list string)) : list string :=
  match tags with
  | Some ((_ :: _) as l) => l
  | _ => [EmptyString]
  end.

(** Equality of two tags up to the case of ASCII letters. *)
Definition same_tag (t u : string) : bool := String.eqb (lower t) (lower u).

(** Printable ASCII, the characters [json.dumps] writes. *)
Definition printable (c : ascii) : bool := between " " "~" c.

(** Rows listed by strictly increasing id. *)
Definition by_increasing_id (rs : list Row) : Prop :=
  StronglySorted (fun a b => (row_id a < row_id b)%Z) rs.

(** The test the pattern [%,,%] makes: two delimiters in a row. *)
Definition has_empty_tag (r : Row) : bool := contains ",," (c_string (row_tagscsv r)).

(** The tags [cli] logs under: [["cli", *other_tags]]. *)
Definition cli_tags (args : Args) : list string :=
  "cli" :: (if is_empty (args_tags args) then [] else split_on "," (args_tags args)).

(** The test of the statement [get_by_tag] runs for [all_of]: every
    tag's pattern matches the record's tag string. *)
Definition selected (tags : list string) (r : Row) : bool :=
  forallb (fun t => like_match (like_pattern t) (row_tagscsv r)) tags.

(** Every document of the report is the decoding of its record. *)
Definition decoded (docs : list (Row * pyval)) : Prop :=
  Forall (fun '(r, v) => json_loads_stored (row_results r) = Return v) docs.

(** The characters of a stored value, text or number. *)
Definition stored_text (x : stored) : string :=
  match x with
  | Text s => s
  | Number literal => literal
  end.

(** What [get_by_tag] writes after the last tag of its statement. *)
Definition clause_tail : string := ",%'" ++ nl ++ "        ".

(** * Properties *)

(** ** Strings *)

Lemma append_nil_r (s : string) : s ++ EmptyString = s.
Proof. induction s as [|c s IH]; simpl; [reflexivity | now rewrite IH]. Qed.

Lemma append_assoc (a b c : string) : (a ++ b) ++ c = a ++ (b ++ c).
Proof. induction a as [|x a IH]; simpl; [reflexivity | now rewrite IH]. Qed.

Lemma prefix_nil (s : string) : String.prefix EmptyString s = true.
Proof. destruct s; reflexivity. Qed.

Lemma prefix_cons a s b r :
  String.prefix (String a s) (String b r) = Ascii.eqb a b && String.prefix s r.
Proof.
  cbn [String.prefix]. destruct (ascii_dec a b) as [->|Hne].
  - now rewrite Ascii.eqb_refl.
  - apply Ascii.eqb_neq in Hne. now rewrite Hne.
Qed.

Lemma length_append (a b : string) :
  String.length (a ++ b) = (String.length a + String.length b)%nat.
Proof. induction a as [|x a IH]; simpl; [reflexivity | now rewrite IH]. Qed.

Lemma forallb_append p (a b : string) :
  string_forallb p (a ++ b) = string_forallb p a && string_forallb p b.
Proof.
  induction a as [|x a IH]; simpl; [reflexivity|].
  now rewrite IH, andb_assoc.
Qed.

Lemma has_char_append c (a b : string) :
  has_char c (a ++ b) = has_char c a || has_char c b.
Proof. unfold has_char. now rewrite forallb_append, negb_andb. Qed.

Lemma last_char_append_chr (s : string) (c : ascii) : last_char (s ++ chr c) = Some c.
Proof.
  induction s as [|x s IH]; simpl; [reflexivity|].
  rewrite IH. destruct s; reflexivity.
Qed.

(** ** The tag string written by [log] *)

Lemma join_delimited (t : string) (tags : list string) :
  join "," (t :: tags) ++ "," = delimited (t :: tags).
Proof.
  revert t. induction tags as [|u tags IH]; intros t.
  - reflexivity.
  - change (join "," (t :: u :: tags)) with (t ++ "," ++ join "," (u :: tags)).
    rewrite !append_assoc, IH. reflexivity.
Qed.

Lemma tagscsv_of_spec (tags : list string) :
  tagscsv_of (Some tags) = spec_tagscsv tags.
Proof.
  destruct tags as [|t tags]; [reflexivity|].
  unfold tagscsv_of, spec_tagscsv. now rewrite join_delimited.
Qed.

Lemma tagscsv_of_framed (tags : option (list string)) : framed (tagscsv_of tags) = true.
Proof.
  unfold tagscsv_of.
  set (body := match tags with Some ((_ :: _) as l) => join "," l | _ => EmptyString end).
  change ("," ++ body ++ ",") with (String "," (body ++ chr ",")).
  unfold framed, starts_with.
  rewrite last_char_append_chr. reflexivity.
Qed.

(** ** The fixed statements *)

Lemma compile_new_table_cmd :
  compile new_table_cmd = Return (CreateTableIfNotExists row_shape).
Proof. reflexivity. Qed.

Lemma compile_insert_cmd :
  compile insert_cmd = Return (InsertInto ["jobtext"; "tagscsv"; "date"; "results"] 4).
Proof. reflexivity. Qed.

Lemma compile_select_since_cmd : compile select_since_cmd = Return SelectWhereDateGt.
Proof. reflexivity. Qed.

Lemma shape_ok_true (cols : list (list string)) : shape_ok cols = true <-> cols = row_shape.
Proof.
  unfold shape_ok. destruct (list_eq_dec _ cols row_shape); split; congruence.
Qed.

Lemma results_affinity : affinity_of (declared_type row_shape "results") = NUMERIC.
Proof. reflexivity. Qed.

(** ** The constructor *)

Lemma Wallaby_existing env db tb :
  results_table db = Some tb ->
  Wallaby env db = (mkDatabase (Some tb) (statements db ++ [new_table_cmd])%list, Return true).
Proof.
  intros H. unfold Wallaby, _initialize, _execute, sqlite_execute.
  rewrite compile_new_table_cmd, H. reflexivity.
Qed.

Lemma Wallaby_fresh env db :
  results_table db = None ->
  Wallaby env db =
  (mkDatabase (Some (mkTable row_shape [])) (statements db ++ [new_table_cmd])%list, Return true).
Proof.
  intros H. unfold Wallaby, _initialize, _execute, sqlite_execute.
  rewrite compile_new_table_cmd, H. reflexivity.
Qed.

(** ** What [log] does to the table *)

Lemma log_outcome env results tags jobtext db :
  (exists tb text i,
      provisioned db tb /\
      json_dumps (as_document results) = Return text /\
      PrimFloat.is_nan (now env) = false /\
      new_rowid (rowid_candidates env) (rows tb) = Some i /\
      log env results tags jobtext db =
      (mkDatabase (Some (mkTable row_shape
                           (insert_row (new_row i env tags jobtext text) (rows tb))))
                  (statements db ++ [insert_cmd])%list,
       Return true))
  \/ (results_table (fst (log env results tags jobtext db)) = results_table db /\
      snd (log env results tags jobtext db) <> Return true).
Proof.
  unfold log.
  destruct (json_dumps (as_document results)) as [text|e|] eqn:Hd;
    [| right; split; [reflexivity | discriminate] ..].
  unfold _execute, sqlite_execute. rewrite compile_insert_cmd.
  unfold run_stmt.
  change (negb (Nat.eqb (List.length [ArgStr (default_jobtext env jobtext);
            ArgStr (tagscsv_of tags); ArgFloat (now env); ArgStr text])
            (marks_of (InsertInto ["jobtext"; "tagscsv"; "date"; "results"] 4))))
    with false.
  cbv iota.
  destruct (results_table db) as [tb|] eqn:Ht;
    [| right; split; [reflexivity | discriminate]].
  destruct (shape_ok (columns tb)) eqn:Hs;
    [| right; split; [reflexivity | discriminate]].
  apply shape_ok_true in Hs.
  change (names_ok ["jobtext"; "tagscsv"; "date"; "results"]) with true.
  cbv beta iota; simpl andb; cbv iota.
  destruct (PrimFloat.is_nan (now env)) eqn:Hn;
    [right; split; [reflexivity | discriminate] |].
  destruct (new_rowid (rowid_candidates env) (rows tb)) as [i|] eqn:Hi;
    [| right; split; [reflexivity | discriminate]].
  left. exists tb, text, i. repeat split; try assumption.
  rewrite Hs. reflexivity.
Qed.

Lemma log_returns env results tags jobtext db tb text i :
  provisioned db tb ->
  json_dumps (as_document results) = Return text ->
  PrimFloat.is_nan (now env) = false ->
  new_rowid (rowid_candidates env) (rows tb) = Some i ->
  log env results tags jobtext db =
  (mkDatabase (Some (mkTable row_shape
                       (insert_row (new_row i env tags jobtext text) (rows tb))))
              (statements db ++ [insert_cmd])%list,
   Return true).
Proof.
  intros [Ht Hs] Hd Hn Hi.
  destruct (log_outcome env results tags jobtext db)
    as [(tb' & text' & i' & [Ht' Hs'] & Hd' & _ & Hi' & Hlog) | [Hsame Hne]].
  - rewrite Ht in Ht'. injection Ht' as <-.
    rewrite Hd in Hd'. injection Hd' as <-.
    rewrite Hi in Hi'. injection Hi' as <-. exact Hlog.
  - exfalso. apply Hne. unfold log. rewrite Hd.
    unfold _execute, sqlite_execute. rewrite compile_insert_cmd.
    unfold run_stmt. rewrite Ht.
    change (negb (Nat.eqb (List.length [ArgStr (default_jobtext env jobtext);
            ArgStr (tagscsv_of tags); ArgFloat (now env); ArgStr text])
            (marks_of (InsertInto ["jobtext"; "tagscsv"; "date"; "results"] 4))))
      with false.
    cbv iota. rewrite Hs.
    change (shape_ok row_shape && names_ok ["jobtext"; "tagscsv"; "date"; "results"])
      with true.
    cbv iota. rewrite Hn, Hi. reflexivity.
Qed.

Lemma log_inversion env results tags jobtext db db' :
  log env results tags jobtext db = (db', Return true) ->
  exists tb text i,
    provisioned db tb /\
    json_dumps (as_document results) = Return text /\
    PrimFloat.is_nan (now env) = false /\
    new_rowid (rowid_candidates env) (rows tb) = Some i /\
    db' = mkDatabase (Some (mkTable row_shape
                              (insert_row (new_row i env tags jobtext text) (rows tb))))
                     (statements db ++ [insert_cmd])%list.
Proof.
  intros H.
  destruct (log_outcome env results tags jobtext db)
    as [(tb & text & i & Hp & Hd & Hn & Hi & Hlog) | [_ Hne]].
  - exists tb, text, i. rewrite H in Hlog. injection Hlog as ->. auto.
  - rewrite H in Hne. now elim Hne.
Qed.

(** ** Claims about the tag string *)

(** C5. When [log] succeeds, the row it adds stores the tags as
    [DELIM + tag1 + DELIM + ... + tagN + DELIM], in the order given and with
    duplicates kept; for an empty or omitted tag list it stores
    [DELIM + DELIM]. *)
Theorem C5_stored_tag_string env results tags jobtext db db' :
  log env results tags jobtext db = (db', Return true) ->
  exists r,
    rows_of db' = insert_row r (rows_of db) /\
    row_tagscsv r = match tags with
                    | Some l => spec_tagscsv l
                    | None => DELIM ++ DELIM
                    end.
Proof.
  intros H. apply log_inversion in H.
  destruct H as (tb & text & i & [Ht _] & _ & _ & _ & ->).
  exists (new_row i env tags jobtext text). split.
  - unfold rows_of. rewrite Ht. reflexivity.
  - destruct tags as [l|]; [apply tagscsv_of_spec | reflexivity].
Qed.

Lemma C5_stored_tag_string_witness :
  exists r,
    rows_of (fst (log (mkEnv ["wallaby"] 1.5%float []) (PyStr "done") (Some ["foo"; "bar"; "foo"])
                      None (fst (Wallaby (mkEnv [] 0%float []) empty_database))))
    = insert_row r (rows_of (fst (Wallaby (mkEnv [] 0%float []) empty_database))) /\
    row_tagscsv r = spec_tagscsv ["foo"; "bar"; "foo"].
Proof.
  apply (C5_stored_tag_string (mkEnv ["wallaby"] 1.5%float []) (PyStr "done")
           (Some ["foo"; "bar"; "foo"]) None
           (fst (Wallaby (mkEnv [] 0%float []) empty_database))).
  reflexivity.
Defined.

(** ** Row ids *)

Local Open Scope Z_scope.

Lemma max_id_dense k rs :
  dense_from k rs ->
  max_id rs = match rs with
              | [] => None
              | _ :: _ => Some (k + Z.of_nat (List.length rs) - 1)
              end.
Proof.
  revert k. induction rs as [|r rs IH]; intros k H; [reflexivity|].
  destruct H as [Hr H]. cbn [max_id]. rewrite (IH _ H).
  destruct rs as [|r' rs]; cbn [List.length]; f_equal; lia.
Qed.

Lemma id_used_dense k rs c :
  dense_from k rs -> k <= c < k + Z.of_nat (List.length rs) -> id_used c rs = true.
Proof.
  revert k. induction rs as [|r rs IH]; intros k H Hc; cbn [List.length] in Hc; [lia|].
  destruct H as [Hr H]. unfold id_used. cbn [existsb].
  destruct (Z.eqb_spec (row_id r) c) as [|Hne]; [reflexivity|].
  apply (IH (k + 1)); [assumption | lia].
Qed.

Lemma ids_below_dense k rs :
  dense_from k rs -> Forall (fun x => row_id x < k + Z.of_nat (List.length rs)) rs.
Proof.
  revert k. induction rs as [|r rs IH]; intros k H; constructor.
  - destruct H as [-> _]. cbn [List.length]. lia.
  - destruct H as [_ H]. apply IH in H.
    eapply Forall_impl; [|exact H]. cbn [List.length]. intros; cbv beta in *. lia.
Qed.

Lemma insert_row_above r rs :
  Forall (fun x => row_id x < row_id r) rs -> insert_row r rs = (rs ++ [r])%list.
Proof.
  induction 1 as [|x rs Hx _ IH]; [reflexivity|].
  cbn [insert_row]. destruct (Z.ltb_spec (row_id r) (row_id x)); [lia|].
  now rewrite IH.
Qed.

Lemma dense_snoc k rs r :
  dense_from k rs -> row_id r = k + Z.of_nat (List.length rs) -> dense_from k (rs ++ [r])%list.
Proof.
  revert k. induction rs as [|x rs IH]; intros k H Hr.
  - cbn in *. split; [lia | exact I].
  - destruct H as [Hx H]. cbn [app dense_from]. split; [assumption|].
    apply IH; [assumption|]. cbn [List.length] in Hr. lia.
Qed.

(** In a table whose ids count up from 1 the next id is one more than
    the number of rows; when the 64-bit range is used up no random pick
    is free and the insertion fails. *)
Lemma new_rowid_dense candidates rs i :
  dense_from 1 rs -> new_rowid candidates rs = Some i -> i = 1 + Z.of_nat (List.length rs).
Proof.
  intros H. unfold new_rowid. rewrite (max_id_dense _ _ H).
  destruct rs as [|r rs]; [intros [= <-]; reflexivity|].
  set (n := Z.of_nat (List.length (r :: rs))).
  destruct (Z.ltb_spec (1 + n - 1) max_rowid) as [Hlt|Hge].
  - intros Heq. assert (Hi : i = 1 + n - 1 + 1) by congruence. subst n. lia.
  - intros Hf. apply find_some in Hf. destruct Hf as [_ Hc].
    apply andb_prop in Hc. destruct Hc as [Hc Hu].
    apply andb_prop in Hc. destruct Hc as [H1 H2].
    apply Z.leb_le in H1, H2.
    rewrite (id_used_dense 1 (r :: rs) i H) in Hu; [discriminate | subst n; lia].
Qed.

(** ** The invariant of reachable databases *)

Lemma store_inv_log env results tags jobtext db :
  store_inv db -> store_inv (fst (log env results tags jobtext db)).
Proof.
  intros (tb & [Ht Hs] & Hd & Hf).
  destruct (log_outcome env results tags jobtext db)
    as [(tb' & text & i & [Ht' _] & _ & _ & Hi & ->) | [Hsame _]].
  - rewrite Ht in Ht'. injection Ht' as <-.
    pose proof (new_rowid_dense _ _ _ Hd Hi) as ->.
    assert (Hins : insert_row (new_row (1 + Z.of_nat (List.length (rows tb))) env tags jobtext text)
                     (rows tb)
                   = (rows tb ++ [new_row (1 + Z.of_nat (List.length (rows tb))) env tags jobtext text])%list)
      by (apply insert_row_above, (ids_below_dense 1 (rows tb) Hd)).
    eexists. split; [split; reflexivity|]. cbn [fst rows]. rewrite Hins. split.
    + apply dense_snoc; [assumption | reflexivity].
    + apply Forall_app. split; [assumption|].
      constructor; [apply tagscsv_of_framed | constructor].
  - exists tb. repeat split; try assumption. now rewrite Hsame.
Qed.

(** ** Queries do not write *)

Lemma run_select_frame candidates s params t :
  is_select s -> fst (run_stmt candidates s params t) = t.
Proof.
  unfold run_stmt. destruct (negb _); [reflexivity|].
  destruct s; cbn [is_select]; try contradiction; intros _.
  - destruct t as [tb|]; [|reflexivity]. destruct (shape_ok _); reflexivity.
  - destruct t as [tb|]; [|reflexivity]. destruct (shape_ok _); [|reflexivity].
    destruct params as [|[s|f] [|? ?]]; reflexivity.
Qed.

Lemma execute_select_frame candidates sql params t :
  (forall s, compile sql = Return s -> is_select s) ->
  fst (sqlite_execute candidates sql params t) = t.
Proof.
  intros H. unfold sqlite_execute.
  destruct (compile sql) as [s| |]; [|reflexivity..].
  apply run_select_frame, H. reflexivity.
Qed.

Lemma lex_select_prefix (rest : string) :
  lex EmptyString (nl ++ "            SELECT * FROM results WHERE " ++ rest) =
  ocons (TWord "SELECT") (ocons (TSym "*") (ocons (TWord "FROM")
    (ocons (TWord "results") (ocons (TWord "WHERE") (lex EmptyString rest))))).
Proof. reflexivity. Qed.

Lemma parse_stmt_select (toks : list token) :
  parse_stmt (TWord "SELECT" :: TSym "*" :: TWord "FROM" :: TWord "results" :: TWord "WHERE" :: toks)
  = match toks with
    | [TWord a; TSym g; TSym l; TSym q; TSym r] =>
        if kw "date" a && sym ">" g && sym "(" l && sym "?" q && sym ")" r
        then Some SelectWhereDateGt else None
    | _ => option_map SelectWhereTags (parse_where toks)
    end.
Proof.
  unfold parse_stmt.
  change (parse_select (TWord "SELECT" :: TSym "*" :: TWord "FROM" :: TWord "results"
                          :: TWord "WHERE" :: toks))
    with (match toks with
          | [TWord a; TSym g; TSym l; TSym q; TSym r] =>
              if kw "date" a && sym ">" g && sym "(" l && sym "?" q && sym ")" r
              then Some SelectWhereDateGt else None
          | _ => option_map SelectWhereTags (parse_where toks)
          end).
  match goal with |- match ?x with _ => _ end = _ => destruct x; reflexivity end.
Qed.

Lemma compile_select_by_tag_is_select (clause : string) (s : stmt) :
  compile (select_by_tag_cmd clause) = Return s -> is_select s.
Proof.
  unfold compile. destruct (has_char _ _); [discriminate|].
  unfold select_by_tag_cmd. rewrite lex_select_prefix.
  destruct (lex EmptyString (clause ++ nl ++ "        ")) as [toks| |]; try discriminate.
  cbn [ocons omap bind]. rewrite parse_stmt_select.
  destruct toks as [|[a| | |] [|[| |g|] [|[| |l|] [|[| |q|] [|[| |r|] [|? ?]]]]]];
    cbn [option_map];
    repeat match goal with
           | |- context [parse_where ?l] => destruct (parse_where l); cbn [option_map]
           | |- context [if ?b then _ else _] => destruct b
           end;
    intros [= <-] || discriminate; exact I.
Qed.

Lemma get_by_tag_frame env all_of any_of df db :
  results_table (fst (get_by_tag env all_of any_of df db)) = results_table db.
Proof.
  unfold get_by_tag.
  destruct (truthy all_of); [| destruct (truthy any_of); [|reflexivity]].
  all: unfold _execute;
    match goal with
    | |- context [sqlite_execute ?c ?q ?p ?t] =>
        pose proof (execute_select_frame c q p t (compile_select_by_tag_is_select _)) as E;
        destruct (sqlite_execute c q p t)
    end; exact E.
Qed.

Lemma get_results_since_frame env since df db :
  results_table (fst (get_results_since env since df db)) = results_table db.
Proof.
  unfold get_results_since, _execute.
  match goal with
  | |- context [sqlite_execute ?c ?q ?p ?t] =>
      assert (E : fst (sqlite_execute c q p t) = t);
      [ apply execute_select_frame; rewrite compile_select_since_cmd;
        intros s [= <-]; exact I
      | destruct (sqlite_execute c q p t) ]
  end.
  exact E.
Qed.

Lemma Wallaby_table env db :
  results_table (fst (Wallaby env db)) =
  match results_table db with
  | Some tb => Some tb
  | None => Some (mkTable row_shape [])
  end.
Proof.
  destruct (results_table db) as [tb|] eqn:Ht.
  - now rewrite (Wallaby_existing env db tb Ht).
  - now rewrite (Wallaby_fresh env db Ht).
Qed.

Lemma store_inv_same_table db db' :
  results_table db' = results_table db -> store_inv db -> store_inv db'.
Proof.
  intros E (tb & [Ht Hs] & Hd & Hf). exists tb. repeat split; try assumption.
  now rewrite E.
Qed.

Lemma store_inv_after c db : store_inv db -> store_inv (after c db).
Proof.
  intros H. destruct c; cbn [after].
  - apply (store_inv_same_table db); [|assumption].
    rewrite Wallaby_table. destruct H as (tb & [-> _] & _). reflexivity.
  - now apply store_inv_log.
  - apply (store_inv_same_table db); [apply get_by_tag_frame | assumption].
  - apply (store_inv_same_table db); [apply get_results_since_frame | assumption].
Qed.

Lemma store_inv_run calls db : store_inv db -> store_inv (run calls db).
Proof.
  revert db. induction calls as [|c calls IH]; intros db H; [exact H|].
  apply IH, store_inv_after, H.
Qed.

Lemma reachable_store_inv db : reachable db -> store_inv db.
Proof.
  intros (env & calls & ->). apply store_inv_run.
  rewrite (Wallaby_fresh env empty_database eq_refl).
  exists (mkTable row_shape []). repeat split; constructor.
Qed.

(** ** Calls see the database only through its table *)

Lemma execute_eq env q a db :
  _execute env q a db =
  (mkDatabase (fst (sqlite_execute (rowid_candidates env) q a (results_table db)))
              (statements db ++ [q])%list,
   snd (sqlite_execute (rowid_candidates env) q a (results_table db))).
Proof. unfold _execute. destruct (sqlite_execute _ _ _ _); reflexivity. Qed.

Lemma call_same_table c db1 db2 :
  results_table db1 = results_table db2 ->
  answer_of c db1 = answer_of c db2 /\
  results_table (after c db1) = results_table (after c db2).
Proof.
  intros E. destruct c; cbn [answer_of after].
  - unfold Wallaby, _initialize. rewrite !execute_eq, E. split; reflexivity.
  - unfold log. destruct (json_dumps _); [| split; [reflexivity | exact E] ..].
    rewrite !execute_eq, E. split; reflexivity.
  - unfold get_by_tag. destruct (truthy all_of); [| destruct (truthy any_of)];
      try (rewrite !execute_eq, E; split; reflexivity).
    split; [reflexivity | exact E].
  - unfold get_results_since. rewrite !execute_eq, E. split; reflexivity.
Qed.

Lemma run_same_table calls db1 db2 :
  results_table db1 = results_table db2 ->
  answers calls db1 = answers calls db2 /\
  results_table (run calls db1) = results_table (run calls db2).
Proof.
  revert db1 db2. induction calls as [|c calls IH]; intros db1 db2 E.
  - split; [reflexivity | exact E].
  - destruct (call_same_table c db1 db2 E) as [Ea Et].
    destruct (IH _ _ Et) as [Eas Ets].
    cbn [answers run fold_left]. split; [now rewrite Ea, Eas | exact Ets].
Qed.

(** ** Claims about the life of records *)

(** C3. In a database Wallaby produced, a [log] call that returns [True]
    has added exactly one row, placed after the rows that were there, and
    its id is greater than the id of every row present before the call. *)
Theorem C3_append_adds_one_row_with_larger_id env results tags jobtext db db' :
  reachable db ->
  log env results tags jobtext db = (db', Return true) ->
  exists r,
    rows_of db' = (rows_of db ++ [r])%list /\
    Forall (fun x => row_id x < row_id r) (rows_of db).
Proof.
  intros Hr H. apply reachable_store_inv in Hr.
  destruct Hr as (tb & [Ht _] & Hd & _).
  apply log_inversion in H.
  destruct H as (tb' & text & i & [Ht' _] & _ & _ & Hi & ->).
  rewrite Ht in Ht'. injection Ht' as <-.
  pose proof (new_rowid_dense _ _ _ Hd Hi) as ->.
  pose proof (ids_below_dense 1 (rows tb) Hd) as Hb.
  exists (new_row (1 + Z.of_nat (List.length (rows tb))) env tags jobtext text).
  unfold rows_of. rewrite Ht. cbn [results_table rows]. split.
  - now apply insert_row_above.
  - exact Hb.
Qed.

Lemma C3_append_adds_one_row_with_larger_id_witness :
  exists r,
    rows_of (run [CallLog (mkEnv ["job"] 1%float []) (PyStr "a") None None;
                  CallLog (mkEnv ["job"] 2%float []) (PyStr "b") None None]
                 (fst (Wallaby (mkEnv [] 0%float []) empty_database)))
    = (rows_of (run [CallLog (mkEnv ["job"] 1%float []) (PyStr "a") None None]
                    (fst (Wallaby (mkEnv [] 0%float []) empty_database))) ++ [r])%list /\
    Forall (fun x => row_id x < row_id r)
           (rows_of (run [CallLog (mkEnv ["job"] 1%float []) (PyStr "a") None None]
                         (fst (Wallaby (mkEnv [] 0%float []) empty_database)))).
Proof.
  apply (C3_append_adds_one_row_with_larger_id
           (mkEnv ["job"] 2%float []) (PyStr "b") None None
           (run [CallLog (mkEnv ["job"] 1%float []) (PyStr "a") None None]
                (fst (Wallaby (mkEnv [] 0%float []) empty_database)))).
  - exists (mkEnv [] 0%float []), [CallLog (mkEnv ["job"] 1%float []) (PyStr "a") None None].
    reflexivity.
  - reflexivity.
Defined.

(** On a database Wallaby produced, [log] of a serialisable payload
    returns [True] as long as the clock reads a number and the 64-bit ids
    are not used up. *)
Lemma log_succeeds env results tags jobtext db :
  reachable db ->
  serializable (as_document results) = true ->
  PrimFloat.is_nan (now env) = false ->
  Z.of_nat (List.length (rows_of db)) < max_rowid ->
  snd (log env results tags jobtext db) = Return true.
Proof.
  intros Hr Hs Hn Hlen. apply reachable_store_inv in Hr.
  destruct Hr as (tb & Hp & Hd & _).
  assert (Hrows : rows_of db = rows tb) by (unfold rows_of; now rewrite (proj1 Hp)).
  rewrite Hrows in Hlen.
  assert (Hi : exists i, new_rowid (rowid_candidates env) (rows tb) = Some i).
  { unfold new_rowid. rewrite (max_id_dense _ _ Hd).
    destruct (rows tb) as [|r rs] eqn:E; [eexists; reflexivity|].
    destruct (Z.ltb_spec (1 + Z.of_nat (List.length (r :: rs)) - 1) max_rowid);
      [eexists; reflexivity | lia]. }
  destruct Hi as [i Hi].
  rewrite (log_returns env results tags jobtext db tb (encode (as_document results)) i);
    try assumption; [reflexivity|].
  unfold json_dumps. now rewrite Hs.
Qed.

Lemma In_insert_row x r rs : In x rs -> In x (insert_row r rs).
Proof.
  induction rs as [|y rs IH]; intros H; [contradiction|].
  cbn [insert_row]. destruct (row_id r <? row_id y).
  - now right.
  - destruct H as [->|H]; [now left | right; now apply IH].
Qed.

Lemma log_rows env results tags jobtext db :
  rows_of (fst (log env results tags jobtext db)) = rows_of db \/
  exists r, rows_of (fst (log env results tags jobtext db)) = insert_row r (rows_of db).
Proof.
  destruct (log_outcome env results tags jobtext db)
    as [(tb & text & i & [Ht _] & _ & _ & _ & ->) | [Hsame _]].
  - right. eexists. unfold rows_of. rewrite Ht. reflexivity.
  - left. unfold rows_of. now rewrite Hsame.
Qed.

Lemma after_keeps_rows c db x : In x (rows_of db) -> In x (rows_of (after c db)).
Proof.
  intros H. destruct c; cbn [after].
  - unfold rows_of in *. rewrite Wallaby_table.
    destruct (results_table db); [assumption | contradiction].
  - destruct (log_rows env results tags jobtext db) as [-> | [r ->]];
      [assumption | now apply In_insert_row].
  - unfold rows_of in *. now rewrite get_by_tag_frame.
  - unfold rows_of in *. now rewrite get_results_since_frame.
Qed.

(** C8. Records are immutable once written: both queries leave the
    table exactly as it was, [log] leaves it as it was or inserts one row
    among the rows that were there, and so after any sequence of calls
    every record that was in the table is still in it, unchanged. *)
Theorem C8_records_are_immutable :
  (forall env all_of any_of df db,
      results_table (fst (get_by_tag env all_of any_of df db)) = results_table db) /\
  (forall env since df db,
      results_table (fst (get_results_since env since df db)) = results_table db) /\
  (forall env results tags jobtext db,
      rows_of (fst (log env results tags jobtext db)) = rows_of db \/
      exists r, rows_of (fst (log env results tags jobtext db)) = insert_row r (rows_of db)) /\
  (forall calls db x, In x (rows_of db) -> In x (rows_of (run calls db))).
Proof.
  repeat split.
  - apply get_by_tag_frame.
  - apply get_results_since_frame.
  - apply log_rows.
  - intros calls. induction calls as [|c calls IH]; intros db x H; [exact H|].
    cbn [run fold_left]. apply IH, after_keeps_rows, H.
Qed.

Lemma C8_records_are_immutable_witness :
  In (mkRow 1 "job" ",," 1%float (Text "{}"))
     (rows_of (run [CallLog (mkEnv ["job"] 2%float []) (PyStr "b") (Some ["x"]) None;
                    CallGetByTag (mkEnv [] 3%float []) (Some (OneTag "'")) None false;
                    CallGetResultsSince (mkEnv [] 3%float []) 0%float true]
                   (mkDatabase (Some (mkTable row_shape [mkRow 1 "job" ",," 1%float (Text "{}")]))
                               []))).
Proof.
  apply (proj2 (proj2 (proj2 C8_records_are_immutable))).
  left. reflexivity.
Defined.

(** C9. Provisioning is idempotent.  On a database that already has the
    table the constructor returns normally and leaves the table, its
    column list and its rows, as they are; on one that has none it creates
    the empty table.  Constructing a second time, at once or at any
    later point, changes nothing: every sequence of calls that follows
    gives the same answers and the same table as without it. *)
Theorem C9_provisioning_is_idempotent :
  (forall env db tb,
      results_table db = Some tb ->
      snd (Wallaby env db) = Return true /\
      results_table (fst (Wallaby env db)) = Some tb) /\
  (forall env db,
      results_table db = None ->
      snd (Wallaby env db) = Return true /\
      results_table (fst (Wallaby env db)) = Some (mkTable row_shape [])) /\
  (forall env1 env2 db calls,
      snd (Wallaby env2 (fst (Wallaby env1 db))) = Return true /\
      results_table (fst (Wallaby env2 (fst (Wallaby env1 db))))
      = results_table (fst (Wallaby env1 db)) /\
      answers calls (fst (Wallaby env2 (fst (Wallaby env1 db))))
      = answers calls (fst (Wallaby env1 db)) /\
      results_table (run calls (fst (Wallaby env2 (fst (Wallaby env1 db)))))
      = results_table (run calls (fst (Wallaby env1 db)))) /\
  (forall env db tb calls,
      results_table db = Some tb ->
      answers calls (fst (Wallaby env db)) = answers calls db /\
      results_table (run calls (fst (Wallaby env db))) = results_table (run calls db)).
Proof.
  split; [|split; [|split]].
  - intros env db tb H. now rewrite (Wallaby_existing env db tb H).
  - intros env db H. now rewrite (Wallaby_fresh env db H).
  - intros env1 env2 db calls.
    assert (E : results_table (fst (Wallaby env2 (fst (Wallaby env1 db))))
                = results_table (fst (Wallaby env1 db))).
    { rewrite (Wallaby_table env2), (Wallaby_table env1).
      destruct (results_table db); reflexivity. }
    assert (R : snd (Wallaby env2 (fst (Wallaby env1 db))) = Return true).
    { destruct (results_table (fst (Wallaby env1 db))) as [tb|] eqn:Ht.
      - now rewrite (Wallaby_existing env2 _ tb Ht).
      - now rewrite (Wallaby_fresh env2 _ Ht). }
    split; [exact R|]. split; [exact E|].
    apply run_same_table, E.
  - intros env db tb calls H. apply run_same_table.
    now rewrite (Wallaby_existing env db tb H).
Qed.

Lemma C9_provisioning_is_idempotent_witness :
  snd (Wallaby (mkEnv [] 0%float [])
         (mkDatabase (Some (mkTable [["id"; "INTEGER"]] [])) ["CREATE TABLE results (id INTEGER)"]))
  = Return true /\
  results_table (fst (Wallaby (mkEnv [] 0%float [])
         (mkDatabase (Some (mkTable [["id"; "INTEGER"]] [])) ["CREATE TABLE results (id INTEGER)"])))
  = Some (mkTable [["id"; "INTEGER"]] []).
Proof.
  apply (proj1 C9_provisioning_is_idempotent). reflexivity.
Defined.

(** ** Ordering of binary64 timestamps *)

Lemma SFcompare_Lt_trans x y z :
  SFcompare x y = Some Lt -> SFcompare y z = Some Lt -> SFcompare x z = Some Lt.
Proof.
  destruct x as [sx|sx| |sx mx ex], y as [sy|sy| |sy my ey], z as [sz|sz| |sz mz ez];
    try destruct sx; try destruct sy; try destruct sz; cbn;
    try (intros; congruence); change (PosDef.Pos.compare_cont Eq) with Pos.compare;
    destruct (Z.compare_spec ex ey), (Z.compare_spec ey ez), (Z.compare_spec ex ez);
    try (intros; congruence); try lia;
    destruct (Pos.compare_spec mx my), (Pos.compare_spec my mz), (Pos.compare_spec mx mz);
    cbn; try (intros; congruence); try lia.
Qed.

Lemma SFcompare_refl_not_Lt x : SFcompare x x <> Some Lt.
Proof.
  destruct x as [s|s| |s m e]; cbn; try discriminate.
  - destruct s; discriminate.
  - change (PosDef.Pos.compare_cont Eq) with Pos.compare.
    rewrite Z.compare_refl, Pos.compare_refl. destruct s; discriminate.
Qed.

Lemma ltb_trans x y z :
  PrimFloat.ltb x y = true -> PrimFloat.ltb y z = true -> PrimFloat.ltb x z = true.
Proof.
  rewrite !ltb_spec. unfold SFltb. intros H1 H2.
  destruct (SFcompare (Prim2SF x) (Prim2SF y)) as [[]|] eqn:E1; try discriminate.
  destruct (SFcompare (Prim2SF y) (Prim2SF z)) as [[]|] eqn:E2; try discriminate.
  now rewrite (SFcompare_Lt_trans _ _ _ E1 E2).
Qed.

Lemma ltb_irrefl x : PrimFloat.ltb x x = false.
Proof.
  rewrite ltb_spec. unfold SFltb.
  destruct (SFcompare (Prim2SF x) (Prim2SF x)) as [[]|] eqn:E; try reflexivity.
  now elim (SFcompare_refl_not_Lt _ E).
Qed.

Lemma ltb_not_nan x y :
  PrimFloat.ltb x y = true -> PrimFloat.is_nan x = false /\ PrimFloat.is_nan y = false.
Proof.
  unfold PrimFloat.is_nan. rewrite ltb_spec, !eqb_spec. unfold SFltb, SFeqb.
  destruct (Prim2SF x) as [sx|sx| |sx mx ex], (Prim2SF y) as [sy|sy| |sy my ey];
    cbn; try discriminate; intros _; split; try reflexivity;
    try (destruct sx; reflexivity); try (destruct sy; reflexivity);
    change (PosDef.Pos.compare_cont Eq) with Pos.compare;
    rewrite Z.compare_refl, Pos.compare_refl;
    try (destruct sx; reflexivity); try (destruct sy; reflexivity).
Qed.

Lemma ltb_nan_l x y : PrimFloat.is_nan x = true -> PrimFloat.ltb x y = false.
Proof.
  unfold PrimFloat.is_nan. rewrite ltb_spec, eqb_spec. unfold SFltb, SFeqb.
  destruct (Prim2SF x) as [sx|sx| |sx mx ex]; cbn; try discriminate; try reflexivity.
  - destruct sx; discriminate.
  - change (PosDef.Pos.compare_cont Eq) with Pos.compare.
    rewrite Z.compare_refl, Pos.compare_refl. destruct sx; discriminate.
Qed.

Lemma eqb_not_ltb x y : PrimFloat.eqb y x = true -> PrimFloat.ltb x y = false.
Proof.
  rewrite ltb_spec, eqb_spec. unfold SFltb, SFeqb.
  destruct (Prim2SF x) as [sx|sx| |sx mx ex], (Prim2SF y) as [sy|sy| |sy my ey];
    try destruct sx; try destruct sy; cbn; try (intros; congruence);
    change (PosDef.Pos.compare_cont Eq) with Pos.compare;
    destruct (Z.compare_spec ex ey), (Z.compare_spec ey ex);
    try (intros; congruence); try lia;
    destruct (Pos.compare_spec mx my), (Pos.compare_spec my mx);
    cbn; try (intros; congruence); try lia.
Qed.

Lemma date_gt_ltb date since : date_gt date since = PrimFloat.ltb since date.
Proof.
  unfold date_gt. destruct (PrimFloat.is_nan since) eqn:E; [|reflexivity].
  now rewrite ltb_nan_l.
Qed.

(** ** Claims about the queries *)

Lemma get_results_since_rows env since df db tb :
  provisioned db tb ->
  snd (get_results_since env since df db) =
  Return (render df (filter (fun r => PrimFloat.ltb since (row_date r)) (rows tb))).
Proof.
  intros [Ht Hs]. unfold get_results_since. rewrite execute_eq.
  unfold sqlite_execute. rewrite compile_select_since_cmd, Ht.
  unfold run_stmt. cbn [List.length marks_of Nat.eqb negb].
  apply shape_ok_true in Hs. rewrite Hs. cbn [snd omap bind].
  do 2 f_equal. apply filter_ext. intros r. apply date_gt_ltb.
Qed.

Lemma provisioned_mk rs stm :
  provisioned (mkDatabase (Some (mkTable row_shape rs)) stm) (mkTable row_shape rs).
Proof. split; reflexivity. Qed.

Lemma serializable_dumps v : serializable v = true -> json_dumps v = Return (encode v).
Proof. unfold json_dumps. now intros ->. Qed.

(** C4. [get_results_since] returns exactly the records whose date is
    strictly greater than the timestamp, in table order; a record whose
    date equals the timestamp is left out; and after three records logged
    at times t1 < t2 < t3 into a new store, the query for t1 returns the
    second and the third. *)
Theorem C4_results_since_is_strict :
  (forall env since df db tb,
      provisioned db tb ->
      snd (get_results_since env since df db) =
      Return (render df (filter (fun r => PrimFloat.ltb since (row_date r)) (rows tb)))) /\
  (forall since r, PrimFloat.eqb (row_date r) since = true ->
                   PrimFloat.ltb since (row_date r) = false) /\
  (forall e0 e1 e2 e3 p1 p2 p3 g1 g2 g3 j1 j2 j3 env df,
      serializable (as_document p1) = true ->
      serializable (as_document p2) = true ->
      serializable (as_document p3) = true ->
      PrimFloat.ltb (now e1) (now e2) = true ->
      PrimFloat.ltb (now e2) (now e3) = true ->
      snd (get_results_since env (now e1) df
             (run [CallLog e1 p1 g1 j1; CallLog e2 p2 g2 j2; CallLog e3 p3 g3 j3]
                  (fst (Wallaby e0 empty_database)))) =
      Return (render df [new_row 2 e2 g2 j2 (encode (as_document p2));
                         new_row 3 e3 g3 j3 (encode (as_document p3))])).
Proof.
  split; [exact get_results_since_rows | split].
  - intros since r. apply eqb_not_ltb.
  - intros e0 e1 e2 e3 p1 p2 p3 g1 g2 g3 j1 j2 j3 env df S1 S2 S3 L12 L23.
    destruct (ltb_not_nan _ _ L12) as [N1 N2].
    destruct (ltb_not_nan _ _ L23) as [_ N3].
    cbn [run fold_left after].
    rewrite (Wallaby_fresh e0 empty_database eq_refl). cbn [fst].
    set (r1 := new_row 1 e1 g1 j1 (encode (as_document p1))).
    set (r2 := new_row 2 e2 g2 j2 (encode (as_document p2))).
    set (r3 := new_row 3 e3 g3 j3 (encode (as_document p3))).
    rewrite (log_returns e1 p1 g1 j1 _ _ _ 1
               (provisioned_mk [] _) (serializable_dumps _ S1) N1 eq_refl).
    cbn [fst rows insert_row]. fold r1.
    rewrite (log_returns e2 p2 g2 j2 _ _ _ 2
               (provisioned_mk [r1] _) (serializable_dumps _ S2) N2 eq_refl).
    cbn [fst rows]. fold r2.
    change (insert_row r2 [r1]) with [r1; r2].
    rewrite (log_returns e3 p3 g3 j3 _ _ _ 3
               (provisioned_mk [r1; r2] _) (serializable_dumps _ S3) N3 eq_refl).
    cbn [fst rows]. fold r3.
    change (insert_row r3 [r1; r2]) with [r1; r2; r3].
    rewrite (get_results_since_rows env (now e1) df _ _ (provisioned_mk [r1; r2; r3] _)).
    cbn [filter rows]. subst r1 r2 r3. cbn [row_date new_row].
    rewrite ltb_irrefl, L12, (ltb_trans _ _ _ L12 L23). reflexivity.
Qed.

Lemma C4_results_since_is_strict_witness :
  snd (get_results_since (mkEnv [] 9%float []) 1%float false
         (run [CallLog (mkEnv ["a"] 1%float []) (PyStr "one") None None;
               CallLog (mkEnv ["b"] 2%float []) (PyStr "two") None None;
               CallLog (mkEnv ["c"] 3%float []) (PyStr "three") None None]
              (fst (Wallaby (mkEnv [] 0%float []) empty_database)))) =
  Return (RowList [new_row 2 (mkEnv ["b"] 2%float []) None None
                     (encode (as_document (PyStr "two")));
                   new_row 3 (mkEnv ["c"] 3%float []) None None
                     (encode (as_document (PyStr "three")))]).
Proof.
  apply (proj2 (proj2 C4_results_since_is_strict)
           (mkEnv [] 0%float []) (mkEnv ["a"] 1%float []) (mkEnv ["b"] 2%float [])
           (mkEnv ["c"] 3%float []) (PyStr "one") (PyStr "two") (PyStr "three")
           None None None None None None (mkEnv [] 9%float []) false);
    reflexivity.
Defined.

Lemma get_by_tag_without_tags env all_of any_of df db :
  truthy all_of = false -> truthy any_of = false ->
  get_by_tag env all_of any_of df db =
  (db, Raise (ValueError "You must specify exactly one of `any_of` or `all_of`.")).
Proof. intros H1 H2. unfold get_by_tag. now rewrite H1, H2. Qed.

(** With [all_of] given, [any_of] is never looked at. *)
Lemma get_by_tag_all_of_wins env all_of any_of df db :
  truthy all_of = true ->
  get_by_tag env all_of any_of df db = get_by_tag env all_of None df db.
Proof. intros H. unfold get_by_tag. now rewrite H. Qed.

(** C2.  Called with neither [all_of] nor [any_of], [get_by_tag] raises
    its [ValueError] and hands the database back untouched: no statement
    reached the engine.  Called with both, it does not raise: it runs the
    [all_of] query, as here on a store with one record tagged foo. *)
Theorem C2_both_filters_are_accepted :
  (forall env df db,
      get_by_tag env None None df db =
      (db, Raise (ValueError "You must specify exactly one of `any_of` or `all_of`."))) /\
  (let db := mkDatabase (Some (mkTable row_shape [mkRow 1 "job" ",foo," 1%float (Text "{}")])) [] in
   get_by_tag (mkEnv [] 2%float []) (Some (TagList ["foo"])) (Some (TagList ["bar"])) false db =
   (mkDatabase (results_table db)
               [select_by_tag_cmd "tagscsv LIKE '%,foo,%'"],
    Return (RowList [mkRow 1 "job" ",foo," 1%float (Text "{}")]))).
Proof.
  split.
  - intros env df db. now apply get_by_tag_without_tags.
  - reflexivity.
Qed.

(** ** Lexing the tag clause *)

Lemma has_char_cons c d s :
  has_char c (String d s) = Ascii.eqb d c || has_char c s.
Proof.
  unfold has_char. cbn [string_forallb]. rewrite negb_andb, negb_involutive. reflexivity.
Qed.

Lemma lex_str_literal (s lit rest : string) :
  has_char squote s = false ->
  starts_with squote rest = false ->
  lex_str lit (s ++ String squote rest) = ocons (TString (lit ++ s)) (lex EmptyString rest).
Proof.
  revert lit. induction s as [|c s IH]; intros lit Hs Hr.
  - rewrite append_nil_r. cbn [append lex_str]. rewrite Ascii.eqb_refl.
    destruct rest as [|c' r']; [reflexivity|].
    cbn [starts_with] in Hr. now rewrite Hr.
  - rewrite has_char_cons in Hs. apply orb_false_elim in Hs. destruct Hs as [Hc Hs].
    cbn [append lex_str]. rewrite Hc, IH by assumption.
    now rewrite append_assoc.
Qed.

Lemma lex_atom (t rest : string) :
  has_char squote t = false ->
  starts_with squote rest = false ->
  lex EmptyString (("tagscsv LIKE '%," ++ t ++ ",%'") ++ rest) =
  ocons (TWord "tagscsv") (ocons (TWord "LIKE")
    (ocons (TString (like_pattern t)) (lex EmptyString rest))).
Proof.
  intros Ht Hr.
  change (("tagscsv LIKE '%," ++ t ++ ",%'") ++ rest)
    with ("tagscsv LIKE '" ++ (("%," ++ t ++ ",%'") ++ rest)).
  change (lex EmptyString ("tagscsv LIKE '" ++ (("%," ++ t ++ ",%'") ++ rest)))
    with (ocons (TWord "tagscsv") (ocons (TWord "LIKE")
            (lex_str EmptyString (("%," ++ t ++ ",%'") ++ rest)))).
  do 2 f_equal.
  replace (("%," ++ t ++ ",%'") ++ rest) with (like_pattern t ++ String squote rest).
  - rewrite lex_str_literal; [reflexivity | | assumption].
    unfold like_pattern. rewrite !has_char_append, Ht. reflexivity.
  - unfold like_pattern. rewrite !append_assoc. reflexivity.
Qed.

Lemma tag_clause_cons op t u tags :
  tag_clause_of op (t :: u :: tags) =
  ("tagscsv LIKE '%," ++ t ++ ",%'") ++ op ++ tag_clause_of op (u :: tags).
Proof. reflexivity. Qed.

Lemma starts_with_append c a b :
  starts_with c a = false -> a <> EmptyString -> starts_with c (a ++ b) = false.
Proof. destruct a; [congruence | intros H _; exact H]. Qed.

(** The clause of quote-free tags lexes into the atoms it was written as. *)
Lemma lex_tag_clause (op opw : string) (tags : list string) :
  (forall rest, lex EmptyString (op ++ rest) = ocons (TWord opw) (lex EmptyString rest)) ->
  starts_with squote op = false -> op <> EmptyString ->
  tags <> [] ->
  Forall (fun t => has_char squote t = false) tags ->
  lex EmptyString (tag_clause_of op tags ++ nl ++ "        ") = Return (clause_tokens opw tags).
Proof.
  intros Hop Hq Hne Hnil Hall. induction Hall as [|t tags Ht Hall IH]; [congruence|].
  destruct tags as [|u tags].
  - change (tag_clause_of op [t]) with ("tagscsv LIKE '%," ++ t ++ ",%'").
    rewrite lex_atom by (assumption || reflexivity). reflexivity.
  - rewrite tag_clause_cons.
    rewrite (append_assoc _ (op ++ tag_clause_of op (u :: tags)) _), (append_assoc op).
    rewrite lex_atom; [| assumption | now apply starts_with_append].
    rewrite Hop, IH by discriminate. reflexivity.
Qed.

Lemma parse_where_and (tags : list string) :
  tags <> [] -> parse_where (clause_tokens "AND" tags) = Some [map like_pattern tags].
Proof.
  induction tags as [|t tags IH]; [congruence|]. intros _.
  destruct tags as [|u tags]; [reflexivity|].
  change (parse_where (clause_tokens "AND" (t :: u :: tags)))
    with (extend (like_pattern t) "AND" (parse_where (clause_tokens "AND" (u :: tags)))).
  rewrite IH by discriminate. reflexivity.
Qed.

Lemma parse_where_or (tags : list string) :
  tags <> [] ->
  parse_where (clause_tokens "OR" tags) = Some (map (fun t => [like_pattern t]) tags).
Proof.
  induction tags as [|t tags IH]; [congruence|]. intros _.
  destruct tags as [|u tags]; [reflexivity|].
  change (parse_where (clause_tokens "OR" (t :: u :: tags)))
    with (extend (like_pattern t) "OR" (parse_where (clause_tokens "OR" (u :: tags)))).
  rewrite IH by discriminate. reflexivity.
Qed.

(** ** The statement [get_by_tag] runs *)

Lemma has_char_tag_clause c op tags :
  has_char c op = false ->
  has_char c "tagscsv LIKE '%," = false -> has_char c ",%'" = false ->
  Forall (fun t => has_char c t = false) tags ->
  has_char c (tag_clause_of op tags) = false.
Proof.
  intros Hop H1 H2 Hall. induction Hall as [|t tags Ht Hall IH]; [reflexivity|].
  destruct tags as [|u tags].
  - change (tag_clause_of op [t]) with ("tagscsv LIKE '%," ++ t ++ ",%'").
    now rewrite !has_char_append, H1, Ht, H2.
  - rewrite tag_clause_cons, !has_char_append, H1, Ht, H2, Hop, IH. reflexivity.
Qed.

Lemma sql_safe_spec t :
  sql_safe t = true <-> has_char squote t = false /\ has_char "000" t = false.
Proof.
  unfold sql_safe. rewrite andb_true_iff, !negb_true_iff. reflexivity.
Qed.

Lemma compile_select_tags (op opw : string) (tags : list string) (dnf : list (list string)) :
  (forall rest, lex EmptyString (op ++ rest) = ocons (TWord opw) (lex EmptyString rest)) ->
  starts_with squote op = false -> op <> EmptyString -> has_char "000" op = false ->
  parse_where (clause_tokens opw tags) = Some dnf ->
  tags <> [] ->
  Forall (fun t => sql_safe t = true) tags ->
  compile (select_by_tag_cmd (tag_clause_of op tags)) = Return (SelectWhereTags dnf).
Proof.
  intros Hop Hq Hne Hnul Hparse Hnil Hall.
  assert (Hquote : Forall (fun t => has_char squote t = false) tags)
    by (eapply Forall_impl; [|exact Hall]; intros t Ht; now apply sql_safe_spec in Ht).
  assert (Hzero : Forall (fun t => has_char "000" t = false) tags)
    by (eapply Forall_impl; [|exact Hall]; intros t Ht; now apply sql_safe_spec in Ht).
  unfold compile, select_by_tag_cmd.
  rewrite !has_char_append, (has_char_tag_clause "000" op tags Hnul eq_refl eq_refl Hzero).
  cbn [orb has_char string_forallb nl chr negb andb Ascii.eqb Bool.eqb].
  rewrite lex_select_prefix, (lex_tag_clause op opw tags Hop Hq Hne Hnil Hquote).
  cbn [ocons omap bind]. rewrite parse_stmt_select.
  destruct tags as [|t [|u tags]]; [congruence| |];
    cbn [clause_tokens] in *; rewrite Hparse; reflexivity.
Qed.

Lemma forallb_map_pattern (f : string -> bool) (tags : list string) :
  forallb f (map like_pattern tags) = forallb (fun t => f (like_pattern t)) tags.
Proof.
  induction tags as [|t tags IH]; cbn [forallb map]; [reflexivity | now rewrite IH].
Qed.

Lemma existsb_singletons (f : string -> bool) (tags : list string) :
  existsb (forallb f) (map (fun t => [like_pattern t]) tags)
  = existsb (fun t => f (like_pattern t)) tags.
Proof.
  induction tags as [|t tags IH]; cbn [existsb map forallb]; [reflexivity|].
  now rewrite IH, andb_true_r.
Qed.

Lemma execute_select_tags env sql dnf db tb :
  compile sql = Return (SelectWhereTags dnf) ->
  provisioned db tb ->
  _execute env sql [] db =
  (mkDatabase (Some tb) (statements db ++ [sql])%list,
   Return (filter (fun r => existsb (forallb (fun p => like_match p (row_tagscsv r))) dnf)
             (rows tb))).
Proof.
  intros Hc [Ht Hs]. rewrite execute_eq. unfold sqlite_execute. rewrite Hc, Ht.
  unfold run_stmt. cbn [List.length marks_of Nat.eqb negb].
  apply shape_ok_true in Hs. rewrite Hs. reflexivity.
Qed.

(** [all_of]: every listed tag's pattern must match. *)
Lemma get_by_tag_all_of env tags any_of df db tb :
  provisioned db tb ->
  tags <> [] ->
  Forall (fun t => sql_safe t = true) tags ->
  get_by_tag env (Some (TagList tags)) any_of df db =
  (mkDatabase (Some tb) (statements db ++ [select_by_tag_cmd (tag_clause_of " AND " tags)])%list,
   Return (render df
     (filter (fun r => forallb (fun t => like_match (like_pattern t) (row_tagscsv r)) tags)
        (rows tb)))).
Proof.
  intros Hp Hnil Hall. unfold get_by_tag.
  assert (Htr : truthy (Some (TagList tags)) = true) by (destruct tags; [congruence | reflexivity]).
  rewrite Htr.
  rewrite (execute_select_tags env _ [map like_pattern tags] db tb); [| | assumption].
  - cbn [omap bind]. do 3 f_equal. apply filter_ext. intros r.
    cbn [existsb]. now rewrite orb_false_r, forallb_map_pattern.
  - apply (compile_select_tags " AND " "AND"); try assumption; try reflexivity.
    + discriminate.
    + now apply parse_where_and.
Qed.

(** [any_of], when [all_of] is not given: one listed tag's pattern must match. *)
Lemma get_by_tag_any_of env all_of tags df db tb :
  provisioned db tb ->
  truthy all_of = false ->
  tags <> [] ->
  Forall (fun t => sql_safe t = true) tags ->
  get_by_tag env all_of (Some (TagList tags)) df db =
  (mkDatabase (Some tb) (statements db ++ [select_by_tag_cmd (tag_clause_of " OR " tags)])%list,
   Return (render df
     (filter (fun r => existsb (fun t => like_match (like_pattern t) (row_tagscsv r)) tags)
        (rows tb)))).
Proof.
  intros Hp Hall_of Hnil Hall. unfold get_by_tag.
  assert (Htr : truthy (Some (TagList tags)) = true) by (destruct tags; [congruence | reflexivity]).
  rewrite Hall_of, Htr.
  rewrite (execute_select_tags env _ (map (fun t => [like_pattern t]) tags) db tb);
    [| | assumption].
  - cbn [omap bind]. do 3 f_equal. apply filter_ext. intros r.
    apply existsb_singletons.
  - apply (compile_select_tags " OR " "OR"); try assumption; try reflexivity.
    + discriminate.
    + now apply parse_where_or.
Qed.

(** ** LIKE patterns without wildcards are substring tests *)

Lemma c_string_id (s : string) : has_char "000" s = false -> c_string s = s.
Proof.
  induction s as [|c s IH]; [reflexivity|]. rewrite has_char_cons.
  intros H. apply orb_false_elim in H. destruct H as [Hc Hs].
  cbn [c_string]. now rewrite Hc, IH.
Qed.

Lemma nul_free_spec (s : string) : nul_free s = true <-> has_char "000" s = false.
Proof. unfold nul_free. apply negb_true_iff. Qed.

Lemma like_percent_unfold p s :
  pattern_compare (String "%" p) s =
  pattern_compare p s || match s with
                         | EmptyString => false
                         | String _ r => pattern_compare (String "%" p) r
                         end.
Proof. destruct s; reflexivity. Qed.

Lemma like_char_unfold c p s :
  Ascii.eqb c "%" = false ->
  pattern_compare (String c p) s =
  match s with
  | EmptyString => false
  | String d r => (Ascii.eqb c "_" || Ascii.eqb (tolower c) (tolower d)) && pattern_compare p r
  end.
Proof. intros H. cbn [pattern_compare]. now rewrite H. Qed.

Lemma like_percent_only s : pattern_compare "%" s = true.
Proof.
  induction s as [|c s IH]; [reflexivity|].
  rewrite like_percent_unfold. now rewrite IH, orb_true_r.
Qed.

Lemma like_prefix lit s :
  has_char "%" lit = false -> has_char "_" lit = false ->
  pattern_compare (lit ++ "%") s = String.prefix (lower lit) (lower s).
Proof.
  revert s. induction lit as [|c lit IH]; intros s Hp Hu.
  - cbn [append lower]. rewrite like_percent_only. destruct (lower s); reflexivity.
  - rewrite has_char_cons in Hp, Hu.
    apply orb_false_elim in Hp; destruct Hp as [Hc Hp].
    apply orb_false_elim in Hu; destruct Hu as [Hd Hu].
    cbn [append]. rewrite like_char_unfold by assumption.
    destruct s as [|d s]; [reflexivity|].
    rewrite Hd, IH by assumption. cbn [lower orb String.prefix].
    destruct (ascii_dec (tolower c) (tolower d)) as [E|E].
    + rewrite E, Ascii.eqb_refl. reflexivity.
    + apply Ascii.eqb_neq in E. now rewrite E.
Qed.

Lemma like_contains lit s :
  has_char "%" lit = false -> has_char "_" lit = false ->
  pattern_compare (String "%" (lit ++ "%")) s = contains_nocase lit s.
Proof.
  intros Hp Hu. unfold contains_nocase.
  induction s as [|c s IH]; rewrite like_percent_unfold, like_prefix by assumption.
  - reflexivity.
  - rewrite IH. reflexivity.
Qed.

Lemma plain_tag_spec t :
  plain_tag t = true <->
  sql_safe t = true /\ has_char "%" t = false /\ has_char "_" t = false.
Proof.
  unfold plain_tag. rewrite !andb_true_iff, !negb_true_iff. tauto.
Qed.

Lemma like_pattern_whole t : sql_safe t = true -> c_string (like_pattern t) = like_pattern t.
Proof.
  intros H. apply sql_safe_spec in H. destruct H as [_ Hz].
  apply c_string_id. unfold like_pattern. rewrite !has_char_append, Hz. reflexivity.
Qed.

Lemma like_pattern_plain t s :
  plain_tag t = true ->
  like_match (like_pattern t) s = contains_nocase (DELIM ++ t ++ DELIM) (c_string s).
Proof.
  intros H. apply plain_tag_spec in H. destruct H as (Hs & Hp & Hu).
  unfold like_match. rewrite (like_pattern_whole t Hs).
  replace (like_pattern t) with (String "%" ((DELIM ++ t ++ DELIM) ++ "%")).
  - apply like_contains; unfold DELIM; rewrite !has_char_append.
    + now rewrite Hp.
    + now rewrite Hu.
  - unfold like_pattern, DELIM. cbn [append]. now rewrite append_assoc.
Qed.

Lemma plain_tags_safe tags :
  Forall (fun t => plain_tag t = true) tags -> Forall (fun t => sql_safe t = true) tags.
Proof.
  apply Forall_impl. intros t H. now apply plain_tag_spec in H.
Qed.

Lemma forallb_ext_in {A} (f g : A -> bool) l :
  Forall (fun x => f x = g x) l -> forallb f l = forallb g l.
Proof. induction 1 as [|x l E _ IH]; cbn [forallb]; [reflexivity | now rewrite E, IH]. Qed.

Lemma existsb_ext_in {A} (f g : A -> bool) l :
  Forall (fun x => f x = g x) l -> existsb f l = existsb g l.
Proof. induction 1 as [|x l E _ IH]; cbn [existsb]; [reflexivity | now rewrite E, IH]. Qed.

(** A bare string is a one-element list. *)
Lemma get_by_tag_one_tag env t any_of df db :
  get_by_tag env (Some (OneTag t)) any_of df db =
  match t with
  | EmptyString => get_by_tag env None any_of df db
  | _ => get_by_tag env (Some (TagList [t])) any_of df db
  end.
Proof. destruct t; reflexivity. Qed.

(** C1 (amended).  For tags that hold no quote, no NUL and no LIKE
    wildcard, [get_by_tag] tests each tag by looking for
    [DELIM + t + DELIM] in the stored tag string, read up to its first
    NUL if it holds one, without regard to the case of ASCII letters;
    [all_of] returns the records that pass the test for every listed tag,
    [any_of] those that pass it for at least one; and for a record logged
    with the tags foo and bar the four queries of the specification
    answer as it says. *)
Theorem C1_tag_matching :
  (forall env tags any_of df db tb,
      provisioned db tb -> tags <> [] ->
      Forall (fun t => plain_tag t = true) tags ->
      snd (get_by_tag env (Some (TagList tags)) any_of df db) =
      Return (render df (filter (fun r => forallb (fun t => matches_tag t r) tags) (rows tb)))) /\
  (forall env all_of tags df db tb,
      provisioned db tb -> truthy all_of = false -> tags <> [] ->
      Forall (fun t => plain_tag t = true) tags ->
      snd (get_by_tag env all_of (Some (TagList tags)) df db) =
      Return (render df (filter (fun r => existsb (fun t => matches_tag t r) tags) (rows tb)))) /\
  (forall t r, nul_free (row_tagscsv r) = true -> matches_tag t r = carries_nocase t r) /\
  (let env := mkEnv ["job"] 1%float [] in
   let db := fst (log env (PyDict [(KStr "favorite_number", PyInt 42)]) (Some ["foo"; "bar"]) None
                    (fst (Wallaby env empty_database))) in
   exists r,
     rows_of db = [r] /\ row_tagscsv r = ",foo,bar," /\
     snd (get_by_tag env (Some (TagList ["foo"; "bar"])) None false db) = Return (RowList [r]) /\
     snd (get_by_tag env (Some (TagList ["foo"; "baz"])) None false db) = Return (RowList []) /\
     snd (get_by_tag env None (Some (TagList ["baz"; "foo"])) false db) = Return (RowList [r]) /\
     snd (get_by_tag env (Some (TagList ["ba"])) None false db) = Return (RowList [])).
Proof.
  split; [|split; [|split]].
  - intros env tags any_of df db tb Hp Hnil Hall.
    rewrite (get_by_tag_all_of env tags any_of df db tb Hp Hnil (plain_tags_safe _ Hall)).
    cbn [snd]. do 2 f_equal. apply filter_ext. intros r. apply forallb_ext_in.
    eapply Forall_impl; [|exact Hall]. intros t Ht. now apply like_pattern_plain.
  - intros env all_of tags df db tb Hp Hno Hnil Hall.
    rewrite (get_by_tag_any_of env all_of tags df db tb Hp Hno Hnil (plain_tags_safe _ Hall)).
    cbn [snd]. do 2 f_equal. apply filter_ext. intros r. apply existsb_ext_in.
    eapply Forall_impl; [|exact Hall]. intros t Ht. now apply like_pattern_plain.
  - intros t r H. apply nul_free_spec in H. unfold matches_tag, carries_nocase.
    now rewrite (c_string_id _ H).
  - eexists. repeat split; reflexivity.
Qed.

Lemma C1_tag_matching_witness :
  snd (get_by_tag (mkEnv [] 2%float []) (Some (TagList ["Foo"; "bar"])) None false
         (mkDatabase (Some (mkTable row_shape
                              [mkRow 1 "a" ",foo,bar," 1%float (Text "{}");
                               mkRow 2 "b" ",foo," 1%float (Text "{}")])) [])) =
  Return (RowList (filter (fun r => forallb (fun t => matches_tag t r) ["Foo"; "bar"])
                     [mkRow 1 "a" ",foo,bar," 1%float (Text "{}");
                      mkRow 2 "b" ",foo," 1%float (Text "{}")])).
Proof.
  apply (proj1 C1_tag_matching (mkEnv [] 2%float []) ["Foo"; "bar"] None false
           (mkDatabase (Some (mkTable row_shape
                                [mkRow 1 "a" ",foo,bar," 1%float (Text "{}");
                                 mkRow 2 "b" ",foo," 1%float (Text "{}")])) [])
           (mkTable row_shape
              [mkRow 1 "a" ",foo,bar," 1%float (Text "{}");
               mkRow 2 "b" ",foo," 1%float (Text "{}")])).
  - split; reflexivity.
  - discriminate.
  - repeat constructor.
Defined.

(** The test is not the exact substring test: a record tagged foo is
    returned for the query tag FOO, and for the query tag [%], though its
    tag string contains neither [,FOO,] nor [,%,]; and the record logged
    with the tags [a NUL] and [b] is not returned for the query tag b,
    though its tag string contains [,b,]. *)
Lemma C1_counterexample :
  (let r := mkRow 1 "job" ",foo," 1%float (Text "{}") in
   let db := mkDatabase (Some (mkTable row_shape [r])) [] in
   let env := mkEnv [] 2%float [] in
   ~ (returned (snd (get_by_tag env (Some (TagList ["FOO"])) None false db)) r
      <-> carries "FOO" r = true) /\
   ~ (returned (snd (get_by_tag env (Some (TagList ["%"])) None false db)) r
      <-> carries "%" r = true)) /\
  (let env := mkEnv ["job"] 1%float [] in
   let db := fst (log env (PyStr "done") (Some [String "a" (chr "000"); "b"]) None
                    (fst (Wallaby env empty_database))) in
   exists r,
     rows_of db = [r] /\
     carries "b" r = true /\
     snd (get_by_tag env (Some (TagList ["b"])) None false db) = Return (RowList []) /\
     ~ (returned (snd (get_by_tag env (Some (TagList ["b"])) None false db)) r
        <-> carries "b" r = true)).
Proof.
  split.
  - cbv zeta. split; intros [H _].
    + assert (E : carries "FOO" (mkRow 1 "job" ",foo," 1%float (Text "{}")) = true).
      { apply H. eexists. split; [reflexivity | left; reflexivity]. }
      discriminate E.
    + assert (E : carries "%" (mkRow 1 "job" ",foo," 1%float (Text "{}")) = true).
      { apply H. eexists. split; [reflexivity | left; reflexivity]. }
      discriminate E.
  - cbv zeta. eexists. split; [reflexivity|]. split; [reflexivity|]. split; [reflexivity|].
    intros [_ H]. destruct (H eq_refl) as (rs & E & Hin).
    injection E as <-. exact Hin.
Qed.

(** ** Tags are SQL text *)

Lemma last_char_inv r c : last_char r = Some c -> exists x, r = x ++ chr c.
Proof.
  induction r as [|d r IH]; [discriminate|].
  cbn [last_char]. destruct r as [|e r].
  - intros [= ->]. now exists EmptyString.
  - intros H. destruct (IH H) as [x ->]. now exists (String d x).
Qed.

Lemma framed_inv s : framed s = true -> exists x, s = String "," (x ++ ",").
Proof.
  unfold framed. destruct s as [|d r]; [discriminate|].
  cbn [starts_with]. intros H. apply andb_prop in H. destruct H as [Hd Hl].
  apply Ascii.eqb_eq in Hd. subst d.
  destruct (last_char r) as [c|] eqn:E; [|discriminate].
  apply Ascii.eqb_eq in Hl. subst c.
  destruct (last_char_inv _ _ E) as [x ->]. now exists x.
Qed.

Lemma returned_render df l r : returned (Return (render df l)) r <-> In r l.
Proof.
  unfold returned. split.
  - intros (rs & [= <-] & H). destruct df; exact H.
  - intros H. eexists. split; [reflexivity|]. destruct df; exact H.
Qed.

Lemma like_comma_tail x : pattern_compare "%,%" (x ++ ",") = true.
Proof.
  induction x as [|c x IH]; [reflexivity|].
  cbn [append]. rewrite like_percent_unfold, IH. apply orb_true_r.
Qed.

(** The pattern written for the tag [%] matches every framed tag string
    without NUL. *)
Lemma like_percent_tag s :
  framed s = true -> has_char "000" s = false -> like_match (like_pattern "%") s = true.
Proof.
  intros H Hz. destruct (framed_inv _ H) as [x ->].
  unfold like_match. rewrite (c_string_id _ Hz).
  change (c_string (like_pattern "%")) with (String "%" ",%,%").
  rewrite like_percent_unfold.
  rewrite (like_char_unfold "," "%,%" _ eq_refl).
  cbn [tolower is_upper between Ascii.leb Ascii.compare N_of_ascii orb andb].
  rewrite like_comma_tail. reflexivity.
Qed.

Lemma filter_all {A} (f : A -> bool) l : Forall (fun x => f x = true) l -> filter f l = l.
Proof. induction 1 as [|x l E _ IH]; cbn [filter]; [reflexivity | now rewrite E, IH]. Qed.

Lemma emit_raise w e : emit w (Raise e) = Raise e.
Proof. unfold emit. destruct (is_empty w); reflexivity. Qed.

Lemma lex_unclosed_tail w : lex w clause_tail = Raise SqliteError.
Proof.
  change (lex w clause_tail) with (emit w (Raise SqliteError)).
  apply emit_raise.
Qed.

(** A quoted identifier that is not closed is an unrecognized token. *)
Lemma lex_quoted_unclosed close doubling s :
  has_char close s = false -> lex_quoted close doubling s = Raise SqliteError.
Proof.
  induction s as [|c s IH]; [reflexivity|]. rewrite has_char_cons.
  intros H. apply orb_false_elim in H. destruct H as [Hc Hs].
  cbn [lex_quoted]. rewrite Hc. now apply IH.
Qed.

Lemma contains_suffix n c s : contains n (String c s) = false -> contains n s = false.
Proof.
  cbn [contains]. intros H. apply orb_false_elim in H. destruct H as [_ H].
  destruct s; exact H.
Qed.

Lemma has_comment_suffix c s : has_comment (String c s) = false -> has_comment s = false.
Proof.
  unfold has_comment. intros H. apply orb_false_elim in H. destruct H as [H1 H2].
  now rewrite (contains_suffix _ _ _ H1), (contains_suffix _ _ _ H2).
Qed.

(** A two-character mark that is not in [a] is not in [a] followed by the
    end of the statement either. *)
Lemma contains_before_tail x y a :
  Ascii.eqb y "," = false ->
  contains (String x (chr y)) clause_tail = false ->
  contains (String x (chr y)) a = false ->
  contains (String x (chr y)) (a ++ clause_tail) = false.
Proof.
  intros Hy Ht. induction a as [|c a IH]; intros Ha; [exact Ht|].
  pose proof (contains_suffix _ _ _ Ha) as Ha'.
  cbn [append contains] in *. apply orb_false_elim in Ha. destruct Ha as [Hp _].
  unfold chr in *. rewrite prefix_cons in Hp. rewrite prefix_cons.
  destruct a as [|d a].
  - cbn [append]. unfold clause_tail. cbn [append]. rewrite prefix_cons, Hy.
    rewrite andb_false_r. cbn [orb]. exact Ht.
  - cbn [append]. rewrite prefix_cons, prefix_nil in *.
    rewrite Hp. cbn [orb]. now apply IH.
Qed.

Lemma has_comment_before_tail a : has_comment a = false -> has_comment (a ++ clause_tail) = false.
Proof.
  unfold has_comment. intros H. apply orb_false_elim in H. destruct H as [H1 H2].
  change "--" with (String "-" (chr "-")) in *. change "/*" with (String "/" (chr "*")) in *.
  rewrite (contains_before_tail "-" "-" a eq_refl eq_refl H1).
  now rewrite (contains_before_tail "/" "*" a eq_refl eq_refl H2).
Qed.

Lemma not_blank_before_tail a : string_forallb is_space (a ++ clause_tail) = false.
Proof. rewrite forallb_append. apply andb_false_r. Qed.

Lemma starts_with_before_tail c a :
  Ascii.eqb "," c = false ->
  match a with String d _ => Ascii.eqb d c = false | EmptyString => True end ->
  starts_with c (a ++ clause_tail) = false.
Proof. intros Hc. destruct a as [|d a]; [intros _; exact Hc | intros H; exact H]. Qed.

(** After a literal closed too early the rest of the statement cannot be
    read to its end: whatever follows the quote, as long as it holds no
    further quote and opens no comment, the quote that was meant to close
    the literal opens one that is never closed. *)
Lemma lex_rest_fails (n : nat) :
  forall t,
    (String.length t <= n)%nat ->
    has_char squote t = false ->
    has_comment t = false ->
    (forall w, lex w (t ++ clause_tail) = Raise SqliteError) /\
    (forall close doubling,
        has_char close clause_tail = false ->
        lex_quoted close doubling (t ++ clause_tail) = Raise SqliteError).
Proof.
  induction n as [|n IH]; intros t Hlen Hq Hc.
  - destruct t; [|cbn in Hlen; lia].
    split; [apply lex_unclosed_tail | intros; now apply lex_quoted_unclosed].
  - destruct t as [|c t];
      [split; [apply lex_unclosed_tail | intros; now apply lex_quoted_unclosed]|].
    cbn [String.length] in Hlen. assert (Hlen' : (String.length t <= n)%nat) by lia.
    rewrite has_char_cons in Hq. apply orb_false_elim in Hq. destruct Hq as [Hcq Hq].
    pose proof (has_comment_suffix _ _ Hc) as Hc'.
    destruct (IH t Hlen' Hq Hc') as [IHl IHq].
    split.
    + intros w. cbn [append lex].
      destruct (is_alpha c); [apply IHl|].
      destruct (is_digit c); [destruct (is_empty w); rewrite IHl; reflexivity|].
      destruct (is_space c); [rewrite IHl; apply emit_raise|].
      rewrite Hcq.
      destruct (Ascii.eqb c dquote || Ascii.eqb c "`") eqn:Hd.
      { rewrite IHq; [apply emit_raise|].
        apply orb_prop in Hd. destruct Hd as [E|E]; apply Ascii.eqb_eq in E; subst c; reflexivity. }
      destruct (Ascii.eqb c "[").
      { rewrite IHq by reflexivity. apply emit_raise. }
      destruct (Ascii.eqb c ";").
      { now rewrite not_blank_before_tail, has_comment_before_tail. }
      unfold has_comment in Hc. apply orb_false_elim in Hc. destruct Hc as [Hm Hs].
      cbn [contains] in Hm, Hs.
      apply orb_false_elim in Hm. destruct Hm as [Hm _].
      apply orb_false_elim in Hs. destruct Hs as [Hs _].
      destruct (Ascii.eqb c "-") eqn:E1.
      { apply Ascii.eqb_eq in E1. subst c.
        rewrite starts_with_before_tail; [rewrite IHl; apply emit_raise | reflexivity |].
        destruct t as [|d t]; [exact I|].
        change "--" with (String "-" (chr "-")) in Hm. unfold chr in Hm.
        rewrite !prefix_cons, prefix_nil, andb_true_r in Hm. cbn [Ascii.eqb andb] in Hm.
        rewrite Ascii.eqb_sym. exact Hm. }
      destruct (Ascii.eqb c "/") eqn:E2.
      { apply Ascii.eqb_eq in E2. subst c.
        rewrite starts_with_before_tail; [rewrite IHl; apply emit_raise | reflexivity |].
        destruct t as [|d t]; [exact I|].
        change "/*" with (String "/" (chr "*")) in Hs. unfold chr in Hs.
        rewrite !prefix_cons, prefix_nil, andb_true_r in Hs. cbn [Ascii.eqb andb] in Hs.
        rewrite Ascii.eqb_sym. exact Hs. }
      destruct (is_symbol c); rewrite IHl; apply emit_raise.
    + intros close doubling Hclose. cbn [append lex_quoted].
      destruct (Ascii.eqb c close); [|now apply IHq].
      destruct t as [|d t].
      * cbn [append]. unfold clause_tail at 1. cbn [append].
        replace (doubling && Ascii.eqb "," close) with false.
        -- change (String "," ("%'" ++ nl ++ "        ")) with (EmptyString ++ clause_tail).
           now rewrite (proj1 (IH EmptyString (Nat.le_0_l n) eq_refl eq_refl)).
        -- unfold clause_tail in Hclose. cbn [append] in Hclose.
           rewrite has_char_cons in Hclose. apply orb_false_elim in Hclose.
           destruct Hclose as [E _]. rewrite E. now rewrite andb_false_r.
      * cbn [append]. destruct (doubling && Ascii.eqb d close).
        -- cbn [String.length] in Hlen'.
           rewrite has_char_cons in Hq. apply orb_false_elim in Hq.
           apply (IH t); [lia | apply Hq | now apply has_comment_suffix in Hc'| exact Hclose].
        -- change (String d (t ++ clause_tail)) with (String d t ++ clause_tail).
           now rewrite IHl.
Qed.

(** A tag with one quote and no comment opener after it leaves the
    statement with an unrecognized token. *)
Lemma compile_quoted_tag op t1 t2 :
  has_char squote t1 = false ->
  has_char squote t2 = false ->
  has_comment t2 = false ->
  compile (select_by_tag_cmd (tag_clause_of op [t1 ++ chr squote ++ t2])) = Raise SqliteError.
Proof.
  intros H1 H2 H3. unfold compile. destruct (has_char "000" _); [reflexivity|].
  unfold select_by_tag_cmd. rewrite lex_select_prefix.
  change (tag_clause_of op [t1 ++ chr squote ++ t2])
    with ("tagscsv LIKE '%," ++ (t1 ++ chr squote ++ t2) ++ ",%'").
  replace (("tagscsv LIKE '%," ++ (t1 ++ chr squote ++ t2) ++ ",%'") ++ nl ++ "        ")
    with ("tagscsv LIKE '" ++
          (("%," ++ t1) ++ String squote (t2 ++ clause_tail))).
  - change (lex EmptyString ("tagscsv LIKE '" ++
              (("%," ++ t1) ++ String squote (t2 ++ clause_tail))))
      with (ocons (TWord "tagscsv") (ocons (TWord "LIKE")
              (lex_str EmptyString
                 (("%," ++ t1) ++ String squote (t2 ++ clause_tail))))).
    rewrite lex_str_literal.
    + rewrite (proj1 (lex_rest_fails (String.length t2) t2 (Nat.le_refl _) H2 H3)). reflexivity.
    + rewrite has_char_append, H1. reflexivity.
    + apply starts_with_before_tail; [reflexivity|].
      destruct t2 as [|d t2]; [exact I|].
      rewrite has_char_cons in H2. apply orb_false_elim in H2. apply H2.
  - unfold clause_tail. rewrite !append_assoc. reflexivity.
Qed.

Lemma get_by_tag_quoted_tag env all_of any_of df db t1 t2 :
  (all_of = Some (TagList [t1 ++ chr squote ++ t2]) \/
   (truthy all_of = false /\ any_of = Some (TagList [t1 ++ chr squote ++ t2]))) ->
  has_char squote t1 = false ->
  has_char squote t2 = false ->
  has_comment t2 = false ->
  snd (get_by_tag env all_of any_of df db) = Raise SqliteError.
Proof.
  intros Hq H1 H2 H3. unfold get_by_tag.
  destruct Hq as [-> | [Hno ->]]; [| rewrite Hno];
    cbn [truthy]; rewrite execute_eq; unfold sqlite_execute;
    rewrite compile_quoted_tag by assumption; reflexivity.
Qed.




Example doubled_quote_is_an_escape :
  compile (select_by_tag_cmd (tag_clause_of " AND " ["''"]))
  = Return (SelectWhereTags [["%,',%"]]).
Proof. reflexivity. Qed.

(** ** The delimiter is not reserved *)

Lemma split_on_tag d t rest :
  has_char d t = false -> split_on d (t ++ String d rest) = t :: split_on d rest.
Proof.
  induction t as [|c t IH]; intros H.
  - cbn [append split_on]. now rewrite Ascii.eqb_refl.
  - rewrite has_char_cons in H. apply orb_false_elim in H. destruct H as [Hc H].
    cbn [append split_on]. now rewrite Hc, IH.
Qed.

Lemma split_delimited tags :
  Forall (fun t => has_char "," t = false) tags ->
  split_on "," (delimited tags) = (tags ++ [EmptyString])%list.
Proof.
  induction 1 as [|t tags Ht _ IH]; [reflexivity|].
  cbn [delimited]. change (t ++ DELIM ++ delimited tags) with (t ++ String "," (delimited tags)).
  now rewrite split_on_tag, IH.
Qed.

(** Splitting the stored string gives the tags back when none of them
    holds the delimiter. *)
Lemma split_tagscsv tags :
  tags <> [] ->
  Forall (fun t => has_char "," t = false) tags ->
  split_on "," (tagscsv_of (Some tags)) = (EmptyString :: tags ++ [EmptyString])%list.
Proof.
  intros Hnil Hall. rewrite tagscsv_of_spec.
  destruct tags as [|t tags]; [congruence|].
  change (spec_tagscsv (t :: tags)) with (String "," (delimited (t :: tags))).
  cbn [split_on]. change (Ascii.eqb "," ",") with true. cbv iota.
  now rewrite split_delimited.
Qed.

(** C6 (amended).  In every database Wallaby produced each stored tag
    string begins and ends with the delimiter, and so does the one of the
    row a successful [log] adds.  Tags are stored as given: when a
    non-empty list of tags is passed and none of them holds the delimiter,
    splitting the stored string at the delimiter gives back exactly the
    tags that were passed, between two empty ends; for an empty or omitted
    list the stored string is the delimiter twice. *)
Theorem C6_tag_strings_are_framed :
  (forall db, reachable db ->
              Forall (fun r => framed (row_tagscsv r) = true) (rows_of db)) /\
  (forall env results tags jobtext db db',
      log env results tags jobtext db = (db', Return true) ->
      exists r,
        rows_of db' = insert_row r (rows_of db) /\
        framed (row_tagscsv r) = true /\
        (forall l, tags = Some l -> l <> [] ->
                   Forall (fun t => has_char "," t = false) l ->
                   split_on "," (row_tagscsv r) = (EmptyString :: l ++ [EmptyString])%list) /\
        (tags = None \/ tags = Some [] -> row_tagscsv r = DELIM ++ DELIM)).
Proof.
  split.
  - intros db Hr. apply reachable_store_inv in Hr. destruct Hr as (tb & [Ht _] & _ & Hf).
    unfold rows_of. now rewrite Ht.
  - intros env results tags jobtext db db' H. apply log_inversion in H.
    destruct H as (tb & text & i & [Ht _] & _ & _ & _ & ->).
    exists (new_row i env tags jobtext text). split; [|split; [|split]].
    + unfold rows_of. rewrite Ht. reflexivity.
    + apply tagscsv_of_framed.
    + intros l -> Hnil Hall. now apply split_tagscsv.
    + intros [-> | ->]; reflexivity.
Qed.

Lemma C6_tag_strings_are_framed_witness :
  Forall (fun r => framed (row_tagscsv r) = true)
         (rows_of (run [CallLog (mkEnv ["job"] 1%float []) (PyStr "a") (Some ["x"; "y"]) None]
                       (fst (Wallaby (mkEnv [] 0%float []) empty_database)))).
Proof.
  apply (proj1 C6_tag_strings_are_framed).
  exists (mkEnv [] 0%float []), [CallLog (mkEnv ["job"] 1%float []) (PyStr "a") (Some ["x"; "y"]) None].
  reflexivity.
Defined.

(** [log] takes a tag that holds the delimiter and stores it as it is. *)
Lemma C6_counterexample :
  ~ (forall env results tags jobtext db db',
        reachable db ->
        log env results (Some tags) jobtext db = (db', Return true) ->
        Forall (fun t => has_char "," t = false) tags).
Proof.
  intros H.
  assert (F : Forall (fun t => has_char "," t = false) ["a,b"]).
  { eapply (H (mkEnv ["job"] 1%float []) (PyStr "done") ["a,b"] None
              (fst (Wallaby (mkEnv [] 0%float []) empty_database))).
    - exists (mkEnv [] 0%float []), []. reflexivity.
    - reflexivity. }
  inversion F as [|? ? E _]. discriminate E.
Qed.

(** The record logged with the one tag [a,b] answers to the tag [a]. *)
Example delimiter_inside_a_tag :
  let env := mkEnv ["job"] 1%float [] in
  let db := fst (log env (PyStr "done") (Some ["a,b"]) None (fst (Wallaby env empty_database))) in
  exists r,
    rows_of db = [r] /\ row_tagscsv r = ",a,b," /\
    snd (get_by_tag env (Some (TagList ["a"])) None false db) = Return (RowList [r]).
Proof. eexists. repeat split; reflexivity. Qed.

(** ** Decoding what [json.dumps] wrote *)

Local Open Scope nat_scope.

Lemma scanstring_escape_char (c : ascii) (rest : string) :
  scanstring (escape_char c ++ rest) = push c (scanstring rest).
Proof.
  destruct c as [b0 b1 b2 b3 b4 b5 b6 b7].
  destruct b0, b1, b2, b3, b4, b5, b6, b7; reflexivity.
Qed.

Lemma scanstring_escape (s rest : string) :
  scanstring (escape s ++ String dquote rest) = Return (s, rest).
Proof.
  induction s as [|c s IH]; [reflexivity|].
  cbn [escape]. rewrite append_assoc, scanstring_escape_char, IH. reflexivity.
Qed.


Lemma digits_of_uint (u : Decimal.uint) : string_forallb is_digit (NilEmpty.string_of_uint u) = true.
Proof. induction u; cbn [NilEmpty.string_of_uint string_forallb]; auto. Qed.

Lemma take_digits_all (ds rest : string) :
  string_forallb is_digit ds = true ->
  match rest with EmptyString => true | String c _ => negb (is_digit c) end = true ->
  take_digits (ds ++ rest) = (ds, rest).
Proof.
  intros Hds Hrest. induction ds as [|c ds IH].
  - destruct rest as [|c r]; [reflexivity|]. cbn [append take_digits].
    apply negb_true_iff in Hrest. now rewrite Hrest.
  - cbn [string_forallb] in Hds. apply andb_prop in Hds. destruct Hds as [Hc Hds].
    cbn [append take_digits]. now rewrite Hc, IH.
Qed.

Lemma nzhead_not_D0 (d d' : Decimal.uint) : Decimal.nzhead d <> Decimal.D0 d'.
Proof. induction d; cbn [Decimal.nzhead]; try discriminate. assumption. Qed.

(** The decimal text of a positive number starts with a digit other than 0. *)
Lemma to_uint_head (p : positive) :
  exists c ds,
    NilEmpty.string_of_uint (Pos.to_uint p) = String c ds /\
    is_digit c = true /\ Ascii.eqb c "0" = false.
Proof.
  assert (Hn : Decimal.unorm (Pos.to_uint p) = Pos.to_uint p).
  { rewrite <- DecimalPos.Unsigned.to_of, DecimalPos.Unsigned.of_to. reflexivity. }
  pose proof (DecimalPos.Unsigned.to_uint_nonnil p) as Hnil.
  pose proof (DecimalPos.Unsigned.to_uint_nonzero p) as Hzero.
  destruct (Pos.to_uint p) as [|d|d|d|d|d|d|d|d|d|d];
    try (cbn [NilEmpty.string_of_uint]; do 2 eexists; repeat split; reflexivity).
  - congruence.
  - exfalso. unfold Decimal.unorm in Hn. cbn [Decimal.nzhead] in Hn.
    destruct (Decimal.nzhead d) eqn:E; try discriminate Hn.
    + injection Hn as <-. now apply Hzero.
    + now apply nzhead_not_D0 in E.
Qed.

Lemma terminated_spec (rest : string) :
  terminated rest = true ->
  (starts_with "." rest || starts_with "e" rest || starts_with "E" rest) = false /\
  match rest with EmptyString => true | String c _ => negb (is_digit c) end = true.
Proof.
  destruct rest as [|c r]; [split; reflexivity|].
  cbn [terminated starts_with]. intros H.
  apply orb_prop in H. destruct H as [H|H]; [apply orb_prop in H; destruct H as [H|H]|];
    apply Ascii.eqb_eq in H; subst c; split; reflexivity.
Qed.

Lemma finish_number_digits (negative : bool) (u : Decimal.uint) (rest : string) :
  terminated rest = true ->
  finish_number negative (NilEmpty.string_of_uint u) rest =
  Return (PyInt (if negative then - Z.of_uint u else Z.of_uint u)%Z, rest).
Proof.
  intros H. apply terminated_spec in H. destruct H as [H _].
  unfold finish_number. now rewrite H, NilEmpty.usu.
Qed.

Lemma scan_digits_pos (negative : bool) (p : positive) (rest : string) :
  terminated rest = true ->
  scan_digits negative (NilEmpty.string_of_uint (Pos.to_uint p) ++ rest) =
  Return (PyInt (if negative then Z.neg p else Z.pos p), rest).
Proof.
  intros H. destruct (to_uint_head p) as (c & ds & E & Hd & Hz).
  pose proof (digits_of_uint (Pos.to_uint p)) as Hall. rewrite E in Hall.
  cbn [string_forallb] in Hall. apply andb_prop in Hall. destruct Hall as [_ Hall].
  rewrite E. cbn [append scan_digits]. rewrite Hz, Hd.
  rewrite take_digits_all; [| assumption | now apply terminated_spec].
  rewrite <- E, finish_number_digits by assumption.
  unfold Z.of_uint. rewrite DecimalPos.Unsigned.of_to. destruct negative; reflexivity.
Qed.

Lemma repr_int_pos (p : positive) :
  repr_int (Z.pos p) = NilEmpty.string_of_uint (Pos.to_uint p).
Proof.
  unfold repr_int. cbn [Z.to_int NilZero.string_of_int]. unfold NilZero.string_of_uint.
  pose proof (DecimalPos.Unsigned.to_uint_nonnil p). destruct (Pos.to_uint p); congruence.
Qed.

Lemma repr_int_neg (p : positive) :
  repr_int (Z.neg p) = String "-" (NilEmpty.string_of_uint (Pos.to_uint p)).
Proof.
  unfold repr_int. cbn [Z.to_int NilZero.string_of_int]. unfold NilZero.string_of_uint.
  pose proof (DecimalPos.Unsigned.to_uint_nonnil p). destruct (Pos.to_uint p); congruence.
Qed.

Lemma digit_is_value_start (c : ascii) :
  is_digit c = true ->
  Ascii.eqb c "-" = false /\ Ascii.eqb c dquote = false /\ Ascii.eqb c "{" = false /\
  Ascii.eqb c "[" = false /\ Ascii.eqb c "n" = false /\ Ascii.eqb c "t" = false /\
  Ascii.eqb c "f" = false.
Proof.
  destruct c as [b0 b1 b2 b3 b4 b5 b6 b7].
  destruct b0, b1, b2, b3, b4, b5, b6, b7; try discriminate; repeat split.
Qed.

(** An integer is read back, in front of anything that may follow a value. *)
Lemma scan_once_int (fuel : nat) (n : Z) (rest : string) :
  terminated rest = true ->
  scan_once (S fuel) (repr_int n ++ rest) = Return (PyInt n, rest).
Proof.
  intros H. destruct n as [|p|p].
  - change (repr_int 0) with "0". cbn [append scan_once].
    change (scan_number (String "0" rest)) with (finish_number false "0" rest).
    apply (finish_number_digits false (Decimal.D0 Decimal.Nil) rest H).
  - rewrite repr_int_pos. destruct (to_uint_head p) as (c & ds & E & Hd & _).
    pose proof (scan_digits_pos false p rest H) as Hs.
    rewrite E in *. cbn [append] in *. cbn [scan_once].
    destruct (digit_is_value_start c Hd) as (Hm & H1 & H2 & H3 & H4 & H5 & H6).
    rewrite H1, H2, H3, H4, H5, H6. unfold scan_number. rewrite Hm. exact Hs.
  - rewrite repr_int_neg. cbn [append scan_once].
    change (scan_number (String "-" (NilEmpty.string_of_uint (Pos.to_uint p) ++ rest)))
      with (scan_digits true (NilEmpty.string_of_uint (Pos.to_uint p) ++ rest)).
    now apply scan_digits_pos.
Qed.

Lemma value_start_spec (c : ascii) :
  value_start c = true ->
  is_json_ws c = false /\ Ascii.eqb c "]" = false /\ Ascii.eqb c "}" = false.
Proof.
  destruct c as [b0 b1 b2 b3 b4 b5 b6 b7].
  destruct b0, b1, b2, b3, b4, b5, b6, b7; try discriminate; repeat split.
Qed.

Lemma digit_value_start (c : ascii) : is_digit c = true -> value_start c = true.
Proof. unfold value_start. now intros ->. Qed.

(** An encoded document starts with a character that begins a value. *)
Lemma encode_head (v : pyval) :
  json_document v = true ->
  exists c r, encode v = String c r /\ value_start c = true.
Proof.
  destruct v as [|[]|[|p|p]|s|l|d|]; intros H; try discriminate H;
    try (do 2 eexists; split; [reflexivity | reflexivity]).
  cbn [encode]. rewrite repr_int_pos.
  destruct (to_uint_head p) as (c & ds & E & Hd & _).
  exists c, ds. split; [exact E | now apply digit_value_start].
Qed.

Lemma skip_ws_value (c : ascii) (r : string) :
  value_start c = true -> skip_ws (String c r) = String c r.
Proof.
  intros H. apply value_start_spec in H. destruct H as [H _].
  cbn [skip_ws]. now rewrite H.
Qed.

Lemma skip_ws_encode (v : pyval) (rest : string) :
  json_document v = true -> skip_ws (encode v ++ rest) = encode v ++ rest.
Proof.
  intros H. destruct (encode_head v H) as (c & r & -> & Hc).
  cbn [append]. now apply skip_ws_value.
Qed.

Lemma items_text_cons x y l :
  items_text (x :: y :: l) = encode x ++ ", " ++ items_text (y :: l).
Proof. reflexivity. Qed.

Lemma items_text_head x l rest :
  json_document x = true ->
  exists c r, items_text (x :: l) ++ rest = String c r /\ value_start c = true.
Proof.
  intros H. destruct (encode_head x H) as (c & r & E & Hc).
  destruct l as [|y l].
  - change (items_text [x]) with (encode x). rewrite E. cbn [append]. eauto.
  - rewrite items_text_cons, E. cbn [append]. eauto.
Qed.

(** [JSONArray] reads back the items of a non-empty list. *)
Lemma array_items_encode (l : list pyval) :
  l <> [] ->
  Forall (fun x => json_document x = true -> decodes x) l ->
  forallb json_document l = true ->
  forall fuel rest,
    1 + String.length (items_text l) <= fuel ->
    array_items fuel (items_text l ++ "]" ++ rest) = Return (l, rest).
Proof.
  intros Hnil Hall. induction Hall as [|x l Hx Hall IH]; [congruence|].
  intros Hdoc fuel rest Hfuel. cbn [forallb] in Hdoc.
  apply andb_prop in Hdoc. destruct Hdoc as [Hdx Hdl].
  destruct fuel as [|fuel]; [lia|]. cbn [array_items].
  destruct l as [|y l].
  - change (items_text [x]) with (encode x) in *.
    rewrite (Hx Hdx fuel ("]" ++ rest)) by (reflexivity || lia).
    reflexivity.
  - rewrite items_text_cons in *. rewrite !append_assoc.
    rewrite !length_append in Hfuel. cbn [String.length] in Hfuel.
    rewrite (Hx Hdx fuel) by (reflexivity || lia).
    cbn [bind append skip_ws is_json_ws Ascii.eqb Bool.eqb orb].
    cbn [forallb] in Hdl.
    destruct (items_text_head y l ("]" ++ rest)) as (c & r & E & Hc);
      [now apply andb_prop in Hdl|].
    change (String "]" rest) with ("]" ++ rest).
    rewrite E, (skip_ws_value c r Hc), <- E.
    rewrite IH by (discriminate || assumption || lia). reflexivity.
Qed.

Lemma members_text_unfold k x d rest :
  members_text ((k, x) :: d) ++ "}" ++ rest =
  String dquote (escape (key_text k) ++ String dquote (": " ++ encode x ++ members_rest d rest)).
Proof.
  destruct d as [|kv d].
  - change (members_text [(k, x)]) with (encode_string (key_text k) ++ ": " ++ encode x).
    unfold encode_string, members_rest. rewrite !append_assoc. reflexivity.
  - change (members_text ((k, x) :: kv :: d))
      with ((encode_string (key_text k) ++ ": " ++ encode x) ++ ", " ++ members_text (kv :: d)).
    unfold encode_string, members_rest. rewrite !append_assoc. reflexivity.
Qed.

Lemma members_text_length k x d :
  String.length (members_text ((k, x) :: d)) =
  4 + String.length (escape (key_text k)) + String.length (encode x)
  + match d with [] => 0 | _ :: _ => 2 + String.length (members_text d) end.
Proof.
  destruct d as [|kv d].
  - change (members_text [(k, x)]) with (encode_string (key_text k) ++ ": " ++ encode x).
    unfold encode_string. rewrite !length_append. cbn [String.length chr]. lia.
  - change (members_text ((k, x) :: kv :: d))
      with ((encode_string (key_text k) ++ ": " ++ encode x) ++ ", " ++ members_text (kv :: d)).
    unfold encode_string. rewrite !length_append. cbn [String.length chr]. lia.
Qed.

Lemma members_rest_terminated d rest : terminated (members_rest d rest) = true.
Proof. destruct d; reflexivity. Qed.

(** [JSONObject] reads back the members of a non-empty dict. *)
Lemma object_items_encode (d : list (pykey * pyval)) :
  Forall (fun kv => json_document (snd kv) = true -> decodes (snd kv)) d ->
  forallb (fun kv => json_document (snd kv)) d = true ->
  forall k x fuel rest,
    json_document x = true -> decodes x ->
    1 + String.length (members_text ((k, x) :: d)) <= fuel ->
    object_items fuel
      (escape (key_text k) ++ String dquote (": " ++ encode x ++ members_rest d rest))
    = Return (pairs_of ((k, x) :: d), rest).
Proof.
  induction 1 as [|[k' x'] d Hx' Hall IH]; intros Hdoc k x fuel rest Hdx Hx Hfuel;
    rewrite members_text_length in Hfuel;
    (destruct fuel as [|fuel]; [lia|]); cbn [object_items];
    rewrite scanstring_escape;
    cbn [bind append skip_ws is_json_ws Ascii.eqb Bool.eqb orb];
    rewrite (skip_ws_encode x _ Hdx);
    rewrite (Hx fuel _) by (lia || apply members_rest_terminated);
    cbn [bind].
  - reflexivity.
  - cbn [forallb snd] in Hdoc. apply andb_prop in Hdoc. destruct Hdoc as [Hdx' Hdoc].
    cbn [members_rest append skip_ws is_json_ws Ascii.eqb Bool.eqb orb].
    change (String "}" rest) with ("}" ++ rest).
    rewrite members_text_unfold.
    cbn [skip_ws is_json_ws Ascii.eqb Bool.eqb orb dquote].
    rewrite (IH Hdoc k' x' fuel rest Hdx' (Hx' Hdx')) by lia.
    reflexivity.
Qed.

Lemma key_eqb_sym a b : key_eqb a b = key_eqb b a.
Proof.
  destruct a, b; cbn [key_eqb]; [apply String.eqb_sym | reflexivity.. | apply Z.eqb_sym].
Qed.

Lemma dict_set_fresh acc k v :
  existsb (key_eqb k) (map fst acc) = false -> dict_set acc k v = (acc ++ [(k, v)])%list.
Proof.
  induction acc as [|[k' v'] acc IH]; intros H; [reflexivity|].
  cbn [map fst existsb] in H. apply orb_false_elim in H. destruct H as [Hk H].
  cbn [dict_set app]. rewrite key_eqb_sym, Hk. now rewrite IH.
Qed.

Lemma existsb_key_app k (a b : list (pykey * pyval)) :
  existsb (key_eqb k) (map fst (a ++ b)%list) =
  existsb (key_eqb k) (map fst a) || existsb (key_eqb k) (map fst b).
Proof. now rewrite map_app, existsb_app. Qed.

Lemma fold_dict_set d acc :
  forallb (fun kv => is_str_key (fst kv)) d = true ->
  distinct (map fst d) = true ->
  Forall (fun kv => existsb (key_eqb (fst kv)) (map fst acc) = false) d ->
  fold_left (fun a '(k, v) => dict_set a (KStr k) v) (pairs_of d) acc = (acc ++ d)%list.
Proof.
  revert acc. induction d as [|[k v] d IH]; intros acc Hstr Hdist Hfresh.
  - cbn. now rewrite List.app_nil_r.
  - cbn [forallb fst] in Hstr. apply andb_prop in Hstr. destruct Hstr as [Hk Hstr].
    cbn [map fst distinct] in Hdist. apply andb_prop in Hdist. destruct Hdist as [Hnew Hdist].
    apply negb_true_iff in Hnew.
    inversion Hfresh as [|? ? Hkacc Hrest]; subst.
    destruct k as [s|n]; [|discriminate Hk].
    cbn [pairs_of map fold_left fst snd key_text]. fold (pairs_of d).
    rewrite (dict_set_fresh acc (KStr s) v Hkacc).
    rewrite IH; [now rewrite <- List.app_assoc | assumption | assumption |].
    clear IH Hstr Hdist Hfresh Hkacc.
    induction d as [|[k' v'] d IHd]; constructor.
    + inversion Hrest; subst. cbn [fst] in *.
      cbn [map fst existsb] in Hnew. apply orb_false_elim in Hnew. destruct Hnew as [Hkk _].
      rewrite existsb_key_app. cbn [map fst existsb].
      rewrite key_eqb_sym, Hkk. now rewrite orb_false_r.
    + inversion Hrest; subst. apply IHd; [|assumption].
      cbn [map fst existsb] in Hnew. now apply orb_false_elim in Hnew.
Qed.

Lemma dict_of_pairs_of d :
  forallb (fun kv => is_str_key (fst kv)) d = true ->
  distinct (map fst d) = true ->
  dict_of_pairs (pairs_of d) = d.
Proof.
  intros Hstr Hdist. unfold dict_of_pairs.
  rewrite (fold_dict_set d [] Hstr Hdist); [reflexivity|].
  apply Forall_forall. reflexivity.
Qed.

Lemma json_document_dict d :
  json_document (PyDict d) = true ->
  forallb (fun kv => json_document (snd kv)) d = true /\
  forallb (fun kv => is_str_key (fst kv)) d = true /\
  distinct (map fst d) = true.
Proof.
  cbn [json_document]. intros H. apply andb_prop in H. destruct H as [H Hd].
  repeat split; [| | exact Hd]; clear Hd;
    induction d as [|[k x] d IH]; [reflexivity | | reflexivity |];
    cbn [forallb fst snd] in *; apply andb_prop in H; destruct H as [Hkx H];
    apply andb_prop in Hkx; destruct Hkx as [Hk Hx];
    rewrite ?Hk, ?Hx; now apply IH.
Qed.

(** Every JSON document is read back from the text [encode] writes for it. *)
Lemma scan_once_encode (v : pyval) : json_document v = true -> decodes v.
Proof.
  induction v as [|b|n|s|l Hall|d Hall|] using pyval_induction;
    intros Hdoc fuel rest Hfuel Hrest; try discriminate Hdoc.
  - destruct fuel as [|fuel]; [cbn in Hfuel; lia | reflexivity].
  - destruct fuel as [|fuel]; [destruct b; cbn in Hfuel; lia | destruct b; reflexivity].
  - destruct fuel as [|fuel]; [| now apply scan_once_int].
    cbn [encode] in Hfuel. destruct (encode_head (PyInt n) eq_refl) as (c & r & E & _).
    cbn [encode] in E. rewrite E in Hfuel. cbn in Hfuel. lia.
  - destruct fuel as [|fuel]; [cbn in Hfuel; lia|].
    cbn [encode]. unfold encode_string. rewrite !append_assoc.
    cbn [chr append scan_once]. change (Ascii.eqb dquote dquote) with true. cbv iota.
    now rewrite scanstring_escape.
  - cbn [json_document] in Hdoc.
    change (encode (PyList l)) with ("[" ++ items_text l ++ "]") in *.
    destruct fuel as [|fuel]; [cbn in Hfuel; lia|].
    destruct l as [|x l]; [reflexivity|].
    rewrite !append_assoc. cbn [append scan_once].
    change (Ascii.eqb "[" dquote) with false. change (Ascii.eqb "[" "{") with false.
    change (Ascii.eqb "[" "[") with true. cbv iota.
    change (String "]" rest) with ("]" ++ rest).
    destruct (items_text_head x l ("]" ++ rest)) as (c & r & E & Hc);
      [cbn [forallb] in Hdoc; now apply andb_prop in Hdoc|].
    rewrite E, (skip_ws_value c r Hc).
    destruct (value_start_spec c Hc) as (_ & Hb & _). rewrite Hb, <- E.
    rewrite (array_items_encode (x :: l)); try assumption; try discriminate; [reflexivity|].
    cbn [append String.length] in Hfuel. rewrite length_append in Hfuel.
    cbn [String.length] in Hfuel. lia.
  - destruct (json_document_dict d Hdoc) as (Hvals & Hkeys & Hdist).
    change (encode (PyDict d)) with ("{" ++ members_text d ++ "}") in *.
    destruct fuel as [|fuel]; [cbn in Hfuel; lia|].
    destruct d as [|[k x] d]; [reflexivity|].
    rewrite !append_assoc. cbn [append scan_once].
    change (Ascii.eqb "{" dquote) with false. change (Ascii.eqb "{" "{") with true. cbv iota.
    change (String "}" rest) with ("}" ++ rest).
    rewrite members_text_unfold.
    cbn [skip_ws is_json_ws Ascii.eqb Bool.eqb orb dquote]. 
    inversion Hall as [|? ? Hx Hall']; subst. cbn [snd] in Hx.
    cbn [forallb snd] in Hvals. apply andb_prop in Hvals. destruct Hvals as [Hdx Hvals].
    rewrite (object_items_encode d Hall' Hvals k x fuel rest Hdx (Hx Hdx)).
    + cbn [omap bind]. now rewrite (dict_of_pairs_of ((k, x) :: d) Hkeys Hdist).
    + cbn [append String.length] in Hfuel. rewrite length_append in Hfuel.
      cbn [String.length] in Hfuel. lia.
Qed.

(** [json.loads(json.dumps(v)) == v] for every JSON document. *)
Lemma loads_dumps (v : pyval) :
  json_document v = true -> json_loads (encode v) = Return v.
Proof.
  intros H. unfold json_loads. rewrite <- (append_nil_r (encode v)) at 2.
  rewrite skip_ws_encode by assumption.
  rewrite (scan_once_encode v H _ EmptyString) by (reflexivity || lia).
  reflexivity.
Qed.

Lemma json_document_serializable (v : pyval) : json_document v = true -> serializable v = true.
Proof.
  induction v as [|b|n|s|l Hall|d Hall|] using pyval_induction; intros H;
    try reflexivity; try discriminate H.
  - cbn [json_document serializable] in *. induction Hall as [|x l Hx _ IH]; [reflexivity|].
    cbn [forallb] in *. apply andb_prop in H. destruct H as [H1 H2].
    now rewrite (Hx H1), (IH H2).
  - destruct (json_document_dict d H) as (Hvals & _ & _). cbn [serializable]. clear H.
    induction Hall as [|[k x] d Hx _ IH]; [reflexivity|].
    cbn [forallb snd] in *. apply andb_prop in Hvals. destruct Hvals as [H1 H2].
    now rewrite (Hx H1), (IH H2).
Qed.

(** ** The stored document *)

Lemma dict_text_is_kept (d : list (pykey * pyval)) :
  apply_affinity (affinity_of "JSON") (encode (PyDict d)) = Text (encode (PyDict d)).
Proof. reflexivity. Qed.

Lemma In_new_row r rs : In r (insert_row r rs).
Proof.
  induction rs as [|y rs IH]; [now left|].
  cbn [insert_row]. destruct (row_id r <? row_id y)%Z; [now left | right; exact IH].
Qed.

(** The row [log] wrote comes back from [get_results_since], as it was
    stored, for every timestamp below the clock of the call. *)
Lemma new_row_is_returned env i tags jobtext text rs stm env' since df :
  PrimFloat.ltb since (now env) = true ->
  returned
    (snd (get_results_since env' since df
            (mkDatabase (Some (mkTable row_shape (insert_row (new_row i env tags jobtext text) rs)))
                        stm)))
    (new_row i env tags jobtext text).
Proof.
  intros H. rewrite (get_results_since_rows env' since df _ _ (provisioned_mk _ _)).
  apply returned_render. apply filter_In. split; [apply In_new_row | exact H].
Qed.




(** ** The assertions of [test_wallaby.py] *)

Example test_can_log_string_results :
  snd (log test_env (PyStr "This is my result") None None (fst (Wallaby test_env empty_database)))
  = Return true.
Proof. reflexivity. Qed.

Example test_can_log_json_results :
  exists r,
    snd (get_results_since test_env 0%float true test_store)
    = Return (DataFrame ["id"; "jobtext"; "tagscsv"; "date"; "results"] [r]) /\
    exists text, row_results r = Text text /\ contains "42" text = true.
Proof. eexists. split; [reflexivity|]. eexists. split; reflexivity. Qed.

Example test_can_get_by_tag :
  count (snd (get_by_tag test_env (Some (TagList ["ba"])) None false test_store)) = Return 0 /\
  count (snd (get_by_tag test_env None (Some (TagList ["foo"])) false test_store)) = Return 1 /\
  count (snd (get_by_tag test_env (Some (TagList ["foo"])) None false test_store)) = Return 1 /\
  count (snd (get_by_tag test_env (Some (TagList ["foob"])) None false test_store)) = Return 0 /\
  count (snd (get_by_tag test_env None (Some (TagList ["baz"])) false test_store)) = Return 0 /\
  count (snd (get_by_tag test_env (Some (TagList ["foo"; "bar"])) None false test_store)) = Return 1.
Proof. repeat split; reflexivity. Qed.

(** Outside the databases Wallaby produces the next id need not be the
    largest: with the last 64-bit id taken the engine falls back on a
    random free one. *)
Example rowid_after_the_last_one :
  new_rowid [5%Z] [mkRow max_rowid "job" ",," 1%float (Text "{}")] = Some 5%Z.
Proof. reflexivity. Qed.

(** A payload that is not a dict may be stored as a number: the column
    is declared [JSON], which gives it NUMERIC affinity. *)
Example number_payload_is_stored_as_number :
  apply_affinity (affinity_of (declared_type row_shape "results")) (encode (PyInt 42))
  = Number "42".
Proof. reflexivity. Qed.

(** * Further properties of the code *)

(** ** [log] *)

Lemma reachable_after c db : reachable db -> reachable (after c db).
Proof.
  intros (env & calls & ->). exists env, (calls ++ [c])%list.
  unfold run. now rewrite fold_left_app.
Qed.

Lemma reachable_rows db :
  reachable db ->
  exists tb, provisioned db tb /\ rows_of db = rows tb /\ dense_from 1 (rows tb).
Proof.
  intros H. apply reachable_store_inv in H. destruct H as (tb & Hp & Hd & _).
  exists tb. repeat split; try apply Hp; try assumption.
  unfold rows_of. now rewrite (proj1 Hp).
Qed.

(** X1.  On a database Wallaby produced, [log] of a payload that
    [json.dumps] accepts returns [True] (the clock reading a number, the
    64-bit ids not used up) and appends exactly the row made of the next
    id, one more than the number of rows, the job text or the joined
    [sys.argv], the tag string, the time and the serialised payload. *)
Theorem X1_log_appends_the_next_row env results tags jobtext db :
  reachable db ->
  serializable (as_document results) = true ->
  PrimFloat.is_nan (now env) = false ->
  (Z.of_nat (List.length (rows_of db)) < max_rowid)%Z ->
  log env results tags jobtext db =
  (mkDatabase
     (Some (mkTable row_shape
              (rows_of db ++
               [mkRow (Z.of_nat (List.length (rows_of db)) + 1)
                      (match jobtext with
                       | Some ((String _ _) as j) => j
                       | _ => join " " (argv env)
                       end)
                      (tagscsv_of tags) (now env)
                      (apply_affinity NUMERIC (encode (as_document results)))])%list))
     (statements db ++ [insert_cmd])%list,
   Return true).
Proof.
  intros Hr Hs Hn Hlen. destruct (reachable_rows db Hr) as (tb & Hp & Hrows & Hd).
  rewrite Hrows in *.
  assert (Hi : new_rowid (rowid_candidates env) (rows tb)
               = Some (Z.of_nat (List.length (rows tb)) + 1)%Z).
  { unfold new_rowid. rewrite (max_id_dense _ _ Hd).
    destruct (rows tb) as [|r rs] eqn:E; [reflexivity|].
    destruct (Z.ltb_spec (1 + Z.of_nat (List.length (r :: rs)) - 1) max_rowid); [|lia].
    f_equal. lia. }
  rewrite (log_returns env results tags jobtext db tb _ _ Hp (serializable_dumps _ Hs) Hn Hi).
  rewrite insert_row_above; [reflexivity|].
  pose proof (ids_below_dense 1 (rows tb) Hd) as Hb.
  eapply Forall_impl; [|exact Hb]. intros x Hx. cbv beta in Hx.
  unfold new_row. cbn [row_id]. lia.
Qed.

Lemma X1_log_appends_the_next_row_witness :
  log (mkEnv ["train.py"; "--fast"] 2%float []) (PyStr "ok") (Some ["a"]) (Some EmptyString)
      (fst (Wallaby (mkEnv [] 1%float []) empty_database)) =
  (mkDatabase
     (Some (mkTable row_shape
              [mkRow 1 "train.py --fast" ",a," 2%float
                     (Text (encode (PyDict [(KStr "output", PyStr "ok")])))]))
     [new_table_cmd; insert_cmd],
   Return true).
Proof.
  apply (X1_log_appends_the_next_row (mkEnv ["train.py"; "--fast"] 2%float []) (PyStr "ok")
           (Some ["a"]) (Some EmptyString)
           (fst (Wallaby (mkEnv [] 1%float []) empty_database))).
  - exists (mkEnv [] 1%float []), []. reflexivity.
  - reflexivity.
  - reflexivity.
  - reflexivity.
Defined.

Lemma dense_nth k rs i r :
  dense_from k rs -> nth_error rs i = Some r -> row_id r = (k + Z.of_nat i)%Z.
Proof.
  revert k i. induction rs as [|x rs IH]; intros k i Hd Hn.
  - destruct i; discriminate.
  - destruct Hd as [Hx Hd]. destruct i as [|i].
    + injection Hn as <-. cbn. lia.
    + cbn [nth_error] in Hn. rewrite (IH _ _ Hd Hn). lia.
Qed.

(** X2.  In every database Wallaby produced the ids are 1, 2, 3, ... in
    table order: the row at position [i] (from 0) has id [i + 1], so ids
    never repeat and never leave a gap. *)
Theorem X2_ids_count_up_from_one db i r :
  reachable db -> nth_error (rows_of db) i = Some r -> row_id r = Z.of_nat (i + 1).
Proof.
  intros Hr Hn. destruct (reachable_rows db Hr) as (tb & _ & Hrows & Hd).
  rewrite Hrows in Hn. rewrite (dense_nth 1 _ _ _ Hd Hn). lia.
Qed.

Lemma X2_ids_count_up_from_one_witness :
  row_id (mkRow 2 "job" ",," 2%float (Text (encode (PyDict [(KStr "output", PyStr "b")]))))
  = Z.of_nat (1 + 1).
Proof.
  apply (X2_ids_count_up_from_one
           (run [CallLog (mkEnv ["job"] 1%float []) (PyStr "a") None None;
                 CallLog (mkEnv ["job"] 2%float []) (PyStr "b") None None]
                (fst (Wallaby (mkEnv [] 0%float []) empty_database))) 1).
  - exists (mkEnv [] 0%float []),
      [CallLog (mkEnv ["job"] 1%float []) (PyStr "a") None None;
       CallLog (mkEnv ["job"] 2%float []) (PyStr "b") None None].
    reflexivity.
  - reflexivity.
Defined.

(** X3.  A payload [json.dumps] has no encoding for makes [log] raise
    [TypeError] before anything is sent to the engine: the database,
    its table and its statement history, is handed back as it was. *)
Theorem X3_log_refuses_unserialisable_payload env results tags jobtext db :
  serializable (as_document results) = false ->
  log env results tags jobtext db = (db, Raise TypeError).
Proof. intros H. unfold log, json_dumps. now rewrite H. Qed.

Lemma X3_log_refuses_unserialisable_payload_witness :
  log (mkEnv ["job"] 1%float []) (PyDict [(KStr "model", PyList [PyInt 1; PyObject])]) None None
      (fst (Wallaby (mkEnv [] 0%float []) empty_database))
  = (fst (Wallaby (mkEnv [] 0%float []) empty_database), Raise TypeError).
Proof.
  apply (X3_log_refuses_unserialisable_payload (mkEnv ["job"] 1%float [])
           (PyDict [(KStr "model", PyList [PyInt 1; PyObject])]) None None
           (fst (Wallaby (mkEnv [] 0%float []) empty_database))).
  reflexivity.
Defined.

(** What a successful [log] on a database Wallaby produced leaves behind. *)
Lemma log_success_shape env results tags jobtext db db' :
  reachable db ->
  log env results tags jobtext db = (db', Return true) ->
  exists text,
    json_dumps (as_document results) = Return text /\
    db' = mkDatabase
            (Some (mkTable row_shape
                     (rows_of db ++
                      [new_row (1 + Z.of_nat (List.length (rows_of db))) env tags jobtext text])%list))
            (statements db ++ [insert_cmd])%list.
Proof.
  intros Hr H. destruct (reachable_rows db Hr) as (tb & [Ht _] & Hrows & Hd).
  apply log_inversion in H.
  destruct H as (tb' & text & i & [Ht' _] & Hdumps & _ & Hi & ->).
  rewrite Ht in Ht'. injection Ht' as <-.
  pose proof (new_rowid_dense _ _ _ Hd Hi) as ->.
  exists text. split; [assumption|]. rewrite Hrows.
  rewrite insert_row_above; [reflexivity|]. apply (ids_below_dense 1 (rows tb) Hd).
Qed.

(** ** [get_by_tag] *)

(** X4.  An empty list and an empty string count as no argument:
    [get_by_tag] raises its [ValueError], touching nothing, when neither
    argument holds a tag, and an empty [all_of] lets [any_of] decide.  A
    bare non-empty string is the list of that one tag. *)
Theorem X4_get_by_tag_empty_and_bare_arguments :
  (forall env all_of any_of df db,
      truthy all_of = false -> truthy any_of = false ->
      get_by_tag env all_of any_of df db =
      (db, Raise (ValueError "You must specify exactly one of `any_of` or `all_of`."))) /\
  (forall env all_of any_of df db,
      truthy all_of = false ->
      get_by_tag env all_of any_of df db = get_by_tag env None any_of df db) /\
  (forall env c t any_of df db,
      get_by_tag env (Some (OneTag (String c t))) any_of df db =
      get_by_tag env (Some (TagList [String c t])) any_of df db) /\
  (forall env c t df db,
      get_by_tag env None (Some (OneTag (String c t))) df db =
      get_by_tag env None (Some (TagList [String c t])) df db).
Proof.
  repeat split.
  - intros. now apply get_by_tag_without_tags.
  - intros env all_of any_of df db H. unfold get_by_tag. now rewrite H.
Qed.

Lemma X4_get_by_tag_empty_and_bare_arguments_witness :
  get_by_tag (mkEnv [] 1%float []) (Some (TagList [])) (Some (OneTag EmptyString)) true
             (fst (Wallaby (mkEnv [] 0%float []) empty_database)) =
  (fst (Wallaby (mkEnv [] 0%float []) empty_database),
   Raise (ValueError "You must specify exactly one of `any_of` or `all_of`.")).
Proof.
  apply (proj1 X4_get_by_tag_empty_and_bare_arguments); reflexivity.
Defined.

(** X5.  For tags that hold no single quote and no NUL, wildcards
    allowed, the statement [get_by_tag] writes means what it was written
    for: [all_of] returns, in table order, the rows whose tag string
    matches the LIKE pattern [%,t,%] of every tag, [any_of] those that
    match the pattern of at least one. *)
Theorem X5_get_by_tag_runs_the_patterns :
  (forall env tags any_of df db tb,
      provisioned db tb -> tags <> [] ->
      Forall (fun t => sql_safe t = true) tags ->
      snd (get_by_tag env (Some (TagList tags)) any_of df db) =
      Return (render df
        (filter (fun r => forallb (fun t => like_match ("%," ++ t ++ ",%") (row_tagscsv r)) tags)
           (rows tb)))) /\
  (forall env all_of tags df db tb,
      provisioned db tb -> truthy all_of = false -> tags <> [] ->
      Forall (fun t => sql_safe t = true) tags ->
      snd (get_by_tag env all_of (Some (TagList tags)) df db) =
      Return (render df
        (filter (fun r => existsb (fun t => like_match ("%," ++ t ++ ",%") (row_tagscsv r)) tags)
           (rows tb)))).
Proof.
  split.
  - intros env tags any_of df db tb Hp Hnil Hall.
    now rewrite (get_by_tag_all_of env tags any_of df db tb Hp Hnil Hall).
  - intros env all_of tags df db tb Hp Hno Hnil Hall.
    now rewrite (get_by_tag_any_of env all_of tags df db tb Hp Hno Hnil Hall).
Qed.

Lemma X5_get_by_tag_runs_the_patterns_witness :
  snd (get_by_tag (mkEnv [] 2%float []) (Some (TagList ["exp%"; "r_n"])) None false
         (mkDatabase (Some (mkTable row_shape
                              [mkRow 1 "a" ",exp-7,run," 1%float (Text "{}");
                               mkRow 2 "b" ",exp-8," 1%float (Text "{}")])) [])) =
  Return (RowList
    (filter (fun r => forallb (fun t => like_match ("%," ++ t ++ ",%") (row_tagscsv r))
                        ["exp%"; "r_n"])
       [mkRow 1 "a" ",exp-7,run," 1%float (Text "{}");
        mkRow 2 "b" ",exp-8," 1%float (Text "{}")])).
Proof.
  apply (proj1 X5_get_by_tag_runs_the_patterns (mkEnv [] 2%float []) ["exp%"; "r_n"] None false
           (mkDatabase (Some (mkTable row_shape
                                [mkRow 1 "a" ",exp-7,run," 1%float (Text "{}");
                                 mkRow 2 "b" ",exp-8," 1%float (Text "{}")])) [])
           (mkTable row_shape
              [mkRow 1 "a" ",exp-7,run," 1%float (Text "{}");
               mkRow 2 "b" ",exp-8," 1%float (Text "{}")])).
  - split; reflexivity.
  - discriminate.
  - repeat constructor.
Defined.

(** ** Looking up what was logged *)

Lemma lower_append (a b : string) : lower (a ++ b) = lower a ++ lower b.
Proof. induction a as [|c a IH]; cbn [append lower]; [reflexivity | now rewrite IH]. Qed.

Lemma tolower_comma (c : ascii) : Ascii.eqb (tolower c) "," = Ascii.eqb c ",".
Proof.
  destruct c as [b0 b1 b2 b3 b4 b5 b6 b7].
  destruct b0, b1, b2, b3, b4, b5, b6, b7; reflexivity.
Qed.

Lemma has_comma_lower (t : string) : has_char "," (lower t) = has_char "," t.
Proof.
  induction t as [|c t IH]; [reflexivity|].
  cbn [lower]. now rewrite !has_char_cons, tolower_comma, IH.
Qed.

Lemma lower_delimited (l : list string) : lower (delimited l) = delimited (map lower l).
Proof.
  induction l as [|t l IH]; [reflexivity|].
  cbn [delimited map]. now rewrite !lower_append, IH.
Qed.

Lemma prefix_append_l (n b : string) : String.prefix n (n ++ b) = true.
Proof.
  induction n as [|c n IH]; [destruct b; reflexivity|].
  cbn [append]. now rewrite prefix_cons, Ascii.eqb_refl, IH.
Qed.

Lemma contains_prefix (n s : string) : String.prefix n s = true -> contains n s = true.
Proof. destruct s; cbn [contains]; intros ->; reflexivity. Qed.

Lemma contains_here (n b : string) : contains n (n ++ b) = true.
Proof. apply contains_prefix, prefix_append_l. Qed.

Lemma contains_append (n a b : string) : contains n (a ++ n ++ b) = true.
Proof.
  induction a as [|c a IH]; [exact (contains_here n b)|].
  cbn [append contains]. rewrite IH. apply orb_true_r.
Qed.

(** Between two delimiters, a delimiter-free tag is found only as a whole. *)
Lemma prefix_tag (t u R : string) :
  has_char "," t = false -> has_char "," u = false ->
  String.prefix (t ++ ",") (u ++ String "," R) = String.eqb t u.
Proof.
  revert u. induction t as [|a t IH]; intros u Ht Hu.
  - destruct u as [|c u]; [cbn [append]; now rewrite prefix_cons, prefix_nil|].
    rewrite has_char_cons in Hu. apply orb_false_elim in Hu. destruct Hu as [Hc _].
    cbn [append]. rewrite prefix_cons. rewrite Ascii.eqb_sym, Hc. reflexivity.
  - rewrite has_char_cons in Ht. apply orb_false_elim in Ht. destruct Ht as [Ha Ht].
    destruct u as [|c u].
    + cbn [append]. rewrite prefix_cons, Ha. reflexivity.
    + rewrite has_char_cons in Hu. apply orb_false_elim in Hu. destruct Hu as [_ Hu].
      cbn [append String.eqb]. rewrite prefix_cons, IH by assumption. reflexivity.
Qed.

Lemma contains_skip_tag (n u F : string) :
  has_char "," u = false ->
  contains (String "," n) (u ++ F) = contains (String "," n) F.
Proof.
  intros Hu. induction u as [|c u IH]; [reflexivity|].
  rewrite has_char_cons in Hu. apply orb_false_elim in Hu. destruct Hu as [Hc Hu].
  cbn [append contains]. rewrite prefix_cons, Ascii.eqb_sym, Hc, IH by assumption.
  reflexivity.
Qed.

Lemma contains_delimited (t : string) (l : list string) :
  has_char "," t = false ->
  Forall (fun u => has_char "," u = false) l ->
  contains (String "," (t ++ ",")) (String "," (delimited l)) = existsb (String.eqb t) l.
Proof.
  intros Ht Hl. induction Hl as [|u l Hu Hl IH].
  - cbn [delimited contains existsb]. rewrite prefix_cons.
    destruct t; reflexivity.
  - cbn [delimited existsb].
    change (u ++ DELIM ++ delimited l) with (u ++ String "," (delimited l)).
    cbn [contains]. rewrite prefix_cons, Ascii.eqb_refl, prefix_tag by assumption.
    rewrite contains_skip_tag by assumption. now rewrite IH.
Qed.

Lemma tagscsv_of_stored_tags (tags : option (list string)) :
  tagscsv_of tags = String "," (delimited (stored_tags tags)).
Proof.
  destruct tags as [[|t l]|]; try reflexivity.
  rewrite tagscsv_of_spec. reflexivity.
Qed.

Lemma existsb_map_lower (t : string) (l : list string) :
  existsb (String.eqb (lower t)) (map lower l) = existsb (same_tag t) l.
Proof.
  induction l as [|u l IH]; [reflexivity|].
  cbn [map existsb]. rewrite IH. reflexivity.
Qed.

(** The tag test on a record stored with delimiter-free tags: the query
    tag must be one of its tags, up to the case of ASCII letters. *)
Lemma carries_stored_tags (t : string) (tags : option (list string)) (r : Row) :
  row_tagscsv r = tagscsv_of tags ->
  has_char "," t = false ->
  Forall (fun u => has_char "," u = false) (stored_tags tags) ->
  carries_nocase t r = existsb (same_tag t) (stored_tags tags).
Proof.
  intros Hr Ht Hl. unfold carries_nocase, contains_nocase, DELIM.
  rewrite Hr, tagscsv_of_stored_tags.
  change (lower ("," ++ t ++ ",")) with (String "," (lower (t ++ ","))).
  change (lower (String "," (delimited (stored_tags tags))))
    with (String "," (lower (delimited (stored_tags tags)))).
  rewrite lower_append, lower_delimited. change (lower ",") with ",".
  rewrite contains_delimited.
  - apply existsb_map_lower.
  - now rewrite has_comma_lower.
  - induction Hl as [|u l Hu _ IH]; constructor; [now rewrite has_comma_lower | exact IH].
Qed.

Lemma delimited_nul_free (l : list string) :
  Forall (fun u => has_char "000" u = false) l -> has_char "000" (delimited l) = false.
Proof.
  induction 1 as [|u l Hu _ IH]; [reflexivity|].
  cbn [delimited]. unfold DELIM. now rewrite !has_char_append, Hu, IH.
Qed.

Lemma tagscsv_nul_free (tags : option (list string)) :
  Forall (fun u => has_char "000" u = false) (stored_tags tags) ->
  has_char "000" (tagscsv_of tags) = false.
Proof.
  intros H. rewrite tagscsv_of_stored_tags, has_char_cons.
  now rewrite (delimited_nul_free _ H).
Qed.

Lemma plain_tags_nul_free (l : list string) :
  Forall (fun t => plain_tag t = true) l -> Forall (fun u => has_char "000" u = false) l.
Proof.
  apply Forall_impl. intros t H. apply plain_tag_spec in H. destruct H as [H _].
  apply sql_safe_spec in H. apply H.
Qed.

Lemma nul_free_tags (l : list string) :
  Forall (fun u => nul_free u = true) l -> Forall (fun u => has_char "000" u = false) l.
Proof. apply Forall_impl. intros t H. now apply nul_free_spec. Qed.

(** X6.  Tag lookup is exact on delimiter-free tags.  After a successful
    [log] with tags that hold neither the delimiter nor NUL, the query
    [all_of=[t]] for a tag [t] without quote, NUL, wildcard or delimiter
    returns the new record if and only if [t] is, up to the case of ASCII
    letters, one of the tags it was logged with; a record logged without
    tags counts as carrying the empty tag. *)
Theorem X6_tag_lookup_is_exact env results tags jobtext db db' env' t any_of df :
  reachable db ->
  log env results tags jobtext db = (db', Return true) ->
  plain_tag t = true -> has_char "," t = false ->
  Forall (fun u => has_char "," u = false) (stored_tags tags) ->
  Forall (fun u => nul_free u = true) (stored_tags tags) ->
  exists r,
    rows_of db' = (rows_of db ++ [r])%list /\
    (returned (snd (get_by_tag env' (Some (TagList [t])) any_of df db')) r
     <-> existsb (same_tag t) (stored_tags tags) = true).
Proof.
  intros Hr Hlog Hplain Ht Hl Hz.
  destruct (log_success_shape _ _ _ _ _ _ Hr Hlog) as (text & _ & ->).
  set (r := new_row (1 + Z.of_nat (List.length (rows_of db))) env tags jobtext text).
  exists r. split; [reflexivity|].
  assert (Hsafe : Forall (fun u => sql_safe u = true) [t])
    by (constructor; [now apply plain_tag_spec in Hplain | constructor]).
  rewrite (get_by_tag_all_of env' [t] any_of df _ _ (provisioned_mk _ _)); [| discriminate | exact Hsafe].
  cbn [snd]. rewrite returned_render, filter_In. cbn [rows forallb].
  rewrite andb_true_r, (like_pattern_plain t _ Hplain).
  rewrite (c_string_id (row_tagscsv r)) by (apply tagscsv_nul_free, nul_free_tags, Hz).
  fold (carries_nocase t r).
  rewrite (carries_stored_tags t tags r eq_refl Ht Hl).
  split; [now intros [_ H] | intros H; split; [|exact H]].
  apply in_or_app. right. now left.
Qed.

Lemma X6_tag_lookup_is_exact_witness :
  exists r,
    rows_of (fst (log (mkEnv ["job"] 1%float []) (PyStr "done") (Some ["Foo"; "bar"]) None
                      (fst (Wallaby (mkEnv [] 0%float []) empty_database))))
    = (rows_of (fst (Wallaby (mkEnv [] 0%float []) empty_database)) ++ [r])%list /\
    (returned (snd (get_by_tag (mkEnv [] 2%float []) (Some (TagList ["foo"])) None false
                      (fst (log (mkEnv ["job"] 1%float []) (PyStr "done") (Some ["Foo"; "bar"]) None
                                (fst (Wallaby (mkEnv [] 0%float []) empty_database)))))) r
     <-> existsb (same_tag "foo") (stored_tags (Some ["Foo"; "bar"])) = true).
Proof.
  apply (X6_tag_lookup_is_exact (mkEnv ["job"] 1%float []) (PyStr "done") (Some ["Foo"; "bar"]) None
           (fst (Wallaby (mkEnv [] 0%float []) empty_database)) _ (mkEnv [] 2%float []) "foo"
           None false).
  - exists (mkEnv [] 0%float []), []. reflexivity.
  - reflexivity.
  - reflexivity.
  - reflexivity.
  - repeat constructor.
  - repeat constructor.
Defined.

Lemma tag_in_delimited (t : string) (l : list string) :
  In t l -> exists a b, String "," (delimited l) = a ++ ("," ++ t ++ ",") ++ b.
Proof.
  induction l as [|u l IH]; intros H; [contradiction|].
  destruct H as [->|H].
  - exists EmptyString, (delimited l). cbn [delimited append]. unfold DELIM.
    now rewrite !append_assoc.
  - destruct (IH H) as (a & b & E). exists (String "," (u ++ a)), b.
    cbn [delimited]. change (DELIM ++ delimited l) with (String "," (delimited l)).
    rewrite E. cbn [append]. now rewrite !append_assoc.
Qed.

(** A record carries each of the tags it was logged with. *)
Lemma carries_own_tag (t : string) (l : list string) (r : Row) :
  row_tagscsv r = tagscsv_of (Some l) -> In t l -> carries_nocase t r = true.
Proof.
  intros Hr Hin. unfold carries_nocase, contains_nocase.
  assert (Hl : stored_tags (Some l) = l) by (destruct l; [contradiction | reflexivity]).
  rewrite Hr, tagscsv_of_stored_tags, Hl.
  destruct (tag_in_delimited t l Hin) as (a & b & ->).
  unfold DELIM. rewrite !lower_append. apply contains_append.
Qed.

(** X7.  What was logged is found again: after a successful [log] with
    a non-empty list of tags free of quote, NUL and wildcard, the new
    record is among the records [get_by_tag] returns for [all_of] that
    same list, and for [any_of] each single one of its tags. *)
Theorem X7_logged_tags_find_the_record env results l jobtext db db' env' df :
  reachable db ->
  log env results (Some l) jobtext db = (db', Return true) ->
  l <> [] ->
  Forall (fun t => plain_tag t = true) l ->
  exists r,
    rows_of db' = (rows_of db ++ [r])%list /\
    returned (snd (get_by_tag env' (Some (TagList l)) None df db')) r /\
    (forall t, In t l ->
               returned (snd (get_by_tag env' None (Some (TagList [t])) df db')) r).
Proof.
  intros Hr Hlog Hnil Hplain.
  destruct (log_success_shape _ _ _ _ _ _ Hr Hlog) as (text & _ & ->).
  set (r := new_row (1 + Z.of_nat (List.length (rows_of db))) env (Some l) jobtext text).
  assert (Hin : In r (rows_of db ++ [r])%list) by (apply in_or_app; right; now left).
  assert (Hwhole : has_char "000" (row_tagscsv r) = false).
  { apply tagscsv_nul_free. replace (stored_tags (Some l)) with l
      by (destruct l; [congruence | reflexivity]).
    now apply plain_tags_nul_free. }
  exists r. split; [reflexivity|]. split.
  - rewrite (get_by_tag_all_of env' l None df _ _ (provisioned_mk _ _) Hnil
               (plain_tags_safe _ Hplain)).
    cbn [snd]. rewrite returned_render, filter_In. split; [exact Hin|].
    apply forallb_forall. intros t Ht.
    rewrite Forall_forall in Hplain. rewrite (like_pattern_plain t _ (Hplain t Ht)).
    rewrite (c_string_id (row_tagscsv r)) by exact Hwhole.
    exact (carries_own_tag t l r eq_refl Ht).
  - intros t Ht. rewrite Forall_forall in Hplain.
    assert (Hsafe : Forall (fun u => sql_safe u = true) [t]).
    { constructor; [|constructor]. specialize (Hplain t Ht). now apply plain_tag_spec in Hplain. }
    rewrite (get_by_tag_any_of env' None [t] df _ _ (provisioned_mk _ _) eq_refl); 
      [| discriminate | exact Hsafe].
    cbn [snd]. rewrite returned_render, filter_In. split; [exact Hin|].
    cbn [existsb]. rewrite orb_false_r, (like_pattern_plain t _ (Hplain t Ht)).
    rewrite (c_string_id (row_tagscsv r)) by exact Hwhole.
    exact (carries_own_tag t l r eq_refl Ht).
Qed.

Lemma X7_logged_tags_find_the_record_witness :
  exists r,
    rows_of (fst (log (mkEnv ["job"] 1%float []) (PyStr "done") (Some ["exp 1"; "a,b"]) None
                      (fst (Wallaby (mkEnv [] 0%float []) empty_database))))
    = (rows_of (fst (Wallaby (mkEnv [] 0%float []) empty_database)) ++ [r])%list /\
    returned (snd (get_by_tag (mkEnv [] 2%float []) (Some (TagList ["exp 1"; "a,b"])) None true
                     (fst (log (mkEnv ["job"] 1%float []) (PyStr "done") (Some ["exp 1"; "a,b"]) None
                               (fst (Wallaby (mkEnv [] 0%float []) empty_database)))))) r /\
    (forall t, In t ["exp 1"; "a,b"] ->
       returned (snd (get_by_tag (mkEnv [] 2%float []) None (Some (TagList [t])) true
                        (fst (log (mkEnv ["job"] 1%float []) (PyStr "done")
                                  (Some ["exp 1"; "a,b"]) None
                                  (fst (Wallaby (mkEnv [] 0%float []) empty_database)))))) r).
Proof.
  apply (X7_logged_tags_find_the_record (mkEnv ["job"] 1%float []) (PyStr "done")
           ["exp 1"; "a,b"] None (fst (Wallaby (mkEnv [] 0%float []) empty_database)) _
           (mkEnv [] 2%float []) true).
  - exists (mkEnv [] 0%float []), []. reflexivity.
  - reflexivity.
  - discriminate.
  - repeat constructor.
Defined.

(** ** The order of results *)

Lemma dense_filter_sorted k rs f :
  dense_from k rs ->
  by_increasing_id (filter f rs) /\ Forall (fun x => (k <= row_id x)%Z) (filter f rs).
Proof.
  revert k. induction rs as [|r rs IH]; intros k Hd.
  - split; constructor.
  - destruct Hd as [Hr Hd]. destruct (IH _ Hd) as [Hs Hb].
    assert (Hb' : Forall (fun x => (k <= row_id x)%Z) (filter f rs))
      by (eapply Forall_impl; [|exact Hb]; intros x Hx; cbv beta in Hx; lia).
    cbn [filter]. destruct (f r); [|split; assumption].
    split.
    + constructor; [exact Hs|]. eapply Forall_impl; [|exact Hb].
      intros x Hx. cbv beta in Hx. lia.
    + constructor; [lia | exact Hb'].
Qed.

(** X8.  On a database Wallaby produced, what [get_by_tag] returns for
    tags that hold no single quote and no NUL, and what
    [get_results_since] returns for any timestamp, is a selection of the
    table's rows kept in table order, and so lists records by strictly
    increasing id: oldest first, none twice. *)
Theorem X8_results_come_in_id_order env db :
  reachable db ->
  (forall tags any_of df,
      tags <> [] -> Forall (fun t => sql_safe t = true) tags ->
      exists f,
        snd (get_by_tag env (Some (TagList tags)) any_of df db)
        = Return (render df (filter f (rows_of db))) /\
        by_increasing_id (filter f (rows_of db))) /\
  (forall all_of tags df,
      truthy all_of = false -> tags <> [] -> Forall (fun t => sql_safe t = true) tags ->
      exists f,
        snd (get_by_tag env all_of (Some (TagList tags)) df db)
        = Return (render df (filter f (rows_of db))) /\
        by_increasing_id (filter f (rows_of db))) /\
  (forall since df,
      exists f,
        snd (get_results_since env since df db) = Return (render df (filter f (rows_of db))) /\
        by_increasing_id (filter f (rows_of db))).
Proof.
  intros Hr. destruct (reachable_rows db Hr) as (tb & Hp & Hrows & Hd).
  rewrite Hrows. split; [|split].
  - intros tags any_of df Hnil Hsafe.
    rewrite (get_by_tag_all_of env tags any_of df db tb Hp Hnil Hsafe).
    eexists. split; [reflexivity|]. apply (dense_filter_sorted 1 _ _ Hd).
  - intros all_of tags df Hno Hnil Hsafe.
    rewrite (get_by_tag_any_of env all_of tags df db tb Hp Hno Hnil Hsafe).
    eexists. split; [reflexivity|]. apply (dense_filter_sorted 1 _ _ Hd).
  - intros since df. rewrite (get_results_since_rows env since df db tb Hp).
    eexists. split; [reflexivity|]. apply (dense_filter_sorted 1 _ _ Hd).
Qed.

Lemma X8_results_come_in_id_order_witness :
  exists f,
    snd (get_by_tag (mkEnv [] 3%float []) (Some (TagList ["x"; "%"])) None false
           (run [CallLog (mkEnv ["a"] 1%float []) (PyStr "one") (Some ["x"]) None;
                 CallLog (mkEnv ["b"] 2%float []) (PyStr "two") (Some ["x"; "y"]) None]
                (fst (Wallaby (mkEnv [] 0%float []) empty_database))))
    = Return (render false
        (filter f
           (rows_of (run [CallLog (mkEnv ["a"] 1%float []) (PyStr "one") (Some ["x"]) None;
                          CallLog (mkEnv ["b"] 2%float []) (PyStr "two") (Some ["x"; "y"]) None]
                         (fst (Wallaby (mkEnv [] 0%float []) empty_database)))))) /\
    by_increasing_id
      (filter f
         (rows_of (run [CallLog (mkEnv ["a"] 1%float []) (PyStr "one") (Some ["x"]) None;
                        CallLog (mkEnv ["b"] 2%float []) (PyStr "two") (Some ["x"; "y"]) None]
                       (fst (Wallaby (mkEnv [] 0%float []) empty_database))))).
Proof.
  refine (proj1 (X8_results_come_in_id_order (mkEnv [] 3%float [])
                   (run [CallLog (mkEnv ["a"] 1%float []) (PyStr "one") (Some ["x"]) None;
                         CallLog (mkEnv ["b"] 2%float []) (PyStr "two") (Some ["x"; "y"]) None]
                        (fst (Wallaby (mkEnv [] 0%float []) empty_database))) _)
                ["x"; "%"] None false _ _).
  - exists (mkEnv [] 0%float []),
      [CallLog (mkEnv ["a"] 1%float []) (PyStr "one") (Some ["x"]) None;
       CallLog (mkEnv ["b"] 2%float []) (PyStr "two") (Some ["x"; "y"]) None].
    reflexivity.
  - discriminate.
  - repeat constructor.
Defined.

(** ** [get_results_since] *)

Lemma filter_refines {A} (f g : A -> bool) (l : list A) :
  (forall x, g x = true -> f x = true) -> filter g (filter f l) = filter g l.
Proof.
  intros H. induction l as [|x l IH]; [reflexivity|].
  cbn [filter]. destruct (f x) eqn:Ef.
  - cbn [filter]. now rewrite IH.
  - destruct (g x) eqn:Eg; [|exact IH]. rewrite (H x Eg) in Ef. discriminate.
Qed.

Lemma filter_none {A} (f : A -> bool) (l : list A) :
  (forall x, f x = false) -> filter f l = [].
Proof.
  intros H. induction l as [|x l IH]; [reflexivity|]. cbn [filter]. now rewrite H.
Qed.

(** X9.  Moving the timestamp forward only removes records: the result
    for a later timestamp is the result for an earlier one, filtered
    again by the later timestamp.  For a NaN timestamp the result is
    empty. *)
Theorem X9_later_timestamps_return_less :
  (forall env since1 since2 df db tb,
      provisioned db tb ->
      PrimFloat.ltb since1 since2 = true ->
      omap records (snd (get_results_since env since2 df db)) =
      omap (fun res => filter (fun r => PrimFloat.ltb since2 (row_date r)) (records res))
           (snd (get_results_since env since1 df db))) /\
  (forall env since df db tb,
      provisioned db tb ->
      PrimFloat.is_nan since = true ->
      snd (get_results_since env since df db) = Return (render df [])).
Proof.
  split.
  - intros env since1 since2 df db tb Hp Hlt.
    rewrite !(get_results_since_rows _ _ _ _ _ Hp). cbn [omap bind]. f_equal.
    destruct df; cbn [render records];
      (rewrite filter_refines; [reflexivity|]);
      intros x Hx; exact (ltb_trans _ _ _ Hlt Hx).
  - intros env since df db tb Hp Hnan.
    rewrite (get_results_since_rows _ _ _ _ _ Hp). do 2 f_equal.
    apply filter_none. intros x. now apply ltb_nan_l.
Qed.

Lemma X9_later_timestamps_return_less_witness :
  omap records (snd (get_results_since (mkEnv [] 9%float []) 2%float false
                       (mkDatabase (Some (mkTable row_shape
                                            [mkRow 1 "a" ",," 1%float (Text "{}");
                                             mkRow 2 "b" ",," 2.5%float (Text "{}");
                                             mkRow 3 "c" ",," 4%float (Text "{}")])) []))) =
  omap (fun res => filter (fun r => PrimFloat.ltb 2%float (row_date r)) (records res))
       (snd (get_results_since (mkEnv [] 9%float []) 0.5%float false
               (mkDatabase (Some (mkTable row_shape
                                    [mkRow 1 "a" ",," 1%float (Text "{}");
                                     mkRow 2 "b" ",," 2.5%float (Text "{}");
                                     mkRow 3 "c" ",," 4%float (Text "{}")])) []))).
Proof.
  apply (proj1 X9_later_timestamps_return_less (mkEnv [] 9%float []) 0.5%float 2%float false
           (mkDatabase (Some (mkTable row_shape
                                [mkRow 1 "a" ",," 1%float (Text "{}");
                                 mkRow 2 "b" ",," 2.5%float (Text "{}");
                                 mkRow 3 "c" ",," 4%float (Text "{}")])) [])
           (mkTable row_shape
              [mkRow 1 "a" ",," 1%float (Text "{}");
               mkRow 2 "b" ",," 2.5%float (Text "{}");
               mkRow 3 "c" ",," 4%float (Text "{}")])).
  - split; reflexivity.
  - reflexivity.
Defined.

(** ** Payloads that are not dicts *)

Lemma kept_as_text (w : pyval) :
  match w with
  | PyNone | PyBool _ | PyList _ | PyDict _ => True
  | _ => False
  end ->
  apply_affinity (affinity_of "JSON") (encode w) = Text (encode w).
Proof. destruct w as [|[]|n|s|l|d|]; intros H; try contradiction; reflexivity. Qed.

(** X10.  The round trip of the stored document holds for every payload
    that is a JSON document other than a bare integer: a list, [None] or
    a boolean is stored as its JSON text and [json.loads] turns that text
    back into the payload (a string payload comes back wrapped as
    [{"output": s}]). *)
Theorem X10_documents_other_than_integers_round_trip env v tags jobtext db db' :
  json_document (as_document v) = true ->
  (forall n, v <> PyInt n) ->
  log env v tags jobtext db = (db', Return true) ->
  exists r,
    rows_of db' = insert_row r (rows_of db) /\
    row_results r = Text (encode (as_document v)) /\
    json_loads_stored (row_results r) = Return (as_document v).
Proof.
  intros Hdoc Hint H. apply log_inversion in H.
  destruct H as (tb & text & i & [Ht _] & Hd & _ & _ & ->).
  rewrite (serializable_dumps _ (json_document_serializable _ Hdoc)) in Hd.
  injection Hd as <-.
  exists (new_row i env tags jobtext (encode (as_document v))).
  assert (Hkept : row_results (new_row i env tags jobtext (encode (as_document v)))
                  = Text (encode (as_document v))).
  { unfold new_row. cbn [row_results]. apply kept_as_text.
    destruct v as [|b|n|s|l|d|]; cbn [as_document]; try exact I.
    - now elim (Hint n).
    - discriminate Hdoc. }
  split; [|split].
  - unfold rows_of. rewrite Ht. reflexivity.
  - exact Hkept.
  - rewrite Hkept. cbn [json_loads_stored]. now apply loads_dumps.
Qed.

Lemma X10_documents_other_than_integers_round_trip_witness :
  exists r,
    rows_of (fst (log (mkEnv ["job"] 1%float [])
                      (PyList [PyInt 3; PyStr "x"; PyDict [(KStr "k", PyNone)]]) None None
                      (fst (Wallaby (mkEnv [] 0%float []) empty_database))))
    = insert_row r (rows_of (fst (Wallaby (mkEnv [] 0%float []) empty_database))) /\
    row_results r
    = Text (encode (as_document (PyList [PyInt 3; PyStr "x"; PyDict [(KStr "k", PyNone)]]))) /\
    json_loads_stored (row_results r)
    = Return (as_document (PyList [PyInt 3; PyStr "x"; PyDict [(KStr "k", PyNone)]])).
Proof.
  apply (X10_documents_other_than_integers_round_trip (mkEnv ["job"] 1%float [])
           (PyList [PyInt 3; PyStr "x"; PyDict [(KStr "k", PyNone)]]) None None
           (fst (Wallaby (mkEnv [] 0%float []) empty_database))).
  - reflexivity.
  - discriminate.
  - reflexivity.
Defined.

Lemma num_step_digit (c : ascii) :
  is_digit c = true ->
  num_step NStart c = Some NInt /\ num_step NSign c = Some NInt /\ num_step NInt c = Some NInt.
Proof.
  destruct c as [b0 b1 b2 b3 b4 b5 b6 b7].
  destruct b0, b1, b2, b3, b4, b5, b6, b7; try discriminate; repeat split.
Qed.

Lemma num_run_digits (ds : string) : string_forallb is_digit ds = true -> num_run NInt ds = true.
Proof.
  induction ds as [|c ds IH]; [reflexivity|]. cbn [string_forallb num_run].
  intros H. apply andb_prop in H. destruct H as [Hc H].
  destruct (num_step_digit c Hc) as (_ & _ & ->). now apply IH.
Qed.

(** The decimal text of an integer is what SQLite takes for a number. *)
Lemma repr_int_is_numeric (n : Z) : is_numeric_literal (repr_int n) = true.
Proof.
  unfold is_numeric_literal. destruct n as [|p|p].
  - reflexivity.
  - rewrite repr_int_pos. pose proof (digits_of_uint (Pos.to_uint p)) as Hd.
    destruct (to_uint_head p) as (c & ds & E & Hc & _). rewrite E in *.
    cbn [string_forallb] in Hd. apply andb_prop in Hd. destruct Hd as [_ Hd].
    cbn [num_run]. destruct (num_step_digit c Hc) as (-> & _ & _).
    now apply num_run_digits.
  - rewrite repr_int_neg. pose proof (digits_of_uint (Pos.to_uint p)) as Hd.
    destruct (to_uint_head p) as (c & ds & E & Hc & _). rewrite E in *.
    cbn [string_forallb] in Hd. apply andb_prop in Hd. destruct Hd as [_ Hd].
    cbn [num_run]. change (num_step NStart "-") with (Some NSign).
    destruct (num_step_digit c Hc) as (_ & -> & _).
    now apply num_run_digits.
Qed.

(** X11.  A bare integer payload does not come back as a document: the
    [results] column is declared [JSON], which SQLite gives NUMERIC
    affinity, so the text [json.dumps] wrote is stored as a number, and
    [json.loads] on the value the row hands back raises [TypeError]. *)
Theorem X11_integer_payload_is_stored_as_number env n tags jobtext db db' :
  log env (PyInt n) tags jobtext db = (db', Return true) ->
  exists r,
    rows_of db' = insert_row r (rows_of db) /\
    row_results r = Number (repr_int n) /\
    json_loads_stored (row_results r) = Raise TypeError.
Proof.
  intros H. apply log_inversion in H.
  destruct H as (tb & text & i & [Ht _] & Hd & _ & _ & ->).
  cbn [as_document] in Hd. rewrite (serializable_dumps (PyInt n) eq_refl) in Hd.
  injection Hd as <-.
  exists (new_row i env tags jobtext (encode (PyInt n))).
  assert (Hnum : row_results (new_row i env tags jobtext (encode (PyInt n)))
                 = Number (repr_int n)).
  { unfold new_row. cbn [row_results encode].
    change (affinity_of "JSON") with NUMERIC. unfold apply_affinity.
    now rewrite repr_int_is_numeric. }
  split; [|split].
  - unfold rows_of. rewrite Ht. reflexivity.
  - exact Hnum.
  - now rewrite Hnum.
Qed.

Lemma X11_integer_payload_is_stored_as_number_witness :
  exists r,
    rows_of (fst (log (mkEnv ["job"] 1%float []) (PyInt (-42)) None None
                      (fst (Wallaby (mkEnv [] 0%float []) empty_database))))
    = insert_row r (rows_of (fst (Wallaby (mkEnv [] 0%float []) empty_database))) /\
    row_results r = Number (repr_int (-42)) /\
    json_loads_stored (row_results r) = Raise TypeError.
Proof.
  apply (X11_integer_payload_is_stored_as_number (mkEnv ["job"] 1%float []) (-42) None None
           (fst (Wallaby (mkEnv [] 0%float []) empty_database))).
  reflexivity.
Defined.

(** ** The command-line entry point [cli] *)

Lemma split_on_cons (d : ascii) (s : string) : exists x xs, split_on d s = x :: xs.
Proof.
  induction s as [|c r IH]; cbn [split_on]; [now eexists; eexists|].
  destruct (Ascii.eqb c d); [now eexists; eexists|].
  destruct IH as (x & xs & ->). now eexists; eexists.
Qed.

(** [",".join(s.split(","))] is [s]. *)
Lemma join_split_on (d : ascii) (s : string) : join (chr d) (split_on d s) = s.
Proof.
  induction s as [|c r IH]; [reflexivity|]. cbn [split_on].
  destruct (split_on_cons d r) as (x & xs & E). rewrite E in *.
  destruct (Ascii.eqb_spec c d) as [->|_].
  - change (join (chr d) (EmptyString :: x :: xs)) with (String d (join (chr d) (x :: xs))).
    now rewrite IH.
  - rewrite <- IH. unfold join. destruct xs; reflexivity.
Qed.

Lemma cli_tagscsv (tags : string) :
  tagscsv_of (Some ("cli" :: (if is_empty tags then [] else split_on "," tags))%list)
  = ",cli," ++ (if is_empty tags then EmptyString else tags ++ ",").
Proof.
  destruct tags as [|c r]; [reflexivity|]. cbn [is_empty].
  destruct (split_on_cons "," (String c r)) as (x & xs & E).
  pose proof (join_split_on "," (String c r)) as J. rewrite E in *.
  unfold tagscsv_of.
  change (join "," ("cli" :: x :: xs)) with ("cli," ++ join "," (x :: xs)).
  change (chr ",") with "," in J. rewrite J. reflexivity.
Qed.

Lemma environment_document_distinct (environment : list (string * string)) :
  NoDup (map fst environment) ->
  json_document (environment_document environment) = true.
Proof.
  intros H. unfold environment_document. cbn [json_document].
  apply andb_true_intro. split.
  - clear H. induction environment as [|[k v] e IH]; [reflexivity|].
    cbn [map forallb is_str_key json_document]. exact IH.
  - induction environment as [|[k v] e IH]; [reflexivity|].
    cbn [map fst distinct]. inversion H as [|? ? Hk He]; subst.
    rewrite (IH He), andb_true_r. apply negb_true_iff.
    clear IH He H. induction e as [|[k' v'] e IH]; [reflexivity|].
    cbn [map fst existsb key_eqb]. cbn [map fst] in Hk.
    destruct (String.eqb_spec k k') as [->|_]; [elim Hk; now left|].
    apply IH. intros Hin. apply Hk. now right.
Qed.

Lemma cli_result_document environment output command :
  NoDup (map fst environment) ->
  json_document (cli_result environment output command) = true.
Proof.
  intros H. unfold cli_result. cbn [json_document forallb is_str_key map fst].
  rewrite (environment_document_distinct _ H).
  destruct (or_none command); reflexivity.
Qed.

(** [log] hands back [True] or nothing. *)
Lemma log_flag env results tags jobtext db b :
  snd (log env results tags jobtext db) = Return b -> b = true.
Proof.
  unfold log. destruct (json_dumps (as_document results)); try discriminate.
  destruct (_execute _ _ _ _) as [db' [rs|e|]]; cbn; congruence.
Qed.

(** Opening the store at a path: the file is new, or holds what earlier
    calls left in it. *)
Lemma Wallaby_opens env db :
  db = empty_database \/ reachable db ->
  exists db1,
    Wallaby env db = (db1, Return true) /\ reachable db1 /\ rows_of db1 = rows_of db.
Proof.
  intros [->|Hr].
  - exists (fst (Wallaby env empty_database)). repeat split.
    + now exists env, []%list.
  - exists (fst (Wallaby env db)).
    destruct (reachable_rows db Hr) as (tb & [Ht _] & _).
    rewrite (Wallaby_existing env db tb Ht). repeat split.
    + change (reachable (fst (mkDatabase (Some tb) (statements db ++ [new_table_cmd])%list,
                              @Return bool true))).
      rewrite <- (Wallaby_existing env db tb Ht).
      exact (reachable_after (CallWallaby env) db Hr).
    + unfold rows_of. cbn. now rewrite Ht.
Qed.

Lemma cli_result_serializable environment output command :
  serializable (cli_result environment output command) = true.
Proof.
  unfold cli_result, environment_document. cbn [serializable forallb].
  assert (H : forallb (fun '(_, x) => serializable x)
                (map (fun '(k, v) => (KStr k, PyStr v)) environment) = true).
  { induction environment as [|[k v] e IH]; [reflexivity | exact IH]. }
  rewrite H. destruct (or_none command); reflexivity.
Qed.

(** What a run of [cli] that gets its output leaves behind. *)
Lemma cli_done env proc args db output :
  db = empty_database \/ reachable db ->
  cli_output proc args = Done output ->
  PrimFloat.is_nan (now env) = false ->
  (Z.of_nat (List.length (rows_of db)) < max_rowid)%Z ->
  exists stm,
    cli env proc args db =
    (mkDatabase
       (Some (mkTable row_shape
                (rows_of db ++
                 [new_row (1 + Z.of_nat (List.length (rows_of db))) env (Some (cli_tags args))
                          (or_none (args_command args))
                          (encode (cli_result (environ proc) output (args_command args)))])%list))
       stm,
     Done output).
Proof.
  intros Hdb Hout Hnan Hroom.
  destruct (Wallaby_opens env db Hdb) as (db1 & Hw & Hr1 & Hrows).
  set (result := cli_result (environ proc) output (args_command args)) in *.
  set (jobtext := or_none (args_command args)).
  assert (Hser : serializable (as_document result) = true)
    by apply cli_result_serializable.
  rewrite <- Hrows in Hroom.
  pose proof (log_succeeds env result (Some (cli_tags args)) jobtext db1 Hr1 Hser Hnan Hroom)
    as Hflag.
  destruct (log env result (Some (cli_tags args)) jobtext db1) as [db2 flag] eqn:Hlog.
  cbn [snd] in Hflag. subst flag.
  destruct (log_success_shape _ _ _ _ _ _ Hr1 Hlog) as (text & Hdumps & Hdb2).
  change (as_document result) with result in Hdumps.
  rewrite (serializable_dumps result (cli_result_serializable _ _ _)) in Hdumps.
  injection Hdumps as <-.
  exists (statements db1 ++ [insert_cmd])%list.
  unfold cli. rewrite Hout, Hw. fold result. fold jobtext.
  change ("cli" :: (if is_empty (args_tags args) then []
                    else split_on "," (args_tags args)))%list with (cli_tags args).
  rewrite Hlog, Hdb2, Hrows. reflexivity.
Qed.

(** X12.  A run of [cli] whose command succeeds (or that is given no
    command and passes its standard input on) returns the output for
    printing and leaves exactly one more record: under the next id, with
    the command (or, without one, the argument vector) as job text, the
    tag string [,cli,] followed by the [--tags] argument as typed and a
    comma, the time of the call, and a document that decodes to
    [{"environment": ..., "output": ..., "command": ...}]. *)
Theorem X12_cli_logs_what_it_prints env proc args db output :
  db = empty_database \/ reachable db ->
  NoDup (map fst (environ proc)) ->
  cli_output proc args = Done output ->
  PrimFloat.is_nan (now env) = false ->
  (Z.of_nat (List.length (rows_of db)) < max_rowid)%Z ->
  exists db' r,
    cli env proc args db = (db', Done output) /\
    rows_of db' = (rows_of db ++ [r])%list /\
    row_id r = (1 + Z.of_nat (List.length (rows_of db)))%Z /\
    row_jobtext r = (if is_empty (args_command args) then join " " (argv env)
                     else args_command args) /\
    row_tagscsv r = ",cli," ++ (if is_empty (args_tags args) then EmptyString
                                else args_tags args ++ ",") /\
    row_date r = now env /\
    json_loads_stored (row_results r)
    = Return (cli_result (environ proc) output (args_command args)).
Proof.
  intros Hdb Henv Hout Hnan Hroom.
  destruct (cli_done env proc args db output Hdb Hout Hnan Hroom) as (stm & ->).
  eexists. eexists. split; [reflexivity|].
  unfold new_row. cbn [row_id row_jobtext row_tagscsv row_date row_results].
  repeat split.
  - unfold or_none, default_jobtext. destruct (args_command args); reflexivity.
  - apply cli_tagscsv.
  - rewrite kept_as_text by exact I. cbn [json_loads_stored].
    apply loads_dumps. now apply cli_result_document.
Qed.

Lemma X12_cli_logs_what_it_prints_witness :
  exists db' r,
    cli (mkEnv ["wallaby"; "-c"; "date"] 5%float [])
        (mkProcess [("HOME", "/root"); ("LANG", "C")] true EmptyString
                   (fun command environment => Output ("ran " ++ command)))
        (mkArgs "date" "exp,run 1" eq_refl) empty_database
    = (db', Done "ran date") /\
    rows_of db' = (rows_of empty_database ++ [r])%list /\
    row_id r = (1 + Z.of_nat (List.length (rows_of empty_database)))%Z /\
    row_jobtext r = "date" /\
    row_tagscsv r = ",cli,exp,run 1," /\
    row_date r = 5%float /\
    json_loads_stored (row_results r)
    = Return (cli_result [("HOME", "/root"); ("LANG", "C")] "ran date" "date").
Proof.
  apply (X12_cli_logs_what_it_prints (mkEnv ["wallaby"; "-c"; "date"] 5%float [])
           (mkProcess [("HOME", "/root"); ("LANG", "C")] true EmptyString
                      (fun command environment => Output ("ran " ++ command)))
           (mkArgs "date" "exp,run 1" eq_refl) empty_database "ran date").
  - left. reflexivity.
  - repeat constructor; cbn; intuition discriminate.
  - reflexivity.
  - reflexivity.
  - reflexivity.
Defined.

Lemma rows_of_same db db' : results_table db' = results_table db -> rows_of db' = rows_of db.
Proof. unfold rows_of. now intros ->. Qed.

Lemma Wallaby_rows env db :
  snd (Wallaby env db) = Return true /\ rows_of (fst (Wallaby env db)) = rows_of db.
Proof.
  destruct (results_table db) as [tb|] eqn:Ht.
  - rewrite (Wallaby_existing env db tb Ht). split; [reflexivity|].
    unfold rows_of. cbn. now rewrite Ht.
  - rewrite (Wallaby_fresh env db Ht). split; [reflexivity|].
    unfold rows_of. cbn. now rewrite Ht.
Qed.

(** X13.  [cli] prints nothing it has not logged, whatever the store
    holds.  A run whose command fails ends in the command's exception
    and leaves the store as it was: not a statement is run on it.  A run
    that gets as far as printing prints the output of the execution, and
    the store has one record more; a run that ends in any other way
    leaves the store with the records it had. *)
Theorem X13_cli_prints_only_what_it_logged env proc args db :
  (forall e, cli_output proc args = Failed e -> cli env proc args db = (db, Failed e)) /\
  match snd (cli env proc args db) with
  | Done out =>
      cli_output proc args = Done out /\
      exists r, rows_of (fst (cli env proc args db)) = insert_row r (rows_of db)
  | _ => rows_of (fst (cli env proc args db)) = rows_of db
  end.
Proof.
  split; [intros e He; unfold cli; now rewrite He|].
  unfold cli.
  destruct (cli_output proc args) as [output|e|]; cbn [fst snd]; try reflexivity.
  destruct (Wallaby_rows env db) as [Hw Hrows].
  destruct (Wallaby env db) as [db1 w]. cbn [fst snd] in Hw, Hrows. subst w.
  set (result := cli_result (environ proc) output (args_command args)).
  set (tags := Some ("cli" :: (if is_empty (args_tags args) then []
                               else split_on "," (args_tags args)))%list).
  set (jobtext := or_none (args_command args)).
  destruct (log_outcome env result tags jobtext db1)
    as [(tb & text & i & [Ht _] & _ & _ & _ & ->) | [Hsame Hflag]].
  - cbn [omap bind lift fst snd]. split; [reflexivity|].
    exists (new_row i env tags jobtext text). rewrite <- Hrows.
    unfold rows_of. cbn [results_table rows]. now rewrite Ht.
  - pose proof (log_flag env result tags jobtext db1) as Hb.
    destruct (log env result tags jobtext db1) as [db2 [b|e|]]; cbn [fst snd omap bind lift] in *.
    + elim Hflag. now rewrite (Hb b eq_refl).
    + rewrite <- Hrows. now apply rows_of_same.
    + rewrite <- Hrows. now apply rows_of_same.
Qed.

Lemma X13_cli_prints_only_what_it_logged_witness :
  cli (mkEnv ["wallaby"; "-c"; "false"] 5%float [])
      (mkProcess [("HOME", "/root")] true EmptyString (fun command environment => ExitStatus 1))
      (mkArgs "false" "exp" eq_refl) empty_database
  = (empty_database, Failed (CalledProcessError 1)).
Proof.
  apply (proj1 (X13_cli_prints_only_what_it_logged
                  (mkEnv ["wallaby"; "-c"; "false"] 5%float [])
                  (mkProcess [("HOME", "/root")] true EmptyString
                             (fun command environment => ExitStatus 1))
                  (mkArgs "false" "exp" eq_refl) empty_database)).
  reflexivity.
Defined.

(** X14.  [cli] cannot pipe its standard input into a command: the
    input is read as a [str] and handed to [check_output], whose pipes
    are binary, so with a command and a non-empty input on a standard
    input that is not a terminal the run ends in [TypeError], whatever
    the command is, and nothing is logged.  With an empty input, or on a
    terminal, the outcome is the shell's. *)
Theorem X14_cli_cannot_feed_input_to_a_command env proc args db :
  args_command args <> EmptyString ->
  (stdin_isatty proc = false -> stdin_read proc <> EmptyString ->
   cli env proc args db = (db, Failed (Raised TypeError))) /\
  (stdin_isatty proc = true \/ stdin_read proc = EmptyString ->
   cli_output proc args =
   match shell proc (args_command args) (environ proc) with
   | Output text => Done text
   | ExitStatus returncode => Failed (CalledProcessError returncode)
   | Undecodable => Failed UnicodeDecodeError
   end).
Proof.
  intros Hc. unfold cli, cli_output, check_output.
  destruct (args_command args) as [|c cmd]; [now elim Hc|]. cbn [is_empty].
  split.
  - intros -> Hin. destruct (stdin_read proc); [now elim Hin | reflexivity].
  - intros [-> | ->]; [reflexivity|]. destruct (stdin_isatty proc); reflexivity.
Qed.

Lemma X14_cli_cannot_feed_input_to_a_command_witness :
  cli (mkEnv ["wallaby"; "-c"; "sort"] 5%float [])
      (mkProcess [("HOME", "/root")] false "b a" (fun command environment => Output "a b"))
      (mkArgs "sort" EmptyString eq_refl) empty_database
  = (empty_database, Failed (Raised TypeError)).
Proof.
  refine (proj1 (X14_cli_cannot_feed_input_to_a_command
                   (mkEnv ["wallaby"; "-c"; "sort"] 5%float [])
                   (mkProcess [("HOME", "/root")] false "b a"
                              (fun command environment => Output "a b"))
                   (mkArgs "sort" EmptyString eq_refl) empty_database _) _ _).
  - discriminate.
  - reflexivity.
  - discriminate.
Defined.

(** ** The report [wallaby2json] *)

Lemma has_char_split (d c : ascii) (s : string) :
  has_char c s = false -> Forall (fun t => has_char c t = false) (split_on d s).
Proof.
  induction s as [|x r IH]; intros H; [repeat constructor|].
  rewrite has_char_cons in H. apply orb_false_elim in H. destruct H as [Hx Hr].
  specialize (IH Hr). cbn [split_on].
  destruct (Ascii.eqb x d); [constructor; [reflexivity | exact IH]|].
  destruct (split_on d r) as [|t ts].
  - constructor; [|constructor]. unfold chr. now rewrite has_char_cons, Hx.
  - inversion IH as [|? ? Ht Hts]; subst. constructor; [|exact Hts].
    now rewrite has_char_cons, Hx.
Qed.

Lemma sql_safe_split (s : string) :
  sql_safe s = true -> Forall (fun t => sql_safe t = true) (split_on "," s).
Proof.
  intros H. apply sql_safe_spec in H. destruct H as [Hq Hz].
  pose proof (has_char_split "," _ _ Hq) as H1.
  pose proof (has_char_split "," _ _ Hz) as H2.
  rewrite Forall_forall in *. intros t Ht. apply sql_safe_spec. auto.
Qed.

Lemma split_on_not_nil (d : ascii) (s : string) : split_on d s <> []%list.
Proof. destruct (split_on_cons d s) as (x & xs & ->). discriminate. Qed.

Lemma map_loads_spec (rs : list Row) (docs : list (Row * pyval)) :
  map_loads rs = Return docs -> map fst docs = rs /\ decoded docs.
Proof.
  revert docs. induction rs as [|r rs IH]; intros docs; cbn [map_loads].
  - intros [= <-]. split; [reflexivity | constructor].
  - destruct (json_loads_stored (row_results r)) as [v| |] eqn:Hv; try discriminate.
    cbn [bind]. destruct (map_loads rs) as [ds| |]; try discriminate.
    cbn. intros [= <-]. destruct (IH ds eq_refl) as [Hm Hd].
    split; [cbn [map fst]; now rewrite Hm | constructor; assumption].
Qed.

Lemma map_loads_In rs docs r v :
  map_loads rs = Return docs -> In r rs ->
  json_loads_stored (row_results r) = Return v -> In (r, v) docs.
Proof.
  intros H Hin Hv. apply map_loads_spec in H. destruct H as [Hm Hd].
  rewrite <- Hm in Hin. apply in_map_iff in Hin. destruct Hin as ([r' v'] & E & Hin).
  cbn [fst] in E. subst r'. unfold decoded in Hd. rewrite Forall_forall in Hd.
  specialize (Hd _ Hin). cbn beta iota in Hd. rewrite Hv in Hd. now injection Hd as <-.
Qed.

Lemma contains_commas_lower (s : string) : contains ",," (lower s) = contains ",," s.
Proof.
  induction s as [|a r IH]; [reflexivity|].
  cbn [lower contains]. rewrite IH. f_equal.
  rewrite !prefix_cons, !(Ascii.eqb_sym ","), tolower_comma.
  destruct r as [|b r]; [reflexivity|].
  cbn [lower]. rewrite !prefix_cons, !(Ascii.eqb_sym ","), tolower_comma, !prefix_nil.
  reflexivity.
Qed.

Lemma selected_empty_tag (r : Row) : selected [EmptyString] r = has_empty_tag r.
Proof.
  unfold selected, has_empty_tag. cbn [forallb]. rewrite andb_true_r.
  rewrite (like_pattern_plain EmptyString _ eq_refl). unfold contains_nocase.
  apply contains_commas_lower.
Qed.

Lemma wallaby2json_provisioned env s db tb :
  provisioned db tb ->
  Forall (fun t => sql_safe t = true) (split_on "," s) ->
  snd (wallaby2json_documents env s db)
  = map_loads (filter (selected (split_on "," s)) (rows tb)).
Proof.
  intros [Ht Hs] Hsafe. unfold wallaby2json_documents.
  rewrite (Wallaby_existing env db tb Ht).
  rewrite (get_by_tag_all_of env (split_on "," s) None true _ tb);
    [reflexivity | split; [reflexivity | exact Hs] | apply split_on_not_nil | exact Hsafe].
Qed.

Lemma wallaby2json_opens env s db :
  db = empty_database \/ reachable db ->
  Forall (fun t => sql_safe t = true) (split_on "," s) ->
  snd (wallaby2json_documents env s db)
  = map_loads (filter (selected (split_on "," s)) (rows_of db)).
Proof.
  intros [->|Hr] Hsafe.
  - unfold wallaby2json_documents. rewrite (Wallaby_fresh env empty_database eq_refl).
    rewrite (get_by_tag_all_of env (split_on "," s) None true _ (mkTable row_shape []));
      [reflexivity | apply provisioned_mk | apply split_on_not_nil | exact Hsafe].
  - destruct (reachable_rows db Hr) as (tb & Hp & -> & _).
    now apply wallaby2json_provisioned.
Qed.

(** X15.  What [wallaby2json] reports, for tags free of quote and NUL in
    a store that is new or was filled through the class: the decoded
    documents of exactly the records whose tag string matches the pattern
    of every comma-separated piece of [--all-tags], in table order, or the
    first exception of the decoding.  It never ends in the [ValueError] of
    [get_by_tag]: the default [--all-tags], empty, is split into the list
    of one empty tag, whose pattern selects the records with two commas
    in a row in their tag string. *)
Theorem X15_wallaby2json_reports_the_selected_records env s db :
  db = empty_database \/ reachable db ->
  sql_safe s = true ->
  snd (wallaby2json_documents env s db)
  = map_loads (filter (selected (split_on "," s)) (rows_of db)) /\
  (forall docs,
      snd (wallaby2json_documents env s db) = Return docs ->
      map fst docs = filter (selected (split_on "," s)) (rows_of db) /\ decoded docs) /\
  (s = EmptyString ->
   snd (wallaby2json_documents env s db) = map_loads (filter has_empty_tag (rows_of db))).
Proof.
  intros Hdb Hs.
  pose proof (wallaby2json_opens env s db Hdb (sql_safe_split s Hs)) as H.
  split; [exact H|]. split.
  - intros docs Hd. rewrite H in Hd. now apply map_loads_spec.
  - intros ->. rewrite H. f_equal. apply filter_ext. intros r.
    apply selected_empty_tag.
Qed.

Lemma X15_wallaby2json_reports_the_selected_records_witness :
  snd (wallaby2json_documents (mkEnv [] 3%float []) EmptyString
         (fst (log (mkEnv ["job"] 1%float []) (PyStr "done") None None
                   (fst (Wallaby (mkEnv [] 0%float []) empty_database)))))
  = map_loads
      (filter has_empty_tag
         (rows_of (fst (log (mkEnv ["job"] 1%float []) (PyStr "done") None None
                            (fst (Wallaby (mkEnv [] 0%float []) empty_database)))))).
Proof.
  apply (X15_wallaby2json_reports_the_selected_records (mkEnv [] 3%float []) EmptyString
           (fst (log (mkEnv ["job"] 1%float []) (PyStr "done") None None
                     (fst (Wallaby (mkEnv [] 0%float []) empty_database))))).
  - right. exists (mkEnv [] 0%float []),
      [CallLog (mkEnv ["job"] 1%float []) (PyStr "done") None None]. reflexivity.
  - reflexivity.
  - reflexivity.
Defined.

Lemma filter_snoc {A} (f : A -> bool) (l : list A) (x : A) :
  filter f (l ++ [x])%list = (filter f l ++ (if f x then [x] else []))%list.
Proof. rewrite filter_app. reflexivity. Qed.

Lemma cli_tags_nul_free (args : Args) :
  Forall (fun u => has_char "000" u = false) (stored_tags (Some (cli_tags args))).
Proof.
  cbn [stored_tags cli_tags]. constructor; [reflexivity|].
  destruct (is_empty (args_tags args)); [constructor|].
  apply has_char_split. pose proof (args_are_c_strings args) as H.
  apply andb_prop in H. now apply nul_free_spec.
Qed.

(** X16.  The report finds what [cli] logged.  After a run of [cli] that
    got its output, [wallaby2json] asked for tags that are all among
    [cli] and the run's [--tags] (and hold no quote, NUL or wildcard)
    has the run's document, paired with the new record, in any report
    it returns; on a store that was new before the run, the report is
    that one document.  The default report, for no tags at all, leaves
    the record out unless its tag string has two commas in a row. *)
Theorem X16_wallaby2json_finds_what_cli_logged env proc args db output env' s :
  db = empty_database \/ reachable db ->
  NoDup (map fst (environ proc)) ->
  cli_output proc args = Done output ->
  PrimFloat.is_nan (now env) = false ->
  (Z.of_nat (List.length (rows_of db)) < max_rowid)%Z ->
  Forall (fun t => plain_tag t = true /\ In t (cli_tags args)) (split_on "," s) ->
  exists r,
    rows_of (fst (cli env proc args db)) = (rows_of db ++ [r])%list /\
    (forall docs,
        snd (wallaby2json_documents env' s (fst (cli env proc args db))) = Return docs ->
        In (r, cli_result (environ proc) output (args_command args)) docs) /\
    (db = empty_database ->
     snd (wallaby2json_documents env' s (fst (cli env proc args db)))
     = Return [(r, cli_result (environ proc) output (args_command args))]) /\
    (has_empty_tag r = false ->
     forall docs,
       snd (wallaby2json_documents env' EmptyString (fst (cli env proc args db))) = Return docs ->
       ~ In r (map fst docs)).
Proof.
  intros Hdb Henv Hout Hnan Hroom Htags.
  destruct (cli_done env proc args db output Hdb Hout Hnan Hroom) as (stm & ->).
  cbn [fst].
  set (doc := cli_result (environ proc) output (args_command args)).
  set (r := new_row (1 + Z.of_nat (List.length (rows_of db))) env (Some (cli_tags args))
                    (or_none (args_command args)) (encode doc)).
  assert (Hload : json_loads_stored (row_results r) = Return doc).
  { unfold r, new_row. cbn [row_results]. rewrite kept_as_text by exact I.
    cbn [json_loads_stored]. apply loads_dumps. now apply cli_result_document. }
  assert (Hsel : selected (split_on "," s) r = true).
  { unfold selected. apply forallb_forall. intros t Ht.
    rewrite Forall_forall in Htags. destruct (Htags t Ht) as [Hplain Hin].
    rewrite (like_pattern_plain t _ Hplain).
    rewrite (c_string_id (row_tagscsv r))
      by (apply (tagscsv_nul_free (Some (cli_tags args))), cli_tags_nul_free).
    exact (carries_own_tag t (cli_tags args) r eq_refl Hin). }
  assert (Hsafe : Forall (fun t => sql_safe t = true) (split_on "," s)).
  { eapply Forall_impl; [|exact Htags]. intros t [Ht _].
    apply plain_tag_spec in Ht. exact (proj1 Ht). }
  exists r. split; [reflexivity|].
  pose proof (wallaby2json_provisioned env' s _ _ (provisioned_mk (rows_of db ++ [r])%list stm) Hsafe)
    as Hrep.
  cbn [rows] in Hrep. rewrite filter_snoc, Hsel in Hrep.
  split; [|split].
  - intros docs Hd. rewrite Hrep in Hd.
    apply (map_loads_In _ _ r doc Hd); [|exact Hload].
    apply in_or_app. right. now left.
  - intros ->. rewrite Hrep. cbn [rows_of results_table empty_database filter app map_loads].
    rewrite Hload. reflexivity.
  - intros Hno docs Hd.
    rewrite (wallaby2json_provisioned env' EmptyString _ _
               (provisioned_mk (rows_of db ++ [r])%list stm)) in Hd
      by (repeat constructor).
    apply map_loads_spec in Hd. destruct Hd as [-> _]. cbn [rows].
    rewrite filter_In. intros [_ Hr]. rewrite selected_empty_tag in Hr. congruence.
Qed.

Lemma X16_wallaby2json_finds_what_cli_logged_witness :
  exists r,
    rows_of (fst (cli (mkEnv ["wallaby"; "-c"; "date"] 5%float [])
                      (mkProcess [("HOME", "/root")] true EmptyString
                                 (fun command environment => Output ("ran " ++ command)))
                      (mkArgs "date" "exp,run 1" eq_refl) empty_database))
    = (rows_of empty_database ++ [r])%list /\
    (forall docs,
        snd (wallaby2json_documents (mkEnv [] 6%float []) "run 1,cli"
               (fst (cli (mkEnv ["wallaby"; "-c"; "date"] 5%float [])
                         (mkProcess [("HOME", "/root")] true EmptyString
                                    (fun command environment => Output ("ran " ++ command)))
                         (mkArgs "date" "exp,run 1" eq_refl) empty_database))) = Return docs ->
        In (r, cli_result [("HOME", "/root")] "ran date" "date") docs) /\
    (empty_database = empty_database ->
     snd (wallaby2json_documents (mkEnv [] 6%float []) "run 1,cli"
            (fst (cli (mkEnv ["wallaby"; "-c"; "date"] 5%float [])
                      (mkProcess [("HOME", "/root")] true EmptyString
                                 (fun command environment => Output ("ran " ++ command)))
                      (mkArgs "date" "exp,run 1" eq_refl) empty_database)))
     = Return [(r, cli_result [("HOME", "/root")] "ran date" "date")]) /\
    (has_empty_tag r = false ->
     forall docs,
       snd (wallaby2json_documents (mkEnv [] 6%float []) EmptyString
              (fst (cli (mkEnv ["wallaby"; "-c"; "date"] 5%float [])
                        (mkProcess [("HOME", "/root")] true EmptyString
                                   (fun command environment => Output ("ran " ++ command)))
                        (mkArgs "date" "exp,run 1" eq_refl) empty_database))) = Return docs ->
       ~ In r (map fst docs)).
Proof.
  apply (X16_wallaby2json_finds_what_cli_logged
           (mkEnv ["wallaby"; "-c"; "date"] 5%float [])
           (mkProcess [("HOME", "/root")] true EmptyString
                      (fun command environment => Output ("ran " ++ command)))
           (mkArgs "date" "exp,run 1" eq_refl) empty_database "ran date"
           (mkEnv [] 6%float []) "run 1,cli").
  - left. reflexivity.
  - repeat constructor; cbn; intuition discriminate.
  - reflexivity.
  - reflexivity.
  - reflexivity.
  - cbn. repeat (constructor; [split; [reflexivity | cbn; intuition reflexivity] |]).
    constructor.
Defined.

(** ** [raw_query] *)

(** X17.  [raw_query] binds no parameters.  On a store that holds the
    table, a statement with placeholders (such as the INSERT of [log] or
    the SELECT of [get_results_since]) ends in an error of the engine
    and leaves the table as it was, whatever [as_dataframe] is; asked for
    a frame, a SELECT on the tag strings returns the frame of the rows
    its patterns match, read at the call. *)
Theorem X17_raw_query_binds_no_parameters env q db tb s :
  provisioned db tb ->
  compile q = Return s ->
  (forall df,
      marks_of s <> 0%nat ->
      raw_query env q df db
      = (mkDatabase (Some tb) (statements db ++ [q])%list, Raise SqliteError)) /\
  (forall dnf,
      s = SelectWhereTags dnf ->
      raw_query env q true db
      = (mkDatabase (Some tb) (statements db ++ [q])%list,
         Return (Frame ["id"; "jobtext"; "tagscsv"; "date"; "results"]
           (filter (fun r => existsb (forallb (fun p => like_match p (row_tagscsv r))) dnf)
                   (rows tb))))).
Proof.
  intros Hp Hc. split.
  - intros df Hm. unfold raw_query. rewrite execute_eq. unfold sqlite_execute.
    rewrite Hc, (proj1 Hp). unfold run_stmt. cbn [List.length].
    destruct (marks_of s); [now elim Hm | reflexivity].
  - intros dnf ->. unfold raw_query.
    rewrite (execute_select_tags env q dnf db tb Hc Hp). reflexivity.
Qed.

Lemma X17_raw_query_binds_no_parameters_witness :
  raw_query (mkEnv [] 2%float []) select_since_cmd false
            (fst (Wallaby (mkEnv [] 0%float []) empty_database))
  = (mkDatabase (Some (mkTable row_shape []))
       (statements (fst (Wallaby (mkEnv [] 0%float []) empty_database)) ++ [select_since_cmd])%list,
     Raise SqliteError).
Proof.
  refine (proj1 (X17_raw_query_binds_no_parameters (mkEnv [] 2%float []) select_since_cmd
                   (fst (Wallaby (mkEnv [] 0%float []) empty_database))
                   (mkTable row_shape []) SelectWhereDateGt _ _) false _).
  - split; reflexivity.
  - reflexivity.
  - discriminate.
Defined.

(** ** The text [json.dumps] writes *)

Lemma string_forallb_impl (p q : ascii -> bool) (s : string) :
  (forall c, p c = true -> q c = true) ->
  string_forallb p s = true -> string_forallb q s = true.
Proof.
  intros H. induction s as [|c s IH]; [reflexivity|]. cbn [string_forallb].
  intros Hs. apply andb_prop in Hs. destruct Hs as [Hc Hs].
  now rewrite (H c Hc), (IH Hs).
Qed.

Lemma digit_printable (c : ascii) : is_digit c = true -> printable c = true.
Proof.
  destruct c as [b0 b1 b2 b3 b4 b5 b6 b7].
  destruct b0, b1, b2, b3, b4, b5, b6, b7; try discriminate; reflexivity.
Qed.

Lemma repr_int_printable (n : Z) : string_forallb printable (repr_int n) = true.
Proof.
  destruct n as [|p|p].
  - reflexivity.
  - rewrite repr_int_pos. apply (string_forallb_impl is_digit); [apply digit_printable|].
    apply digits_of_uint.
  - rewrite repr_int_neg. cbn [string_forallb].
    rewrite (string_forallb_impl is_digit printable _ digit_printable (digits_of_uint _)).
    reflexivity.
Qed.

Lemma escape_char_printable (c : ascii) : string_forallb printable (escape_char c) = true.
Proof.
  destruct c as [b0 b1 b2 b3 b4 b5 b6 b7].
  destruct b0, b1, b2, b3, b4, b5, b6, b7; reflexivity.
Qed.

Lemma encode_string_printable (s : string) : string_forallb printable (encode_string s) = true.
Proof.
  unfold encode_string. rewrite !forallb_append.
  assert (H : string_forallb printable (escape s) = true).
  { induction s as [|c s IH]; [reflexivity|]. cbn [escape].
    now rewrite forallb_append, escape_char_printable, IH. }
  rewrite H. reflexivity.
Qed.

Lemma join_printable (sep : string) (ls : list string) :
  string_forallb printable sep = true ->
  Forall (fun s => string_forallb printable s = true) ls ->
  string_forallb printable (join sep ls) = true.
Proof.
  intros Hsep H. unfold join. induction H as [|s ls Hs Hls IH]; [reflexivity|].
  destruct ls as [|t ls]; [exact Hs|].
  change (String.concat sep (s :: t :: ls)) with (s ++ sep ++ String.concat sep (t :: ls)).
  now rewrite !forallb_append, Hs, Hsep, IH.
Qed.

(** With [ensure_ascii], the text of any value is printable ASCII. *)
Lemma encode_printable (v : pyval) : string_forallb printable (encode v) = true.
Proof.
  induction v as [|b|n|s|l IH|d IH|] using pyval_induction.
  - reflexivity.
  - destruct b; reflexivity.
  - apply repr_int_printable.
  - apply encode_string_printable.
  - cbn [encode]. rewrite !forallb_append, join_printable; [reflexivity | reflexivity |].
    induction IH as [|x l Hx _ IHl]; cbn [map]; constructor; assumption.
  - cbn [encode]. rewrite !forallb_append, join_printable; [reflexivity | reflexivity |].
    induction IH as [|[k x] d Hx _ IHd]; cbn [map]; constructor; [|assumption].
    cbn [snd] in Hx. now rewrite !forallb_append, encode_string_printable, Hx.
  - reflexivity.
Qed.

(** X18.  Whatever characters the payload's strings and keys hold, the
    value [log] stores in the [results] column is written in printable
    ASCII only: [json.dumps] escapes quotes, backslashes, control
    characters and every character beyond [~]. *)
Theorem X18_stored_results_are_printable_ascii env results tags jobtext db db' :
  log env results tags jobtext db = (db', Return true) ->
  exists r,
    rows_of db' = insert_row r (rows_of db) /\
    stored_text (row_results r) = encode (as_document results) /\
    string_forallb printable (stored_text (row_results r)) = true.
Proof.
  intros H. apply log_inversion in H.
  destruct H as (tb & text & i & [Ht _] & Hd & _ & _ & ->).
  assert (Htext : text = encode (as_document results)).
  { unfold json_dumps in Hd. destruct (serializable (as_document results)); congruence. }
  subst text.
  exists (new_row i env tags jobtext (encode (as_document results))).
  assert (Hst : forall a s, stored_text (apply_affinity a s) = s).
  { intros a s. unfold apply_affinity.
    destruct a; try reflexivity; destruct (is_numeric_literal s); reflexivity. }
  split; [|split].
  - unfold rows_of. rewrite Ht. reflexivity.
  - unfold new_row. cbn [row_results]. apply Hst.
  - unfold new_row. cbn [row_results]. rewrite Hst. apply encode_printable.
Qed.

Lemma X18_stored_results_are_printable_ascii_witness :
  exists r,
    rows_of (fst (log (mkEnv ["job"] 1%float [])
                      (PyDict [(KStr (String "233" "t" ++ nl), PyStr (String "127" (chr dquote)))])
                      None None (fst (Wallaby (mkEnv [] 0%float []) empty_database))))
    = insert_row r (rows_of (fst (Wallaby (mkEnv [] 0%float []) empty_database))) /\
    stored_text (row_results r)
    = encode (as_document
                (PyDict [(KStr (String "233" "t" ++ nl), PyStr (String "127" (chr dquote)))])) /\
    string_forallb printable (stored_text (row_results r)) = true.
Proof.
  apply (X18_stored_results_are_printable_ascii (mkEnv ["job"] 1%float [])
           (PyDict [(KStr (String "233" "t" ++ nl), PyStr (String "127" (chr dquote)))])
           None None (fst (Wallaby (mkEnv [] 0%float []) empty_database))).
  reflexivity.
Defined.

(** ** Queries and the set of tags *)

Lemma forallb_same {A} (f : A -> bool) (l l' : list A) :
  (forall x, In x l <-> In x l') -> forallb f l = forallb f l'.
Proof.
  intros H. apply eq_true_iff_eq. rewrite !forallb_forall.
  split; intros Hf x Hx; apply Hf, H, Hx.
Qed.

Lemma existsb_same {A} (f : A -> bool) (l l' : list A) :
  (forall x, In x l <-> In x l') -> existsb f l = existsb f l'.
Proof.
  intros H. apply eq_true_iff_eq. rewrite !existsb_exists.
  split; intros (x & Hx & Hf); exists x; (split; [apply H, Hx | exact Hf]).
Qed.

Lemma forallb_existsb {A} (f : A -> bool) (l : list A) :
  l <> []%list -> forallb f l = true -> existsb f l = true.
Proof.
  destruct l as [|x l]; [congruence|]. intros _ H. cbn [forallb existsb] in *.
  apply andb_prop in H. destruct H as [-> _]. reflexivity.
Qed.

(** X19.  The answer of [get_by_tag] depends on the set of tags asked
    for, not on their order or repetition, and the two modes are ordered:
    every record returned for all of the tags is returned for any of
    them, a further tag can only take records away from an [all_of]
    answer and only add records to an [any_of] answer.  (Tags free of
    quote and NUL, on a store filled through the class.) *)
Theorem X19_tag_queries_depend_on_the_set_of_tags env df db l l' :
  reachable db ->
  l <> []%list ->
  Forall (fun t => sql_safe t = true) l ->
  (forall t, In t l <-> In t l') ->
  snd (get_by_tag env (Some (TagList l)) None df db)
  = snd (get_by_tag env (Some (TagList l')) None df db) /\
  snd (get_by_tag env None (Some (TagList l)) df db)
  = snd (get_by_tag env None (Some (TagList l')) df db) /\
  (forall r, returned (snd (get_by_tag env (Some (TagList l)) None df db)) r ->
             returned (snd (get_by_tag env None (Some (TagList l)) df db)) r) /\
  (forall t r, sql_safe t = true ->
               returned (snd (get_by_tag env (Some (TagList (t :: l))) None df db)) r ->
               returned (snd (get_by_tag env (Some (TagList l)) None df db)) r) /\
  (forall t r, sql_safe t = true ->
               returned (snd (get_by_tag env None (Some (TagList l)) df db)) r ->
               returned (snd (get_by_tag env None (Some (TagList (t :: l))) df db)) r).
Proof.
  intros Hr Hnil Hsafe Hsame.
  destruct (reachable_rows db Hr) as (tb & Hp & _ & _).
  assert (Hnil' : l' <> []%list).
  { destruct l as [|t l]; [congruence|]. intros ->. apply (Hsame t). now left. }
  assert (Hsafe' : Forall (fun t => sql_safe t = true) l').
  { rewrite Forall_forall in *. intros t Ht. apply Hsafe, Hsame, Ht. }
  rewrite (get_by_tag_all_of env l None df db tb Hp Hnil Hsafe).
  rewrite (get_by_tag_all_of env l' None df db tb Hp Hnil' Hsafe').
  rewrite (get_by_tag_any_of env None l df db tb Hp eq_refl Hnil Hsafe).
  rewrite (get_by_tag_any_of env None l' df db tb Hp eq_refl Hnil' Hsafe').
  cbn [snd]. repeat split.
  - do 2 f_equal. apply filter_ext. intros r. now apply forallb_same.
  - do 2 f_equal. apply filter_ext. intros r. now apply existsb_same.
  - intros r. rewrite !returned_render, !filter_In. intros [Hin Hf].
    split; [exact Hin | now apply forallb_existsb].
  - intros t r Ht.
    rewrite (get_by_tag_all_of env (t :: l) None df db tb Hp) by (try discriminate; now constructor).
    cbn [snd]. rewrite !returned_render, !filter_In. cbn [forallb].
    intros [Hin Hf]. apply andb_prop in Hf. now split.
  - intros t r Ht.
    rewrite (get_by_tag_any_of env None (t :: l) df db tb Hp eq_refl)
      by (try discriminate; now constructor).
    cbn [snd]. rewrite !returned_render, !filter_In. cbn [existsb].
    intros [Hin Hf]. split; [exact Hin|]. rewrite Hf. apply orb_true_r.
Qed.

Lemma X19_tag_queries_depend_on_the_set_of_tags_witness :
  snd (get_by_tag (mkEnv [] 2%float []) (Some (TagList ["a"; "b"])) None false
         (fst (log (mkEnv ["job"] 1%float []) (PyStr "done") (Some ["b"; "a"]) None
                   (fst (Wallaby (mkEnv [] 0%float []) empty_database)))))
  = snd (get_by_tag (mkEnv [] 2%float []) (Some (TagList ["b"; "a"; "b"])) None false
           (fst (log (mkEnv ["job"] 1%float []) (PyStr "done") (Some ["b"; "a"]) None
                     (fst (Wallaby (mkEnv [] 0%float []) empty_database))))).
Proof.
  apply (X19_tag_queries_depend_on_the_set_of_tags (mkEnv [] 2%float []) false
           (fst (log (mkEnv ["job"] 1%float []) (PyStr "done") (Some ["b"; "a"]) None
                     (fst (Wallaby (mkEnv [] 0%float []) empty_database))))
           ["a"; "b"] ["b"; "a"; "b"]).
  - exists (mkEnv [] 0%float []),
      [CallLog (mkEnv ["job"] 1%float []) (PyStr "done") (Some ["b"; "a"]) None]. reflexivity.
  - discriminate.
  - repeat constructor.
  - intros t. cbn [In]. intuition.
Defined.

(** ** [log] and the queries together *)

(** X20.  The timestamp of a record is the clock at the call of [log],
    and it decides when [get_results_since] finds the record: after a
    successful [log], the new record is returned for a timestamp exactly
    when the timestamp is strictly below that clock. *)
Theorem X20_a_record_is_found_after_its_timestamp env results tags jobtext db db' env' df :
  reachable db ->
  log env results tags jobtext db = (db', Return true) ->
  exists r,
    rows_of db' = (rows_of db ++ [r])%list /\
    row_date r = now env /\
    forall since,
      returned (snd (get_results_since env' since df db')) r
      <-> PrimFloat.ltb since (now env) = true.
Proof.
  intros Hr Hlog.
  destruct (log_success_shape _ _ _ _ _ _ Hr Hlog) as (text & _ & ->).
  set (r := new_row (1 + Z.of_nat (List.length (rows_of db))) env tags jobtext text).
  exists r. split; [reflexivity|]. split; [reflexivity|].
  intros since.
  rewrite (get_results_since_rows env' since df _ _ (provisioned_mk _ _)).
  rewrite returned_render, filter_In. cbn [rows]. split.
  - intros [_ H]. exact H.
  - intros H. split; [|exact H]. apply in_or_app. right. now left.
Qed.

Lemma X20_a_record_is_found_after_its_timestamp_witness :
  exists r,
    rows_of (fst (log (mkEnv ["job"] 7%float []) (PyStr "done") None None
                      (fst (Wallaby (mkEnv [] 0%float []) empty_database))))
    = (rows_of (fst (Wallaby (mkEnv [] 0%float []) empty_database)) ++ [r])%list /\
    row_date r = 7%float /\
    forall since,
      returned (snd (get_results_since (mkEnv [] 9%float []) since true
                       (fst (log (mkEnv ["job"] 7%float []) (PyStr "done") None None
                                 (fst (Wallaby (mkEnv [] 0%float []) empty_database)))))) r
      <-> PrimFloat.ltb since 7%float = true.
Proof.
  apply (X20_a_record_is_found_after_its_timestamp (mkEnv ["job"] 7%float []) (PyStr "done")
           None None (fst (Wallaby (mkEnv [] 0%float []) empty_database)) _
           (mkEnv [] 9%float []) true).
  - exists (mkEnv [] 0%float []), []. reflexivity.
  - reflexivity.
Defined.

(** X21.  One integer payload breaks every report that selects it:
    after a successful [log] of a bare integer, [wallaby2json] returns no
    report for tags (free of quote and NUL) whose patterns match the new
    record, because the decoding of that record raises; logged without
    tags, the record is selected by the default report. *)
Theorem X21_an_integer_payload_breaks_the_report env n tags jobtext db db' env' :
  reachable db ->
  log env (PyInt n) tags jobtext db = (db', Return true) ->
  exists r,
    rows_of db' = (rows_of db ++ [r])%list /\
    (forall s docs,
        sql_safe s = true ->
        selected (split_on "," s) r = true ->
        snd (wallaby2json_documents env' s db') <> Return docs) /\
    (tags = None -> selected (split_on "," EmptyString) r = true).
Proof.
  intros Hr Hlog.
  destruct (log_success_shape _ _ _ _ _ _ Hr Hlog) as (text & Hd & ->).
  cbn [as_document] in Hd. rewrite (serializable_dumps (PyInt n) eq_refl) in Hd.
  injection Hd as <-.
  set (r := new_row (1 + Z.of_nat (List.length (rows_of db))) env tags jobtext (encode (PyInt n))).
  assert (Hnum : json_loads_stored (row_results r) = Raise TypeError).
  { unfold r, new_row. cbn [row_results encode].
    change (affinity_of "JSON") with NUMERIC. unfold apply_affinity.
    now rewrite repr_int_is_numeric. }
  exists r. split; [reflexivity|]. split.
  - intros s docs Hs Hsel Hdocs.
    rewrite (wallaby2json_provisioned env' s _ _ (provisioned_mk _ _) (sql_safe_split s Hs))
      in Hdocs.
    cbn [rows] in Hdocs. apply map_loads_spec in Hdocs. destruct Hdocs as [Hm Hdec].
    assert (Hin : In r (map fst docs)).
    { rewrite Hm, filter_In. split; [|exact Hsel]. apply in_or_app. right. now left. }
    apply in_map_iff in Hin. destruct Hin as ([r' v] & E & Hin). cbn [fst] in E. subst r'.
    unfold decoded in Hdec. rewrite Forall_forall in Hdec. specialize (Hdec _ Hin).
    cbn beta iota in Hdec. congruence.
  - intros ->. reflexivity.
Qed.

Lemma X21_an_integer_payload_breaks_the_report_witness :
  exists r,
    rows_of (fst (log (mkEnv ["job"] 1%float []) (PyInt 42) None None
                      (fst (Wallaby (mkEnv [] 0%float []) empty_database))))
    = (rows_of (fst (Wallaby (mkEnv [] 0%float []) empty_database)) ++ [r])%list /\
    (forall s docs,
        sql_safe s = true ->
        selected (split_on "," s) r = true ->
        snd (wallaby2json_documents (mkEnv [] 2%float []) s
               (fst (log (mkEnv ["job"] 1%float []) (PyInt 42) None None
                         (fst (Wallaby (mkEnv [] 0%float []) empty_database)))))
        <> Return docs) /\
    (@None (list string) = None -> selected (split_on "," EmptyString) r = true).
Proof.
  apply (X21_an_integer_payload_breaks_the_report (mkEnv ["job"] 1%float []) 42 None None
           (fst (Wallaby (mkEnv [] 0%float []) empty_database)) _ (mkEnv [] 2%float [])).
  - exists (mkEnv [] 0%float []), []. reflexivity.
  - reflexivity.
Defined.
